(** * StockSig: indicator, pattern, signal and backtest stages

    A shallow embedding of [analysis/indicators.py], [analysis/patterns.py],
    [analysis/signals.py], [analysis/backtest.py] and of the methods of
    [analysis/core.py] that run them.

    Numbers.  A float64 is modelled as an exact rational extended with
    NaN and the two infinities: the exceptional cases follow IEEE 754 as
    numpy applies it (x/0 is an infinity or NaN, NaN compares false with
    everything); rounding, overflow and signed zeros are not modelled.
    Where a statement depends on the size of the numbers, its inputs are
    bounded in magnitude ([moderate]) so that the float64 computation
    stays in range.
    The results of the arithmetic are kept in lowest terms ([Qred]).  The
    square root and the real power are library routines with irrational
    results; they are taken from a [NumLib] instance.

    Tables.  A pandas DataFrame is a mutable object: frames live in a
    store and are passed by reference, so that column assignment through
    one name is seen through every alias.  A Series is a value. *)

From Stdlib Require Import QArith Qabs ZArith Lia Lqa Bool.
From stdpp Require Import base option list gmap strings pretty.

(** ** Floats *)

Inductive float : Type :=
  | NaN
  | NInf
  | Fin (q : Q)
  | PInf.

Class NumLib := {
  np_sqrt : Q -> Q;            (* square root of a non-negative rational *)
  np_power : float -> float -> float   (* the ** operator on float64 *)
}.

Module Float.

Definition isnan (a : float) : bool :=
  match a with NaN => true | _ => false end.

Definition notna (a : float) : bool := negb (isnan a).

Definition isfinite (a : float) : bool :=
  match a with Fin _ => true | _ => false end.

Definition of_Z (z : Z) : float := Fin (inject_Z z).
Definition of_nat (n : nat) : float := Fin (inject_Z (Z.of_nat n)).

Definition inf_of_sign (x : Q) : float :=
  match (x ?= 0)%Q with
  | Eq => NaN
  | Gt => PInf
  | Lt => NInf
  end.

Definition neg (a : float) : float :=
  match a with
  | NaN => NaN
  | NInf => PInf
  | Fin x => Fin (- x)
  | PInf => NInf
  end.

Definition add (a b : float) : float :=
  match a, b with
  | NaN, _ | _, NaN => NaN
  | Fin x, Fin y => Fin (Qred (x + y))
  | PInf, NInf | NInf, PInf => NaN
  | PInf, _ | _, PInf => PInf
  | NInf, _ | _, NInf => NInf
  end.

Definition sub (a b : float) : float := add a (neg b).

Definition mul (a b : float) : float :=
  match a, b with
  | NaN, _ | _, NaN => NaN
  | Fin x, Fin y => Fin (Qred (x * y))
  | Fin x, PInf | PInf, Fin x => inf_of_sign x
  | Fin x, NInf | NInf, Fin x => inf_of_sign (- x)
  | PInf, PInf | NInf, NInf => PInf
  | PInf, NInf | NInf, PInf => NInf
  end.

Definition div (a b : float) : float :=
  match a, b with
  | NaN, _ | _, NaN => NaN
  | Fin x, Fin y =>
      match (y ?= 0)%Q with
      | Eq => inf_of_sign x
      | _ => Fin (Qred (x / y))
      end
  | Fin _, (PInf | NInf) => Fin 0
  | PInf, Fin y => match (y ?= 0)%Q with Lt => NInf | _ => PInf end
  | NInf, Fin y => match (y ?= 0)%Q with Lt => PInf | _ => NInf end
  | (PInf | NInf), (PInf | NInf) => NaN
  end.

Definition abs (a : float) : float :=
  match a with
  | NaN => NaN
  | Fin x => Fin (Qabs x)
  | _ => PInf
  end.

(** Ordering of two floats; [None] when one of them is NaN. *)
Definition cmp (a b : float) : option comparison :=
  match a, b with
  | NaN, _ | _, NaN => None
  | Fin x, Fin y => Some (x ?= y)%Q
  | NInf, NInf | PInf, PInf => Some Eq
  | NInf, _ | _, PInf => Some Lt
  | _, NInf | PInf, _ => Some Gt
  end.

Definition lt (a b : float) : bool :=
  match cmp a b with Some Lt => true | _ => false end.
Definition gt (a b : float) : bool := lt b a.
Definition le (a b : float) : bool :=
  match cmp a b with Some Lt | Some Eq => true | _ => false end.
Definition ge (a b : float) : bool := le b a.
Definition eqb (a b : float) : bool :=
  match cmp a b with Some Eq => true | _ => false end.
Definition neqb (a b : float) : bool := negb (eqb a b).

Definition sqrt `{NumLib} (a : float) : float :=
  match a with
  | NaN | NInf => NaN
  | Fin x => match (x ?= 0)%Q with Lt => NaN | _ => Fin (np_sqrt x) end
  | PInf => PInf
  end.

(** Equality of floats up to the representation of the rational. *)
Definition feq (a b : float) : Prop :=
  match a, b with
  | NaN, NaN | NInf, NInf | PInf, PInf => True
  | Fin x, Fin y => (x == y)%Q
  | _, _ => False
  end.

End Float.

Notation "a ⊕ b" := (Float.add a b) (at level 50, left associativity).
Notation "a ⊖ b" := (Float.sub a b) (at level 50, left associativity).
Notation "a ⊗ b" := (Float.mul a b) (at level 40, left associativity).
Notation "a ⊘ b" := (Float.div a b) (at level 40, left associativity).
Notation "a ≃ b" := (Float.feq a b) (at level 70, no associativity).

(** ** pandas Series and numpy arrays *)

Abbreviation Series := (list float).

Module Series.

Definition map2 (f : float -> float -> float) (a b : Series) : Series :=
  zip_with f a b.

Definition cmp2 (f : float -> float -> bool) (a b : Series) : list bool :=
  zip_with f a b.

Definition cmp_scalar (f : float -> float -> bool) (a : Series) (v : float)
  : list bool :=
  fmap (fun x => f x v) a.

Definition mask_and (a b : list bool) : list bool := zip_with andb a b.

(** [s.shift(periods)] *)
Definition shift (periods : Z) (s : Series) : Series :=
  match periods with
  | Z0 => s
  | Zpos p => take (length s) (replicate (Pos.to_nat p) NaN ++ s)
  | Zneg p =>
      drop (Pos.to_nat p) s
        ++ replicate (Nat.min (Pos.to_nat p) (length s)) NaN
  end.

(** [s.cumsum()]: NaN entries are skipped and stay NaN. *)
Fixpoint cumsum_from (acc : float) (s : Series) : Series :=
  match s with
  | [] => []
  | x :: s' =>
      if Float.isnan x then NaN :: cumsum_from acc s'
      else let acc' := acc ⊕ x in acc' :: cumsum_from acc' s'
  end.
Definition cumsum (s : Series) : Series := cumsum_from (Fin 0) s.

(** [s.cummax()]: NaN entries are skipped and stay NaN. *)
Fixpoint cummax_from (acc : option float) (s : Series) : Series :=
  match s with
  | [] => []
  | x :: s' =>
      if Float.isnan x then NaN :: cummax_from acc s'
      else
        let m := match acc with
                 | None => x
                 | Some a => if Float.lt a x then x else a
                 end in
        m :: cummax_from (Some m) s'
  end.
Definition cummax (s : Series) : Series := cummax_from None s.

(** [s.diff()] *)
Definition diff (s : Series) : Series := map2 Float.sub s (shift 1 s).

(** [s.fillna(v)] *)
Definition fillna (v : float) (s : Series) : Series :=
  fmap (fun x => if Float.isnan x then v else x) s.

(** Forward fill, the padding [pct_change] applies by default in pandas 2
    (later versions do not pad; the two differ only where a NaN follows a
    number). *)
Fixpoint ffill_from (last : float) (s : Series) : Series :=
  match s with
  | [] => []
  | x :: s' =>
      let y := if Float.isnan x then last else x in
      y :: ffill_from y s'
  end.
Definition ffill (s : Series) : Series := ffill_from NaN s.

(** [s.pct_change()] *)
Definition pct_change (s : Series) : Series :=
  let f := ffill s in
  fmap (fun x => x ⊖ Fin 1) (map2 Float.div f (shift 1 f)).

(** [s.where(cond, other)] *)
Definition where_ (cond : list bool) (other : float) (s : Series) : Series :=
  zip_with (fun (c : bool) x => if c then x else other) cond s.

Definition valid (s : Series) : Series := filter (fun x => Float.notna x = true) s.

Definition sum (s : Series) : float := foldl Float.add (Fin 0) s.

(** Mean of the non-NaN observations, NaN unless there are
    [min_periods] of them. *)
Definition mean_of (min_periods : nat) (w : Series) : float :=
  let v := valid w in
  if (length v <? min_periods)%nat then NaN
  else sum v ⊘ Float.of_nat (length v).

(** Sample variance (ddof = 1) of the non-NaN observations. *)
Definition var_of (min_periods : nat) (w : Series) : float :=
  let v := valid w in
  let n := length v in
  if ((n <? min_periods) || (n <=? 1))%nat then NaN
  else
    let m := sum v ⊘ Float.of_nat n in
    sum (fmap (fun x => (x ⊖ m) ⊗ (x ⊖ m)) v) ⊘ Float.of_nat (n - 1).

Definition std_of `{NumLib} (min_periods : nat) (w : Series) : float :=
  Float.sqrt (var_of min_periods w).

(** Maximum / minimum of the non-NaN observations. *)
Definition fmax (a b : float) : float := if Float.lt a b then b else a.
Definition fmin (a b : float) : float := if Float.lt b a then b else a.

Definition reduce (f : float -> float -> float) (w : Series) : float :=
  match w with
  | [] => NaN
  | x :: w' => foldl f x w'
  end.

(** [s.mean()], [s.std()], [s.max()]: NaN entries are skipped. *)
Definition mean (s : Series) : float := mean_of 1 s.
Definition std `{NumLib} (s : Series) : float := std_of 1 s.
Definition max (s : Series) : float := reduce fmax (valid s).

(** The trailing window of width [w] ending at row [t]. *)
Definition window_at (w t : nat) (s : Series) : Series :=
  drop (t + 1 - w) (take (t + 1) s).

Definition rolling (agg : Series -> float) (w : nat) (s : Series) : Series :=
  fmap (fun t => agg (window_at w t s)) (seq 0 (length s)).

(** [s.rolling(window=w, min_periods=p).mean()] and [.std()] *)
Definition rolling_mean (w p : nat) (s : Series) : Series :=
  rolling (mean_of p) w s.
Definition rolling_std `{NumLib} (w p : nat) (s : Series) : Series :=
  rolling (std_of p) w s.

(** [s.rolling(w, center=True)]: the window of row [t] ends at row
    [t + (w-1)/2]; [min_periods] defaults to [w], so a window cut by
    either end of the series gives NaN. *)
Definition window_centered (w t : nat) (s : Series) : Series :=
  let last := (t + (w - 1) / 2)%nat in
  if (last <? length s)%nat then window_at w last s else [].

Definition full_window (agg : Series -> float) (w : nat) (x : Series) : float :=
  let v := valid x in
  if (length v <? w)%nat then NaN else agg v.

Definition rolling_center (agg : Series -> float) (w : nat) (s : Series)
  : Series :=
  fmap (fun t => full_window agg w (window_centered w t s)) (seq 0 (length s)).

(** [s.ewm(span=n, adjust=False).mean()]: y0 = x0 and
    y_t = (1-a) y_(t-1) + a x_t with a = 2/(n+1).  A NaN observation
    repeats the previous value (the reweighting pandas applies after
    an interior gap is not modelled: the inputs here have no gaps). *)
Fixpoint ewm_from (alpha : Q) (prev : float) (s : Series) : Series :=
  match s with
  | [] => []
  | x :: s' =>
      let y := if Float.isnan x then prev
               else if Float.isnan prev then x
               else Fin (1 - alpha) ⊗ prev ⊕ Fin alpha ⊗ x in
      y :: ewm_from alpha y s'
  end.
Definition ewm_mean (span : Z) (s : Series) : Series :=
  ewm_from (2 / (inject_Z span + 1)) NaN s.

End Series.

(** ** The object store and the table operations *)

Inductive error : Type :=
  | KeyError (k : string)      (* a column that is not in the table *)
  | IndexError                 (* [iloc] outside the rows *)
  | ValueError                 (* a reduction over an empty array *)
  | LinAlgError                (* a least-squares fit that has no solution *)
  | BadRef.                    (* a reference to no table *)

Inductive result (A : Type) : Type :=
  | Ok (a : A)
  | Raise (e : error).
Arguments Ok {A} a.
Arguments Raise {A} e.

Record DataFrame : Type := mkFrame {
  nrows : nat;
  columns : gmap string Series
}.

Abbreviation ref := nat.
Abbreviation store := (list DataFrame).

Definition M (A : Type) : Type := store -> result (A * store).

#[global] Instance M_ret : MRet M := fun A a σ => Ok (a, σ).
#[global] Instance M_bind : MBind M := fun A B k m σ =>
  match m σ with
  | Ok (a, σ') => k a σ'
  | Raise e => Raise e
  end.

Definition raise {A} (e : error) : M A := fun _ => Raise e.

(** The value a computation returns from a store, if it returns. *)
Definition run_value {A} (m : M A) (σ : store) : option A :=
  match m σ with
  | Ok (a, _) => Some a
  | Raise _ => None
  end.

Module Frame.

Definition get (r : ref) : M DataFrame := fun σ =>
  match σ !! r with
  | Some f => Ok (f, σ)
  | None => Raise BadRef
  end.

Definition put (r : ref) (f : DataFrame) : M unit := fun σ =>
  Ok (tt, <[r := f]> σ).

Definition alloc (f : DataFrame) : M ref := fun σ =>
  Ok (length σ, σ ++ [f]).

(** [pd.DataFrame(index=...)]: a table with rows and no column. *)
Definition new (n : nat) : M ref := alloc (mkFrame n ∅).

(** [df.copy()] *)
Definition copy (r : ref) : M ref := f ← get r; alloc f.

(** [len(df)] *)
Definition len (r : ref) : M nat := f ← get r; mret (nrows f).

(** [df[k]] *)
Definition getcol (r : ref) (k : string) : M Series :=
  f ← get r;
  match columns f !! k with
  | Some c => mret c
  | None => raise (KeyError k)
  end.

(** [df[k] = c] *)
Definition with_col (k : string) (c : Series) (f : DataFrame) : DataFrame :=
  mkFrame (nrows f) (<[k := c]> (columns f)).

Definition setcol (r : ref) (k : string) (c : Series) : M unit :=
  f ← get r; put r (with_col k c f).

(** [df[k] = v] for a scalar [v] *)
Definition setconst (r : ref) (k : string) (v : float) : M unit :=
  f ← get r; put r (with_col k (replicate (nrows f) v) f).

(** [k in df.columns] *)
Definition has_col (r : ref) (k : string) : M bool :=
  f ← get r; mret (bool_decide (is_Some (columns f !! k))).

(** [df.loc[mask, k] = v] and [df.loc[mask, k] += d] *)
Definition assign_where (mask : list bool) (v : float) (c : Series) : Series :=
  zip_with (fun (m : bool) x => if m then v else x) mask c.

Definition add_where (mask : list bool) (d : float) (c : Series) : Series :=
  zip_with (fun (m : bool) x => if m then x ⊕ d else x) mask c.

Definition loc_set (r : ref) (mask : list bool) (k : string) (v : float)
  : M unit :=
  c ← getcol r k; setcol r k (assign_where mask v c).

Definition loc_add (r : ref) (mask : list bool) (k : string) (d : float)
  : M unit :=
  c ← getcol r k; setcol r k (add_where mask d c).

(** [df.drop(ks, axis=1)]: a new table without the columns [ks]. *)
Definition drop_cols (r : ref) (ks : list string) : M ref :=
  f ← get r;
  match list_find (fun k => columns f !! k = None) ks with
  | Some (_, k) => raise (KeyError k)
  | None => alloc (mkFrame (nrows f) (foldr delete (columns f) ks))
  end.

(** [for x in xs: body(x)] *)
Fixpoint for_each {A} (xs : list A) (body : A -> M unit) : M unit :=
  match xs with
  | [] => mret tt
  | x :: xs' => body x;; for_each xs' body
  end.

End Frame.

(** ** analysis/signals.py *)

Module SignalGenerator.

Import Series Frame.

Definition bullish_patterns : list string :=
  ["double_bottom"; "triangle_asc"; "triangle_sym"].
Definition bearish_patterns : list string :=
  ["double_top"; "hs_pattern"; "triangle_desc"].

Definition signal_weights : list (string * float) :=
  [ ("ma_signal", Fin 2.0); ("macd_signal", Fin 1.5); ("rsi_signal", Fin 1.0);
    ("bb_signal", Fin 1.0); ("pattern_signal", Fin 2.0); ("sr_signal", Fin 1.5) ].

(** [df.sum(axis=1)] over the given columns: NaN counts as 0. *)
Definition add_skipna (acc x : float) : float :=
  if Float.isnan x then acc else acc ⊕ x.

Definition sum_axis1 (n : nat) (cs : list Series) : Series :=
  foldl (zip_with add_skipna) (replicate n (Fin 0)) cs.

(** [signals[list(keys)].mul(list(values))] *)
Fixpoint weighted (r : ref) (ws : list (string * float)) : M (list Series) :=
  match ws with
  | [] => mret []
  | (k, w) :: ws' =>
      c ← getcol r k;
      cs ← weighted r ws';
      mret (fmap (fun x => x ⊗ w) c :: cs)
  end.

Definition generate_signals (self_data : ref) : M ref :=
  n ← len self_data;
  signals ← new n;
  setconst signals "signal" (Fin 0);;
  (* 1. moving averages *)
  setconst signals "ma_signal" (Fin 0);;
  ema_12 ← getcol self_data "ema_12";
  ema_26 ← getcol self_data "ema_26";
  sma_20 ← getcol self_data "sma_20";
  sma_50 ← getcol self_data "sma_50";
  loc_set signals
    (mask_and (cmp2 Float.gt ema_12 ema_26) (cmp2 Float.gt sma_20 sma_50))
    "ma_signal" (Fin 1);;
  loc_set signals
    (mask_and (cmp2 Float.lt ema_12 ema_26) (cmp2 Float.lt sma_20 sma_50))
    "ma_signal" (Fin (-1));;
  (* 2. MACD *)
  setconst signals "macd_signal" (Fin 0);;
  macd ← getcol self_data "macd";
  macd_signal ← getcol self_data "macd_signal";
  loc_set signals (cmp2 Float.gt macd macd_signal) "macd_signal" (Fin 1);;
  loc_set signals (cmp2 Float.lt macd macd_signal) "macd_signal" (Fin (-1));;
  (* 3. RSI *)
  setconst signals "rsi_signal" (Fin 0);;
  rsi_14 ← getcol self_data "rsi_14";
  loc_set signals (cmp_scalar Float.lt rsi_14 (Fin 30)) "rsi_signal" (Fin 1);;
  loc_set signals (cmp_scalar Float.gt rsi_14 (Fin 70)) "rsi_signal" (Fin (-1));;
  (* 4. Bollinger bands *)
  setconst signals "bb_signal" (Fin 0);;
  close ← getcol self_data "close";
  bb_lower ← getcol self_data "bb_lower";
  loc_set signals (cmp2 Float.lt close bb_lower) "bb_signal" (Fin 1);;
  bb_upper ← getcol self_data "bb_upper";
  loc_set signals (cmp2 Float.gt close bb_upper) "bb_signal" (Fin (-1));;
  (* 5. patterns *)
  setconst signals "pattern_signal" (Fin 0);;
  for_each bullish_patterns (fun pattern =>
    present ← has_col self_data pattern;
    if present : bool then
      p ← getcol self_data pattern;
      loc_add signals (cmp_scalar Float.eqb p (Fin 1)) "pattern_signal" (Fin 1)
    else mret tt);;
  for_each bearish_patterns (fun pattern =>
    present ← has_col self_data pattern;
    if present : bool then
      p ← getcol self_data pattern;
      loc_add signals (cmp_scalar Float.eqb p (Fin (-1))) "pattern_signal" (Fin (-1))
    else mret tt);;
  (* 6. support / resistance *)
  setconst signals "sr_signal" (Fin 0);;
  support ← getcol self_data "support";
  loc_set signals (cmp2 Float.le close support) "sr_signal" (Fin 1);;
  resistance ← getcol self_data "resistance";
  loc_set signals (cmp2 Float.ge close resistance) "sr_signal" (Fin (-1));;
  (* composite score *)
  weighted_signals ← weighted signals signal_weights;
  setcol signals "composite_score" (sum_axis1 n weighted_signals);;
  (* final signal *)
  setconst signals "signal" (Fin 0);;
  composite_score ← getcol signals "composite_score";
  loc_set signals (cmp_scalar Float.ge composite_score (Fin 3)) "signal" (Fin 1);;
  loc_set signals (cmp_scalar Float.le composite_score (Fin (-3))) "signal" (Fin (-1));;
  mret signals.

End SignalGenerator.


(** ** analysis/indicators.py *)

Module IndicatorCalculator.

Import Series Frame.

Definition add_moving_averages (df : ref) : M ref :=
  close ← getcol df "close";
  setcol df "sma_20" (rolling_mean 20 1 close);;
  setcol df "sma_50" (rolling_mean 50 1 close);;
  setcol df "ema_12" (ewm_mean 12 close);;
  setcol df "ema_26" (ewm_mean 26 close);;
  mret df.

(** The column name [f'rsi_{window}']. *)
Definition rsi_column (window : nat) : string :=
  "rsi_" +:+ pretty window.

Definition add_rsi (df : ref) (window : nat) : M ref :=
  close ← getcol df "close";
  let delta := diff close in
  let gain := where_ (cmp_scalar Float.gt delta (Fin 0)) (Fin 0) delta in
  let loss :=
    Float.neg <$> where_ (cmp_scalar Float.lt delta (Fin 0)) (Fin 0) delta in
  let avg_gain := rolling_mean window 1 gain in
  let avg_loss := rolling_mean window 1 loss in
  let rs := map2 Float.div avg_gain ((fun x => x ⊕ Fin 1e-10) <$> avg_loss) in
  setcol df (rsi_column window)
    ((fun x => Fin 100 ⊖ (Fin 100 ⊘ (Fin 1 ⊕ x))) <$> rs);;
  mret df.

Definition add_bollinger_bands `{NumLib} (df : ref) (window : nat) (std_dev : Z)
  : M ref :=
  close ← getcol df "close";
  setcol df "bb_middle" (rolling_mean window 1 close);;
  close ← getcol df "close";
  let std := rolling_std window 1 close in
  bb_middle ← getcol df "bb_middle";
  setcol df "bb_upper"
    (map2 Float.add bb_middle ((fun x => x ⊗ Float.of_Z std_dev) <$> std));;
  bb_middle ← getcol df "bb_middle";
  setcol df "bb_lower"
    (map2 Float.sub bb_middle ((fun x => x ⊗ Float.of_Z std_dev) <$> std));;
  mret df.

Definition add_macd (df : ref) : M ref :=
  has_12 ← has_col df "ema_12";
  has_26 ← (if has_12 : bool then has_col df "ema_26" else mret true);
  df ← (if negb has_12 || negb has_26 then add_moving_averages df else mret df);
  ema_12 ← getcol df "ema_12";
  ema_26 ← getcol df "ema_26";
  setcol df "macd" (map2 Float.sub ema_12 ema_26);;
  macd ← getcol df "macd";
  setcol df "macd_signal" (ewm_mean 9 macd);;
  macd ← getcol df "macd";
  macd_signal ← getcol df "macd_signal";
  setcol df "macd_hist" (map2 Float.sub macd macd_signal);;
  mret df.

Definition calculate_all_indicators `{NumLib} (df : ref) : M ref :=
  df ← add_moving_averages df;
  df ← add_rsi df 14;
  df ← add_bollinger_bands df 20 2;
  df ← add_macd df;
  mret df.

(** [s.rolling(window).max()]: [min_periods] defaults to the window. *)
Definition rolling_full (agg : Series -> float) (w : nat) (s : Series) : Series :=
  rolling (full_window agg w) w s.

Definition add_fibonacci_levels (df : ref) (window : nat) : M ref :=
  df ← copy df;
  high ← getcol df "high";
  setcol df "rolling_high" (rolling_full (reduce fmax) window high);;
  low ← getcol df "low";
  setcol df "rolling_low" (rolling_full (reduce fmin) window low);;
  rolling_high ← getcol df "rolling_high";
  rolling_low ← getcol df "rolling_low";
  let diff := map2 Float.sub rolling_high rolling_low in
  let level (k : Q) := map2 Float.sub rolling_high ((fun x => Fin k ⊗ x) <$> diff) in
  setcol df "fib_0" rolling_high;;
  setcol df "fib_0.236" (level 0.236%Q);;
  setcol df "fib_0.382" (level 0.382%Q);;
  setcol df "fib_0.5" (level 0.5%Q);;
  setcol df "fib_0.618" (level 0.618%Q);;
  rolling_low ← getcol df "rolling_low";
  setcol df "fib_1" rolling_low;;
  drop_cols df ["rolling_high"; "rolling_low"].

End IndicatorCalculator.

(** ** analysis/backtest.py *)

Record Performance : Type := mkPerformance {
  initial_capital : float;
  final_value : float;
  total_return_pct : float;
  annualized_return_pct : float;
  max_drawdown_pct : float;
  sharpe_ratio : float;
  total_trades : nat;
  buy_trades : nat;
  sell_trades : nat;
  buy_success_rate : float;
  sell_success_rate : float;
  portfolio : ref;
  positions : ref
}.

Module Backtester.

Import Series Frame.

(** [s.iloc[-1]] *)
Definition iloc_last (s : Series) : M float :=
  match last s with
  | Some x => mret x
  | None => raise IndexError
  end.

(** [df.fillna(v)]: a new table. *)
Definition frame_fillna (r : ref) (v : float) : M ref :=
  f ← get r; alloc (mkFrame (nrows f) (fillna v <$> columns f)).

(** [s[mask]] *)
Fixpoint select {A} (mask : list bool) (s : list A) : list A :=
  match mask, s with
  | m :: mask', x :: s' => if m then x :: select mask' s' else select mask' s'
  | _, _ => []
  end.

(** Mean of a boolean Series. *)
Definition bool_mean (bs : list bool) : float :=
  Float.of_nat (length (filter (fun b => b = true) bs)) ⊘ Float.of_nat (length bs).

(** The drawdown series [(cum_max - total) / cum_max] of [total]. *)
Definition drawdown (total : Series) : Series :=
  let cum_max := cummax total in
  map2 Float.div (map2 Float.sub cum_max total) cum_max.

Definition run_backtest `{NumLib} (self_data self_signals : ref)
    (initial_capital commission : float) : M Performance :=
  signals ← copy self_signals;
  data ← copy self_data;
  (* shift signals to avoid look-ahead bias *)
  signal ← getcol signals "signal";
  setcol signals "signal" (shift 1 signal);;
  (* initialize positions *)
  n ← len signals;
  empty ← new n;
  positions ← frame_fillna empty (Fin 0);
  signal ← getcol signals "signal";
  setcol positions "position" (cumsum signal);;
  (* calculate portfolio value *)
  n ← len positions;
  portfolio ← new n;
  position ← getcol positions "position";
  close ← getcol data "close";
  setcol portfolio "holdings" (map2 Float.mul position close);;
  setcol portfolio "cash"
    ((fun x => initial_capital ⊖ x) <$>
       cumsum ((fun x => x ⊗ (Fin 1 ⊕ commission)) <$>
                 map2 Float.mul (diff position) close));;
  cash ← getcol portfolio "cash";
  holdings ← getcol portfolio "holdings";
  setcol portfolio "total" (map2 Float.add cash holdings);;
  total ← getcol portfolio "total";
  setcol portfolio "returns" (fillna (Fin 0) (pct_change total));;
  (* performance metrics *)
  total ← getcol portfolio "total";
  last_total ← iloc_last total;
  let total_return := (last_total ⊘ initial_capital ⊖ Fin 1) ⊗ Fin 100 in
  n ← len portfolio;
  let annualized_return :=
    np_power (last_total ⊘ initial_capital)
             (Fin (252 / inject_Z (Z.of_nat (Nat.max n 1))))
      ⊖ Fin 1 in
  (* max drawdown *)
  let max_drawdown := max (drawdown total) in
  (* sharpe ratio with protection against zero std *)
  returns ← getcol portfolio "returns";
  let sharpe_ratio :=
    if (1 <? length returns)%nat && Float.neqb (std returns) (Fin 0)
    then mean returns ⊘ std returns ⊗ Float.sqrt (Fin 252)
    else Fin 0 in
  (* trade statistics *)
  position ← getcol positions "position";
  let trades := fillna (Fin 0) (diff position) in
  let buy_mask := cmp_scalar Float.gt trades (Fin 0) in
  let sell_mask := cmp_scalar Float.lt trades (Fin 0) in
  let buy_trades := select buy_mask trades in
  let sell_trades := select sell_mask trades in
  buy_success ←
    (if (0 <? length buy_trades)%nat then
       close ← getcol data "close";
       let entry := select buy_mask close in
       mret (bool_mean (cmp2 Float.gt (shift (-5) entry) entry))
     else mret (Fin 0));
  sell_success ←
    (if (0 <? length sell_trades)%nat then
       close ← getcol data "close";
       let entry := select sell_mask close in
       mret (bool_mean (cmp2 Float.lt (shift (-5) entry) entry))
     else mret (Fin 0));
  mret {|
    initial_capital := initial_capital;
    final_value := last_total;
    total_return_pct := total_return;
    annualized_return_pct := annualized_return ⊗ Fin 100;
    max_drawdown_pct := max_drawdown ⊗ Fin 100;
    sharpe_ratio := sharpe_ratio;
    total_trades := length buy_trades + length sell_trades;
    buy_trades := length buy_trades;
    sell_trades := length sell_trades;
    buy_success_rate := buy_success ⊗ Fin 100;
    sell_success_rate := sell_success ⊗ Fin 100;
    portfolio := portfolio;
    positions := positions
  |}.

End Backtester.

(** ** analysis/patterns.py *)

Inductive top_or_bottom : Type := top | bottom.
Inductive triangle_kind : Type := ascending | descending | symmetrical.

Module PatternDetector.

Import Series Frame.

(** numpy reductions: NaN propagates, an empty array is an error. *)
Definition np_fmax (a b : float) : float :=
  if Float.isnan a then a else if Float.isnan b then b
  else if Float.lt a b then b else a.
Definition np_fmin (a b : float) : float :=
  if Float.isnan a then a else if Float.isnan b then b
  else if Float.lt b a then b else a.

Definition np_reduce (f : float -> float -> float) (a : Series) : M float :=
  match a with
  | [] => raise ValueError
  | x :: a' => mret (foldl f x a')
  end.
Definition np_max : Series -> M float := np_reduce np_fmax.
Definition np_min : Series -> M float := np_reduce np_fmin.

(** Index of the first occurrence of the extremum (0 on an empty array,
    where the reduction before it has already failed). *)
Definition same (m x : float) : Prop :=
  if Float.isnan m then Float.isnan x = true else Float.eqb x m = true.
#[global] Instance same_dec m x : Decision (same m x).
Proof. unfold same; destruct (Float.isnan m); apply _. Defined.

Definition arg_of (f : float -> float -> float) (a : Series) : nat :=
  match a with
  | [] => 0
  | x :: a' =>
      match list_find (same (foldl f x a')) a with
      | Some (i, _) => i
      | None => 0
      end
  end.
Definition np_argmax : Series -> nat := arg_of np_fmax.
Definition np_argmin : Series -> nat := arg_of np_fmin.

(** [a[lo:hi]] for non-negative bounds *)
Definition slice (lo hi : nat) (a : Series) : Series :=
  drop lo (take hi a).

(** [a[-k:]] and [a[-1]] *)
Definition tail_slice (k : nat) (a : Series) : Series :=
  drop (length a - k) a.
Definition last_item (a : Series) : M float :=
  match last a with
  | Some x => mret x
  | None => raise IndexError
  end.
Definition first_item (a : Series) : M float :=
  match a with
  | x :: _ => mret x
  | [] => raise IndexError
  end.

(** [a[i] = v] on a numpy array *)
Definition set_item (i : nat) (v : float) (a : Series) : M Series :=
  if (i <? length a)%nat then mret (<[i := v]> a) else raise IndexError.

(** [range(lo, hi)] for [0 <= lo]; empty when [hi <= lo], also for a
    negative [hi]. *)
Definition range (lo hi : Z) : list nat :=
  (fun k => Z.to_nat lo + k)%nat <$> seq 0 (Z.to_nat (hi - lo)).

(** [for i in range(...)] over a local array *)
Fixpoint for_range (idxs : list nat) (body : nat -> Series -> M Series)
    (patterns : Series) : M Series :=
  match idxs with
  | [] => mret patterns
  | i :: idxs' => patterns ← body i patterns; for_range idxs' body patterns
  end.

(** [np.polyfit(range(len(ys)), ys, 1)[0]]: the slope of the
    least-squares line through the points (0, y0), (1, y1), ..., computed
    exactly (numpy returns it up to rounding, so a slope of exactly 0 here
    may be a slope of the order of 1e-16 there). *)
Definition polyfit_slope (ys : Series) : float :=
  let n := Float.of_nat (length ys) in
  let xs := Float.of_nat <$> seq 0 (length ys) in
  let sx := sum xs in
  let sy := sum ys in
  let sxy := sum (map2 Float.mul xs ys) in
  let sxx := sum (map2 Float.mul xs xs) in
  (n ⊗ sxy ⊖ sx ⊗ sy) ⊘ (n ⊗ sxx ⊖ sx ⊗ sx).

Definition detect_head_shoulders (df : ref) (window : nat) : M Series :=
  n ← len df;
  let patterns := replicate n (Fin 0) in
  high ← getcol df "high";
  low ← getcol df "low";
  for_range (range (Z.of_nat window) (Z.of_nat n - Z.of_nat window))
    (fun i patterns =>
      (* left shoulder *)
      left_high ← np_max (slice (i - window) i high);
      let left_idx := (i - window + np_argmax (slice (i - window) i high))%nat in
      (* head *)
      head_high ← np_max (slice (i - window) (i + window) high);
      let head_idx :=
        (i - window + np_argmax (slice (i - window) (i + window) high))%nat in
      (* right shoulder *)
      right_high ← np_max (slice i (i + window) high);
      let right_idx := (i + np_argmax (slice i (i + window) high))%nat in
      (* neckline *)
      neckline_low ← np_min (slice left_idx head_idx low);
      if Float.lt left_high head_high && Float.lt right_high head_high
         && Float.gt left_high neckline_low && Float.gt right_high neckline_low
         && Float.lt (Float.abs (left_high ⊖ right_high)) (Fin 0.02 ⊗ head_high)
         && (left_idx <? head_idx)%nat && (head_idx <? right_idx)%nat
      then set_item right_idx (Fin (-1)) patterns
      else mret patterns)
    patterns.

Definition detect_double_top_bottom (df : ref) (pattern_type : top_or_bottom)
    (window : nat) : M Series :=
  n ← len df;
  let patterns := replicate n (Fin 0) in
  high ← getcol df "high";
  low ← getcol df "low";
  for_range (range (Z.of_nat window) (Z.of_nat n - Z.of_nat window))
    (fun i patterns =>
      match pattern_type with
      | top =>
          peak1 ← np_max (slice (i - window) i high);
          let peak1_idx := (i - window + np_argmax (slice (i - window) i high))%nat in
          peak2 ← np_max (slice i (i + window) high);
          let peak2_idx := (i + np_argmax (slice i (i + window) high))%nat in
          trough ← np_min (slice peak1_idx peak2_idx low);
          if Float.lt (Float.abs (peak1 ⊖ peak2)) (Fin 0.02 ⊗ peak1)
             && Float.lt trough peak1
             && (Z.of_nat (window / 2) <=? Z.of_nat peak2_idx - Z.of_nat peak1_idx)%Z
          then set_item peak2_idx (Fin (-1)) patterns
          else mret patterns
      | bottom =>
          trough1 ← np_min (slice (i - window) i low);
          let trough1_idx := (i - window + np_argmin (slice (i - window) i low))%nat in
          trough2 ← np_min (slice i (i + window) low);
          let trough2_idx := (i + np_argmin (slice i (i + window) low))%nat in
          peak ← np_max (slice trough1_idx trough2_idx high);
          if Float.lt (Float.abs (trough1 ⊖ trough2)) (Fin 0.02 ⊗ trough1)
             && Float.gt peak trough1
             && (Z.of_nat (window / 2) <=? Z.of_nat trough2_idx - Z.of_nat trough1_idx)%Z
          then set_item trough2_idx (Fin 1) patterns
          else mret patterns
      end)
    patterns.

Definition detect_triangle_patterns (df : ref) (pattern_type : triangle_kind)
    (window : nat) : M Series :=
  n ← len df;
  let patterns := replicate n (Fin 0) in
  high ← getcol df "high";
  low ← getcol df "low";
  for_range (range (Z.of_nat window) (Z.of_nat n - Z.of_nat window))
    (fun i patterns =>
      let highs := slice (i - window) (i + window) high in
      let lows := slice (i - window) (i + window) low in
      match pattern_type with
      | ascending =>
          top ← np_max highs;
          let bottom_slope := polyfit_slope lows in
          recent ← np_max (tail_slice 5 highs);
          early ← np_max (take 5 highs);
          if Float.lt (Float.abs (recent ⊖ early)) (Fin 0.01 ⊗ top)
             && Float.gt bottom_slope (Fin 0)
          then set_item (i + window) (Fin 1) patterns
          else mret patterns
      | descending =>
          bottom ← np_min lows;
          let top_slope := polyfit_slope highs in
          recent ← np_min (tail_slice 5 lows);
          early ← np_min (take 5 lows);
          if Float.lt (Float.abs (recent ⊖ early)) (Fin 0.01 ⊗ bottom)
             && Float.lt top_slope (Fin 0)
          then set_item (i + window) (Fin (-1)) patterns
          else mret patterns
      | symmetrical =>
          let high_slope := polyfit_slope highs in
          let low_slope := polyfit_slope lows in
          if Float.lt high_slope (Fin 0) && Float.gt low_slope (Fin 0)
          then
            high_last ← last_item highs;
            low_last ← last_item lows;
            high_first ← first_item highs;
            low_first ← first_item lows;
            if Float.lt (Float.abs (high_last ⊖ low_last))
                        (Fin 0.7 ⊗ Float.abs (high_first ⊖ low_first))
            then
              close ← getcol df "close";
              match close !! (i + window)%nat with
              | None => raise IndexError
              | Some c =>
                  set_item (i + window)
                    (if Float.gt c ((high_last ⊕ low_last) ⊘ Fin 2)
                     then Fin 1 else Fin (-1))
                    patterns
              end
            else mret patterns
          else mret patterns
      end)
    patterns.

(** [s.drop_duplicates()]: the first occurrence of each value is kept. *)
Definition same_value (x y : float) : bool :=
  (Float.isnan x && Float.isnan y) || Float.eqb x y.

Fixpoint drop_duplicates_from (seen : list float) (s : Series) : Series :=
  match s with
  | [] => []
  | x :: s' =>
      if existsb (same_value x) seen then drop_duplicates_from seen s'
      else x :: drop_duplicates_from (x :: seen) s'
  end.
Definition drop_duplicates (s : Series) : Series := drop_duplicates_from [] s.

Definition identify_support_resistance (df : ref) (window : nat)
    (threshold : float) : M ref :=
  df ← copy df;
  (* find pivot points *)
  high ← getcol df "high";
  setcol df "pivot_high" (rolling_center (reduce fmax) window high);;
  low ← getcol df "low";
  setcol df "pivot_low" (rolling_center (reduce fmin) window low);;
  (* resistance levels *)
  high ← getcol df "high";
  pivot_high ← getcol df "pivot_high";
  let resistance :=
    drop_duplicates (Backtester.select (cmp2 Float.eqb high pivot_high) high) in
  let resistance :=
    Backtester.select
      (cmp2 Float.gt (diff resistance) ((fun x => x ⊗ threshold) <$> resistance))
      resistance in
  (* support levels *)
  low ← getcol df "low";
  pivot_low ← getcol df "pivot_low";
  let support :=
    drop_duplicates (Backtester.select (cmp2 Float.eqb low pivot_low) low) in
  let support :=
    Backtester.select
      (cmp2 Float.lt (diff support)
            ((fun x => Float.neg x ⊗ threshold) <$> support))
      support in
  (* add levels to the table *)
  setconst df "resistance" NaN;;
  setconst df "support" NaN;;
  for_each resistance (fun level =>
    high ← getcol df "high";
    loc_set df (cmp_scalar Float.eqb high level) "resistance" level);;
  for_each support (fun level =>
    low ← getcol df "low";
    loc_set df (cmp_scalar Float.eqb low level) "support" level);;
  drop_cols df ["pivot_high"; "pivot_low"].

Definition detect_all_patterns (df : ref) : M ref :=
  df ← copy df;
  hs ← detect_head_shoulders df 30;
  setcol df "hs_pattern" hs;;
  dt ← detect_double_top_bottom df top 30;
  setcol df "double_top" dt;;
  db ← detect_double_top_bottom df bottom 30;
  setcol df "double_bottom" db;;
  ta ← detect_triangle_patterns df ascending 30;
  setcol df "triangle_asc" ta;;
  td ← detect_triangle_patterns df descending 30;
  setcol df "triangle_desc" td;;
  ts ← detect_triangle_patterns df symmetrical 30;
  setcol df "triangle_sym" ts;;
  df ← identify_support_resistance df 20 (Fin 0.02);
  mret df.

End PatternDetector.

(** ** Reading tables *)

(** The value of column [k] at row [t]. *)
Definition cell (f : DataFrame) (k : string) (t : nat) : option float :=
  c ← columns f !! k; c !! t.

(** The pandas invariant: every column has one value per row. *)
Definition wf_frame (f : DataFrame) : Prop :=
  map_Forall (fun _ (c : Series) => length c = nrows f) (columns f).

Definition has_columns (f : DataFrame) (ks : list string) : Prop :=
  Forall (fun k => is_Some (columns f !! k)) ks.

(** The columns [generate_signals] reads without a presence test. *)
Definition enriched_columns : list string :=
  [ "ema_12"; "ema_26"; "sma_20"; "sma_50"; "macd"; "macd_signal"; "rsi_14";
    "close"; "bb_lower"; "bb_upper"; "support"; "resistance" ].

(** One pass of a pattern loop of [generate_signals] over the column
    [pattern_signal]: rows where the marker column equals [v] move by [d]. *)
Definition pattern_step (df : DataFrame) (v d : float) (acc : Series)
    (pattern : string) : Series :=
  match columns df !! pattern with
  | Some p => Frame.add_where (Series.cmp_scalar Float.eqb p v) d acc
  | None => acc
  end.

(** A row of a sub-signal: [-1] where the sell condition holds, else [1]
    where the buy condition holds, else [0]. *)
Definition tern (b s : bool) : Q := (if s then -1 else if b then 1 else 0)%Q.

(** The columns of the table [generate_signals] returns, as functions of
    the columns it reads. *)
Module SignalColumns.

Import Series Frame SignalGenerator.

Definition ternary (n : nat) (buy sell : list bool) : Series :=
  assign_where sell (Fin (-1)) (assign_where buy (Fin 1) (replicate n (Fin 0))).

Definition pattern_signal (df : DataFrame) : Series :=
  foldl (pattern_step df (Fin (-1)) (Fin (-1)))
    (foldl (pattern_step df (Fin 1) (Fin 1))
       (replicate (nrows df) (Fin 0)) bullish_patterns)
    bearish_patterns.

Definition composite_score (n : nat) (ma macd rsi bb pat sr : Series) : Series :=
  sum_axis1 n
    [ (fun x => x ⊗ Fin 2.0) <$> ma; (fun x => x ⊗ Fin 1.5) <$> macd;
      (fun x => x ⊗ Fin 1.0) <$> rsi; (fun x => x ⊗ Fin 1.0) <$> bb;
      (fun x => x ⊗ Fin 2.0) <$> pat; (fun x => x ⊗ Fin 1.5) <$> sr ].

Definition decision (n : nat) (score : Series) : Series :=
  ternary n (cmp_scalar Float.ge score (Fin 3))
            (cmp_scalar Float.le score (Fin (-3))).

End SignalColumns.

(** The columns [run_backtest] computes, as functions of the signal and
    close columns it reads. *)
Module BacktestColumns.

Import Series.

Definition position (signal : Series) : Series := cumsum (shift 1 signal).

Definition holdings (signal close : Series) : Series :=
  map2 Float.mul (position signal) close.

Definition cash (initial_capital commission : float) (signal close : Series)
  : Series :=
  (fun x => initial_capital ⊖ x) <$>
    cumsum ((fun x => x ⊗ (Fin 1 ⊕ commission)) <$>
              map2 Float.mul (diff (position signal)) close).

Definition total (initial_capital commission : float) (signal close : Series)
  : Series :=
  map2 Float.add (cash initial_capital commission signal close)
                 (holdings signal close).

Definition returns (initial_capital commission : float) (signal close : Series)
  : Series :=
  fillna (Fin 0) (pct_change (total initial_capital commission signal close)).

Definition sharpe `{NumLib} (returns : Series) : float :=
  if (1 <? length returns)%nat && Float.neqb (std returns) (Fin 0)
  then mean returns ⊘ std returns ⊗ Float.sqrt (Fin 252)
  else Fin 0.

End BacktestColumns.

(** The columns the indicator stage adds, as functions of the close column. *)
Module IndicatorColumns.

Import Series.

Definition sma (window : nat) (close : Series) : Series :=
  rolling_mean window 1 close.

Definition ema (span : Z) (close : Series) : Series := ewm_mean span close.

Definition gain (close : Series) : Series :=
  where_ (cmp_scalar Float.gt (diff close) (Fin 0)) (Fin 0) (diff close).

Definition loss (close : Series) : Series :=
  Float.neg <$> where_ (cmp_scalar Float.lt (diff close) (Fin 0)) (Fin 0) (diff close).

Definition rsi (window : nat) (close : Series) : Series :=
  (fun x => Fin 100 ⊖ (Fin 100 ⊘ (Fin 1 ⊕ x))) <$>
     map2 Float.div (rolling_mean window 1 (gain close))
       ((fun x => x ⊕ Fin 1e-10) <$> rolling_mean window 1 (loss close)).

Definition bb_upper `{NumLib} (window : nat) (std_dev : Z) (close : Series)
  : Series :=
  map2 Float.add (sma window close)
    ((fun x => x ⊗ Float.of_Z std_dev) <$> rolling_std window 1 close).

Definition bb_lower `{NumLib} (window : nat) (std_dev : Z) (close : Series)
  : Series :=
  map2 Float.sub (sma window close)
    ((fun x => x ⊗ Float.of_Z std_dev) <$> rolling_std window 1 close).

Definition macd (close : Series) : Series :=
  map2 Float.sub (ema 12 close) (ema 26 close).

Definition macd_signal (close : Series) : Series := ewm_mean 9 (macd close).

Definition macd_hist (close : Series) : Series :=
  map2 Float.sub (macd close) (macd_signal close).

End IndicatorColumns.

(** ** Statements about the indicator columns *)

Definition is_finite (x : float) : Prop := Float.isfinite x = true.

Definition is_nonneg (x : float) : Prop := exists q, x = Fin q /\ (0 <= q)%Q.

Definition nan_or_finite (x : float) : Prop := x = NaN \/ is_finite x.

Definition is_positive (x : float) : Prop := exists q, x = Fin q /\ (0 < q)%Q.

(** A number of magnitude at most 1e100.  The arithmetic of [Float] is
    exact; on closes of this size no sum, product or quotient the indicator
    stage forms leaves the range of a float64 (the largest are the squared
    deviations of the rolling variance, at most 4e200). *)
Definition moderate (x : float) : Prop :=
  exists q, x = Fin q /\ (Qabs q <= 1e100)%Q.

Definition indicator_columns : list string :=
  [ "sma_20"; "sma_50"; "ema_12"; "ema_26"; "rsi_14"; "bb_middle"; "bb_upper";
    "bb_lower"; "macd"; "macd_signal"; "macd_hist" ].

(** Every indicator column of the table returned for [df] holds a
    non-null value at every row. *)
Definition indicators_never_null `{NumLib} (σ : store) (df : ref) : Prop :=
  forall r σ' F k t x,
    IndicatorCalculator.calculate_all_indicators df σ = Ok (r, σ') ->
    σ' !! r = Some F ->
    k ∈ indicator_columns ->
    cell F k t = Some x ->
    Float.notna x = true.

(** The RSI of the table returned for [df] is 50 at every row. *)
Definition rsi_is_50 (σ : store) (df : ref) : Prop :=
  forall r σ' F t x,
    IndicatorCalculator.add_rsi df 14 σ = Ok (r, σ') ->
    σ' !! r = Some F ->
    cell F "rsi_14" t = Some x ->
    x ≃ Fin 50.

(** ** Statements about the signal table *)

Definition sub_signal_columns : list string :=
  [ "ma_signal"; "macd_signal"; "rsi_signal"; "bb_signal"; "pattern_signal";
    "sr_signal" ].

Definition is_ternary (x : float) : Prop :=
  x ≃ Fin (-1) \/ x ≃ Fin 0 \/ x ≃ Fin 1.

(** Every sub-signal column of the table returned for [data] holds -1, 0
    or 1 at every row. *)
Definition sub_signals_ternary (σ : store) (data : ref) : Prop :=
  forall sig σ' S k t x,
    SignalGenerator.generate_signals data σ = Ok (sig, σ') ->
    σ' !! sig = Some S ->
    k ∈ sub_signal_columns ->
    cell S k t = Some x ->
    is_ternary x.

(** A marker is active at row [t] when its column is in the table and
    holds [v] there: [generate_signals] tests the bullish markers against 1
    and the bearish markers against -1. *)
Definition marker_active (df : DataFrame) (v : float) (t : nat)
    (pattern : string) : bool :=
  match cell df pattern t with
  | Some y => Float.eqb y v
  | None => false
  end.

(** The number of active markers among [patterns]. *)
Definition active_markers (df : DataFrame) (v : float) (t : nat)
    (patterns : list string) : Z :=
  Z.of_nat (length (List.filter (marker_active df v t) patterns)).

(** ** Statements about the backtest report *)

(** A total equity that is undefined or a positive number. *)
Definition positive_or_nan (x : float) : bool :=
  match x with
  | NaN => true
  | Fin q => Float.lt (Fin 0) (Fin q)
  | _ => false
  end.

(** A total and its drawdown: both undefined, or a number and a fraction. *)
Definition drawdown_row (x y : float) : Prop :=
  (x = NaN /\ y = NaN) \/ exists q d, x = Fin q /\ y = Fin d /\ (0 <= d <= 1)%Q.

(** The reported maximum drawdown, a fraction [d] reported as the
    percentage [d * 100], lies between 0 and 1. *)
Definition max_drawdown_in_unit_interval `{NumLib} (σ : store)
    (data signals : ref) (initial_capital commission : float) : Prop :=
  forall perf σ',
    Backtester.run_backtest data signals initial_capital commission σ
    = Ok (perf, σ') ->
    exists d, max_drawdown_pct perf ≃ Fin (d * 100) /\ (0 <= d <= 1)%Q.

(** The run reports a Sharpe ratio: [run_backtest] raises no error, and the
    ratio is mean / std * sqrt 252 of the returns when there are at least
    two of them and their standard deviation is not zero, and 0 otherwise. *)
Definition sharpe_ratio_reported `{NumLib} (σ : store)
    (data signals : ref) (initial_capital commission : float) : Prop :=
  exists perf σ' Port returns,
    Backtester.run_backtest data signals initial_capital commission σ
    = Ok (perf, σ')
    /\ σ' !! portfolio perf = Some Port
    /\ columns Port !! "returns" = Some returns
    /\ sharpe_ratio perf
       = if (2 <=? length returns)%nat && Float.neqb (Series.std returns) (Fin 0)
         then Series.mean returns ⊘ Series.std returns ⊗ Float.sqrt (Fin 252)
         else Fin 0.

(** ** Statements about the store *)

(** A computation that, started with at least [k] tables in the store,
    leaves the first [k] tables as they are, frees nothing, and returns a
    value satisfying [P]. *)
Definition preserves {A} (k : nat) (m : M A) (P : A -> Prop) : Prop :=
  forall σ a σ',
    (k <= length σ)%nat -> m σ = Ok (a, σ') ->
    take k σ' = take k σ /\ (length σ <= length σ')%nat /\ P a.

(** A stage is pure when it leaves every table of its caller unchanged
    and returns a table of its own. *)
Definition stage_pure (stage : ref -> M ref) : Prop :=
  forall σ df r σ',
    stage df σ = Ok (r, σ') -> take (length σ) σ' = σ /\ (length σ <= r)%nat.

(** ** Data for the examples *)

(** A numeric library for evaluating examples: the square root is cut
    after six decimals; the power is exact for a natural exponent and is
    not a number otherwise. *)
Definition approx_sqrt (q : Q) : Q :=
  Qred (Z.sqrt (Qnum q * 10 ^ 12 / Z.pos (Qden q)) # 10 ^ 6).

Definition natural_power (a b : float) : float :=
  match b with
  | Fin (Qmake (Zpos n) 1) => Nat.iter (Pos.to_nat n) (Float.mul a) (Fin 1)
  | Fin (Qmake Z0 _) => Fin 1
  | _ => NaN
  end.

Definition approx_lib : NumLib :=
  {| np_sqrt := approx_sqrt; np_power := natural_power |}.

(** Two rows of an enriched table. *)
Definition enriched_rows : DataFrame :=
  mkFrame 2 (list_to_map
    [ ("ema_12", [Fin 2; Fin 1]); ("ema_26", [Fin 1; Fin 2]);
      ("sma_20", [Fin 2; Fin 1]); ("sma_50", [Fin 1; Fin 2]);
      ("macd", [Fin 1; Fin (-1)]); ("macd_signal", [Fin 0; Fin 0]);
      ("rsi_14", [Fin 20; Fin 80]); ("close", [Fin 10; Fin 10]);
      ("bb_lower", [Fin 11; NaN]); ("bb_upper", [Fin 12; Fin 9]);
      ("double_top", [Fin 0; Fin (-1)]);
      ("support", [NaN; NaN]); ("resistance", [NaN; Fin 10]) ]).

(** 62 daily bars: highs and lows drift upwards by 0.01 a day, and bar 60
    dips back to the starting level. *)
Definition bars62 : DataFrame :=
  let drift (base : Q) (j : nat) := Fin (Qred (base + inject_Z (Z.of_nat j) / 100)) in
  let dip (base : Q) (j : nat) := if (j =? 60)%nat then Fin base else drift base j in
  mkFrame 62 (list_to_map
    [ ("high", dip 100%Q <$> seq 0 62); ("low", dip 90%Q <$> seq 0 62);
      ("close", drift 95%Q <$> seq 0 62) ]).

(** The indicator and pattern stages in the order the analysis runs them. *)
Definition enrich `{NumLib} (raw : ref) : M ref :=
  df ← IndicatorCalculator.calculate_all_indicators raw;
  PatternDetector.detect_all_patterns df.

(** Three bars with a buy decision on the first one, and a second run that
    differs from it at bar 1 only. *)
Definition closes3 : DataFrame :=
  mkFrame 3 (list_to_map [("close", [Fin 100; Fin 101; Fin 102])]).
Definition closes3' : DataFrame :=
  mkFrame 3 (list_to_map [("close", [Fin 100; Fin 250; Fin 102])]).
Definition buy_first : DataFrame :=
  mkFrame 3 (list_to_map [("signal", [Fin 1; Fin 0; Fin 0])]).
Definition buy_first' : DataFrame :=
  mkFrame 3 (list_to_map [("signal", [Fin 1; Fin (-1); Fin 0])]).

(** Thirteen bars at 1000 with a sell decision on bars 1 to 10, then a
    close of 2200: the short position of ten shares loses more than the
    capital. *)
Definition short_squeeze_closes : DataFrame :=
  mkFrame 13 (list_to_map [("close", replicate 12 (Fin 1000) ++ [Fin 2200])]).
Definition short_squeeze_signals : DataFrame :=
  mkFrame 13 (list_to_map
    [("signal", Fin 0 :: replicate 10 (Fin (-1)) ++ [Fin 0; Fin 0])]).

(** Four bars: one share is held from bar 1, a second one from bar 2, and
    the last close falls from 100 to 90. *)
Definition closes_dip : DataFrame :=
  mkFrame 4 (list_to_map [("close", [Fin 100; Fin 100; Fin 100; Fin 90])]).
Definition buy_twice : DataFrame :=
  mkFrame 4 (list_to_map [("signal", [Fin 1; Fin 1; Fin 0; Fin 0])]).

(** A series without bars. *)
Definition no_bars : DataFrame := mkFrame 0 (list_to_map [("close", [])]).
Definition no_signals : DataFrame := mkFrame 0 (list_to_map [("signal", [])]).

(** A series of one bar. *)
Definition single_bar : DataFrame :=
  mkFrame 1 (list_to_map [("close", [Fin 100])]).
Definition single_signal : DataFrame :=
  mkFrame 1 (list_to_map [("signal", [Fin 1])]).

(** Three bars with their highs and lows. *)
Definition bars_high_low : DataFrame :=
  mkFrame 3 (list_to_map
    [ ("high", [Fin 11; Fin 12; Fin 13]); ("low", [Fin 9; Fin 10; Fin 11]);
      ("close", [Fin 10; Fin 11; Fin 12]) ]).

(** A flat series: three bars closing at 7. *)
Definition flat3 : DataFrame :=
  mkFrame 3 (list_to_map [("close", replicate 3 (Fin 7))]).

(** ** Data for the further examples *)

(** One row where the close touches both its support and its resistance. *)
Definition touching_levels : DataFrame :=
  mkFrame 1 (list_to_map
    [ ("ema_12", [Fin 1]); ("ema_26", [Fin 1]); ("sma_20", [Fin 1]);
      ("sma_50", [Fin 1]); ("macd", [Fin 0]); ("macd_signal", [Fin 0]);
      ("rsi_14", [Fin 50]); ("close", [Fin 10]); ("bb_lower", [Fin 9]);
      ("bb_upper", [Fin 11]); ("support", [Fin 10]); ("resistance", [Fin 10]) ]).

(** The two enriched rows without any pattern marker column. *)
Definition unmarked_rows : DataFrame :=
  mkFrame 2 (delete "double_top" (columns enriched_rows)).

(** The two enriched rows without the support column. *)
Definition rows_without_support : DataFrame :=
  mkFrame 2 (delete "support" (columns enriched_rows)).

(** The figures of the report [run_backtest] returns, as functions of the
    signal and close columns it reads. *)
Module BacktestReport.

Import Series Backtester.

Definition trades (signal : Series) : Series :=
  fillna (Fin 0) (diff (BacktestColumns.position signal)).

Definition buy_mask (signal : Series) : list bool :=
  cmp_scalar Float.gt (trades signal) (Fin 0).
Definition sell_mask (signal : Series) : list bool :=
  cmp_scalar Float.lt (trades signal) (Fin 0).

Definition success (mask : list bool) (later : float -> float -> bool)
    (signal close : Series) : float :=
  if (0 <? length (select mask (trades signal)))%nat
  then bool_mean (cmp2 later (shift (-5) (select mask close)) (select mask close))
  else Fin 0.

Definition total_return (initial_capital last_total : float) : float :=
  (last_total ⊘ initial_capital ⊖ Fin 1) ⊗ Fin 100.

Definition annualized_return `{NumLib} (initial_capital last_total : float)
    (n : nat) : float :=
  (np_power (last_total ⊘ initial_capital)
            (Fin (252 / inject_Z (Z.of_nat (Nat.max n 1))))
     ⊖ Fin 1) ⊗ Fin 100.

End BacktestReport.

(** The sum of a list of rationals, and of a list of integers. *)
Definition Qsum (qs : list Q) : Q := foldr Qplus 0%Q qs.
Definition Zsum (zs : list Z) : Z := foldr Z.add 0%Z zs.

(** Decisions as the signal generator emits them: -1, 0 or 1. *)
Definition decisions (zs : list Z) : Prop :=
  Forall (fun z => (-1 <= z <= 1)%Z) zs.

(** The decisions that the trade statistics can see: all but the first
    and the last one. *)
Definition counted {A} (l : list A) : list A := drop 1 (take (length l - 1) l).

(** A table that has two columns named like the averages and no close. *)
Definition given_averages : DataFrame :=
  mkFrame 2 (list_to_map
    [ ("ema_12", [Fin 5; Fin 7]); ("ema_26", [Fin 4; Fin 9]) ]).

(** The columns [add_fibonacci_levels] computes, as functions of the high
    and low columns it reads. *)
Module FibonacciColumns.

Import Series.

Definition rolling_high (window : nat) (high : Series) : Series :=
  IndicatorCalculator.rolling_full (reduce fmax) window high.

Definition rolling_low (window : nat) (low : Series) : Series :=
  IndicatorCalculator.rolling_full (reduce fmin) window low.

Definition level (k : Q) (window : nat) (high low : Series) : Series :=
  map2 Float.sub (rolling_high window high)
    ((fun x => Fin k ⊗ x) <$>
       map2 Float.sub (rolling_high window high) (rolling_low window low)).

Definition names : list string :=
  [ "fib_0"; "fib_0.236"; "fib_0.382"; "fib_0.5"; "fib_0.618"; "fib_1" ].

End FibonacciColumns.

(** Low never above high, row by row. *)
Definition low_below_high (high low : Series) : Prop :=
  Forall2 (fun h l => exists a b, h = Fin a /\ l = Fin b /\ (b <= a)%Q) high low.

(** The highest high of the 2 * w bars around bar [i] is reached in the
    first half of the window. *)
Definition bounded_by (a : Q) (x : float) : Prop :=
  exists b, x = Fin b /\ (b <= a)%Q.

Definition peak_in_left_half (w i : nat) (high : Series) : Prop :=
  exists j a,
    (j < w)%nat
    /\ PatternDetector.slice (i - w) (i + w) high !! j = Some (Fin a)
    /\ Forall (bounded_by a) (PatternDetector.slice (i - w) (i + w) high).

(** Three bars with falling highs. *)
Definition falling_highs : DataFrame :=
  mkFrame 3 (list_to_map
    [ ("high", [Fin 13; Fin 12; Fin 11]); ("low", [Fin 11; Fin 10; Fin 9]);
      ("close", [Fin 12; Fin 11; Fin 10]) ]).

(** The columns [identify_support_resistance] computes, as functions of
    the high and low columns it reads. *)
Module LevelColumns.

Import Series PatternDetector.

Definition pivot_high (window : nat) (high : Series) : Series :=
  rolling_center (reduce fmax) window high.
Definition pivot_low (window : nat) (low : Series) : Series :=
  rolling_center (reduce fmin) window low.

(** The candidate levels: the distinct highs (lows) of the pivot bars. *)
Definition resistance_candidates (window : nat) (high : Series) : Series :=
  drop_duplicates
    (Backtester.select (cmp2 Float.eqb high (pivot_high window high)) high).
Definition support_candidates (window : nat) (low : Series) : Series :=
  drop_duplicates
    (Backtester.select (cmp2 Float.eqb low (pivot_low window low)) low).

Definition resistance_levels (window : nat) (threshold : float) (high : Series)
  : Series :=
  let c := resistance_candidates window high in
  Backtester.select (cmp2 Float.gt (diff c) ((fun x => x ⊗ threshold) <$> c)) c.
Definition support_levels (window : nat) (threshold : float) (low : Series)
  : Series :=
  let c := support_candidates window low in
  Backtester.select
    (cmp2 Float.lt (diff c) ((fun x => Float.neg x ⊗ threshold) <$> c)) c.

(** One pass of a level loop: the rows whose price equals the level take
    the level. *)
Definition mark (price : Series) (acc : Series) (level : float) : Series :=
  Frame.assign_where (cmp_scalar Float.eqb price level) level acc.

Definition marked (n : nat) (price levels : Series) : Series :=
  foldl (mark price) (replicate n NaN) levels.

End LevelColumns.

(** Sixty-one bars that fall by one a day. *)
Definition bars61_falling : DataFrame :=
  mkFrame 61 (list_to_map
    [ ("high", (fun j => Fin (200 - inject_Z (Z.of_nat j))) <$> seq 0 61);
      ("low", (fun j => Fin (190 - inject_Z (Z.of_nat j))) <$> seq 0 61);
      ("close", (fun j => Fin (195 - inject_Z (Z.of_nat j))) <$> seq 0 61) ]).

(** A marker array: one entry per row, each 0 or one of the values [vs]. *)
Definition marks (vs : list float) (n : nat) (p : Series) : Prop :=
  length p = n /\ Forall (fun x => x = Fin 0 \/ x ∈ vs) p.

(** ** analysis/core.py

    The analysis object keeps references to the tables of the stages that
    have run; a method runs the stages before it only when the attribute
    it needs is still [None].  [DataFetcher.fetch], which downloads the
    bars, is a parameter. *)

Module TechnicalAnalysis.

Import Frame.

Record t : Type := mk {
  raw_data : option ref;
  processed_data : option ref;
  signals : option ref;
  performance : option Performance
}.

(** [TechnicalAnalysis(ticker, period)] *)
Definition new : t := mk None None None None.

(** The summary [run_full_analysis] returns beside the object. *)
Module Summary.
Record performance : Type := mkPerformance {
  initial_capital : float;
  final_value : float;
  return_pct : float;
  max_drawdown : float
}.
Record t : Type := mk {
  indicators : ref;
  performance_summary : performance;
  signal : float;
  signal_score : float
}.
End Summary.

(** [df[ks]]: a new table with the columns [ks]. *)
Definition select_columns (r : ref) (ks : list string) : M ref :=
  f ← get r;
  match list_find (fun k => columns f !! k = None) ks with
  | Some (_, k) => raise (KeyError k)
  | None => alloc (mkFrame (nrows f) (filter (fun kc => kc.1 ∈ ks) (columns f)))
  end.

(** [df.tail()]: a new table with the last five rows. *)
Definition tail (r : ref) : M ref :=
  f ← get r;
  alloc (mkFrame (Nat.min 5 (nrows f))
           ((fun c : Series => drop (length c - 5) c) <$> columns f)).

(** [df.iloc[-1][k]] *)
Definition last_cell (r : ref) (k : string) : M float :=
  f ← get r;
  if (nrows f =? 0)%nat then raise IndexError
  else c ← getcol r k; Backtester.iloc_last c.

Section Methods.
Context `{NumLib} (fetch : M ref).

Definition fetch_data (self : t) : M (ref * t) :=
  raw ← fetch;
  mret (raw, mk (Some raw) (processed_data self) (signals self) (performance self)).

Definition add_technical_indicators (self : t) : M (ref * t) :=
  '(raw, self) ← match raw_data self with
                 | None => fetch_data self
                 | Some raw => mret (raw, self)
                 end;
  processed ← IndicatorCalculator.calculate_all_indicators raw;
  mret (processed,
        mk (raw_data self) (Some processed) (signals self) (performance self)).

Definition detect_chart_patterns (self : t) : M (ref * t) :=
  '(processed, self) ← match processed_data self with
                       | None => add_technical_indicators self
                       | Some processed => mret (processed, self)
                       end;
  processed ← PatternDetector.detect_all_patterns processed;
  mret (processed,
        mk (raw_data self) (Some processed) (signals self) (performance self)).

Definition generate_signals (self : t) : M (ref * t) :=
  '(processed, self) ← match processed_data self with
                       | None => detect_chart_patterns self
                       | Some processed => mret (processed, self)
                       end;
  sig ← SignalGenerator.generate_signals processed;
  mret (sig,
        mk (raw_data self) (processed_data self) (Some sig) (performance self)).

(** [Backtester(self.processed_data, self.signals)]: with no processed
    table the backtester has no table to copy. *)
Definition backtest (initial_capital : float) (self : t) : M (Performance * t) :=
  '(sig, self) ← match signals self with
                 | None => generate_signals self
                 | Some sig => mret (sig, self)
                 end;
  match processed_data self with
  | None => raise BadRef
  | Some processed =>
      perf ← Backtester.run_backtest processed sig initial_capital (Fin 0.001);
      mret (perf,
            mk (raw_data self) (processed_data self) (signals self) (Some perf))
  end.

Definition run_full_analysis (self : t) : M (t * Summary.t) :=
  '(_, self) ← fetch_data self;
  '(_, self) ← add_technical_indicators self;
  '(_, self) ← detect_chart_patterns self;
  '(_, self) ← generate_signals self;
  '(_, self) ← backtest (Fin 10000.0) self;
  (* the summary reads the attributes of the object *)
  match processed_data self, performance self, signals self with
  | Some processed, Some perf, Some sig =>
      selected ← select_columns processed
        ["close"; "sma_20"; "rsi_14"; "bb_upper"; "bb_middle"; "bb_lower"];
      indicators ← tail selected;
      signal ← last_cell sig "signal";
      signal_score ← last_cell sig "composite_score";
      mret (self,
            Summary.mk indicators
              (Summary.mkPerformance (initial_capital perf) (final_value perf)
                 (total_return_pct perf) (max_drawdown_pct perf))
              signal signal_score)
  | _, _, _ => raise BadRef
  end.

End Methods.

End TechnicalAnalysis.

(** * Proofs *)

(** ** Running the table operations

    The store is kept in the form [σ ++ τ]: [σ] holds the tables of the
    caller, [τ] the tables allocated since, addressed as [length σ + i]. *)

Lemma bind_run {A B} (m : M A) (k : A -> M B) (σ : store) :
  (m ≫= k) σ = match m σ with
               | Ok (a, σ') => k a σ'
               | Raise e => Raise e
               end.
Proof. reflexivity. Qed.

Lemma ret_run {A} (a : A) (σ : store) : mret (M := M) a σ = Ok (a, σ).
Proof. reflexivity. Qed.

Lemma run_value_bind {A B} (m : M A) (k : A -> M B) (σ : store) (b : B) :
  run_value (m ≫= k) σ = Some b ->
  exists a σ', m σ = Ok (a, σ') /\ run_value (k a) σ' = Some b.
Proof.
  unfold run_value. rewrite bind_run.
  destruct (m σ) as [[a σ']|]; [|discriminate]. intros H. by exists a, σ'.
Qed.

Section Exec.
Context (σ τ : store).

Lemma lookup_local (i : nat) : (σ ++ τ) !! (length σ + i)%nat = τ !! i.
Proof. by rewrite lookup_app_r, Nat.add_comm, Nat.add_sub by lia. Qed.

Lemma lookup_caller (r : ref) (f : DataFrame) :
  σ !! r = Some f -> (σ ++ τ) !! r = Some f.
Proof. intros H. by apply lookup_app_l_Some. Qed.

Lemma insert_local (i : nat) (f : DataFrame) :
  <[(length σ + i)%nat := f]> (σ ++ τ) = σ ++ <[i := f]> τ.
Proof. apply insert_app_r. Qed.

Lemma get_local i :
  Frame.get (length σ + i) (σ ++ τ)
  = match τ !! i with
    | Some f => Ok (f, σ ++ τ)
    | None => Raise BadRef
    end.
Proof. unfold Frame.get. by rewrite lookup_local. Qed.

Lemma get_caller r f :
  σ !! r = Some f -> Frame.get r (σ ++ τ) = Ok (f, σ ++ τ).
Proof. intros H. unfold Frame.get. by rewrite (lookup_caller _ _ H). Qed.

Lemma alloc_run f :
  Frame.alloc f (σ ++ τ) = Ok ((length σ + length τ)%nat, σ ++ (τ ++ [f])).
Proof. unfold Frame.alloc. by rewrite length_app, app_assoc. Qed.

Lemma new_run n :
  Frame.new n (σ ++ τ)
  = Ok ((length σ + length τ)%nat, σ ++ (τ ++ [mkFrame n ∅])).
Proof. apply alloc_run. Qed.

Lemma copy_caller r f :
  σ !! r = Some f ->
  Frame.copy r (σ ++ τ) = Ok ((length σ + length τ)%nat, σ ++ (τ ++ [f])).
Proof.
  intros H. unfold Frame.copy.
  by rewrite bind_run, (get_caller _ _ H), alloc_run.
Qed.

Lemma copy_local i :
  Frame.copy (length σ + i) (σ ++ τ)
  = match τ !! i with
    | Some f => Ok ((length σ + length τ)%nat, σ ++ (τ ++ [f]))
    | None => Raise BadRef
    end.
Proof.
  unfold Frame.copy. rewrite bind_run, get_local.
  destruct (τ !! i); [apply alloc_run | done].
Qed.

Lemma len_caller r f :
  σ !! r = Some f -> Frame.len r (σ ++ τ) = Ok (nrows f, σ ++ τ).
Proof. intros H. unfold Frame.len. by rewrite bind_run, (get_caller _ _ H). Qed.

Lemma len_local i :
  Frame.len (length σ + i) (σ ++ τ)
  = match τ !! i with
    | Some f => Ok (nrows f, σ ++ τ)
    | None => Raise BadRef
    end.
Proof. unfold Frame.len. rewrite bind_run, get_local. by destruct (τ !! i). Qed.

Lemma getcol_caller r f k :
  σ !! r = Some f ->
  Frame.getcol r k (σ ++ τ)
  = match columns f !! k with
    | Some c => Ok (c, σ ++ τ)
    | None => Raise (KeyError k)
    end.
Proof.
  intros H. unfold Frame.getcol. rewrite bind_run, (get_caller _ _ H).
  by destruct (columns f !! k).
Qed.

Lemma getcol_local i k :
  Frame.getcol (length σ + i) k (σ ++ τ)
  = match τ !! i with
    | Some f => match columns f !! k with
                | Some c => Ok (c, σ ++ τ)
                | None => Raise (KeyError k)
                end
    | None => Raise BadRef
    end.
Proof.
  unfold Frame.getcol. rewrite bind_run, get_local.
  destruct (τ !! i) as [f|]; [by destruct (columns f !! k) | done].
Qed.

Lemma has_col_caller r f k :
  σ !! r = Some f ->
  Frame.has_col r k (σ ++ τ)
  = Ok (bool_decide (is_Some (columns f !! k)), σ ++ τ).
Proof. intros H. unfold Frame.has_col. by rewrite bind_run, (get_caller _ _ H). Qed.

Lemma setcol_local i k c :
  Frame.setcol (length σ + i) k c (σ ++ τ)
  = match τ !! i with
    | Some f => Ok (tt, σ ++ <[i := Frame.with_col k c f]> τ)
    | None => Raise BadRef
    end.
Proof.
  unfold Frame.setcol. rewrite bind_run, get_local.
  destruct (τ !! i); [|done]. unfold Frame.put. by rewrite insert_local.
Qed.

Lemma setconst_local i k v :
  Frame.setconst (length σ + i) k v (σ ++ τ)
  = match τ !! i with
    | Some f =>
        Ok (tt, σ ++ <[i := Frame.with_col k (replicate (nrows f) v) f]> τ)
    | None => Raise BadRef
    end.
Proof.
  unfold Frame.setconst. rewrite bind_run, get_local.
  destruct (τ !! i); [|done]. unfold Frame.put. by rewrite insert_local.
Qed.

End Exec.

Lemma loc_set_local σ τ i mask k v :
  Frame.loc_set (length σ + i) mask k v (σ ++ τ)
  = match τ !! i with
    | Some f =>
        match columns f !! k with
        | Some c =>
            Ok (tt, σ ++ <[i := Frame.with_col k (Frame.assign_where mask v c) f]> τ)
        | None => Raise (KeyError k)
        end
    | None => Raise BadRef
    end.
Proof.
  unfold Frame.loc_set. rewrite bind_run, getcol_local.
  destruct (τ !! i) as [f|] eqn:E; [|done].
  destruct (columns f !! k); [|done]. by rewrite setcol_local, E.
Qed.

Lemma loc_add_local σ τ i mask k d :
  Frame.loc_add (length σ + i) mask k d (σ ++ τ)
  = match τ !! i with
    | Some f =>
        match columns f !! k with
        | Some c =>
            Ok (tt, σ ++ <[i := Frame.with_col k (Frame.add_where mask d c) f]> τ)
        | None => Raise (KeyError k)
        end
    | None => Raise BadRef
    end.
Proof.
  unfold Frame.loc_add. rewrite bind_run, getcol_local.
  destruct (τ !! i) as [f|] eqn:E; [|done].
  destruct (columns f !! k); [|done]. by rewrite setcol_local, E.
Qed.

Lemma columns_with_col k c f :
  columns (Frame.with_col k c f) = <[k := c]> (columns f).
Proof. reflexivity. Qed.

Lemma nrows_with_col k c f : nrows (Frame.with_col k c f) = nrows f.
Proof. reflexivity. Qed.

Lemma with_col_id k c f : columns f !! k = Some c -> Frame.with_col k c f = f.
Proof.
  intros H. destruct f as [n m]. unfold Frame.with_col. cbn in *.
  by rewrite insert_id.
Qed.

Lemma with_col_twice k c c' f :
  Frame.with_col k c (Frame.with_col k c' f) = Frame.with_col k c f.
Proof. unfold Frame.with_col. cbn. by rewrite insert_insert_eq. Qed.

(** Lookup of a column name in a table built by column assignments. *)
Ltac lk :=
  repeat first
    [ rewrite with_col_twice
    | rewrite columns_with_col
    | rewrite lookup_insert_eq
    | rewrite lookup_insert_ne by (let H := fresh in intros H; discriminate H)
    | rewrite nrows_with_col ].

(** One step of symbolic execution on a store [σ ++ τ]. *)
Ltac local_step :=
  first
    [ rewrite getcol_local | rewrite setcol_local | rewrite setconst_local
    | rewrite loc_set_local | rewrite loc_add_local | rewrite len_local
    | rewrite new_run | rewrite copy_local | rewrite alloc_run | rewrite ret_run ].

(** Lookups and updates in the concrete list of local tables. *)
Ltac red_local :=
  repeat match goal with
    | |- context [ @lookup nat DataFrame (list DataFrame) _ ?i (?x :: ?l) ] =>
        let r := eval cbn [lookup list_lookup] in ((x :: l) !! i) in
        progress change ((x :: l) !! i) with r
    | |- context [ @insert nat DataFrame (list DataFrame) _ ?i ?f (?x :: ?l) ] =>
        let r := eval cbn [insert list_insert] in (<[i := f]> (x :: l)) in
        progress change (<[i := f]> (x :: l)) with r
    end.

Ltac use_columns :=
  repeat match goal with
    | H : columns _ !! _ = Some _ |- _ => rewrite H
    end.

Ltac reduce_store :=
  cbn [length app nrows];
  repeat (progress (red_local; cbv beta iota; lk)).

(** Symbolic execution of one statement; [Hdf] locates a table of the
    caller in the store. *)
Ltac step Hdf :=
  rewrite ?bind_run;
  first [ rewrite getcol_local; reduce_store; use_columns; cbv beta iota
        | local_step; reduce_store
        | rewrite (getcol_caller _ _ _ _ _ Hdf); use_columns; cbv beta iota
        | rewrite (len_caller _ _ _ _ Hdf); cbv beta iota
        | rewrite (copy_caller _ _ _ _ Hdf); reduce_store ].

(** ** generate_signals *)

Lemma pattern_loop_run σ data df v d ps : forall F acc,
  σ !! data = Some df ->
  columns F !! "pattern_signal" = Some acc ->
  Frame.for_each ps (fun pattern =>
      present ← Frame.has_col data pattern;
      if present : bool then
        p ← Frame.getcol data pattern;
        Frame.loc_add (length σ + 0) (Series.cmp_scalar Float.eqb p v)
          "pattern_signal" d
      else mret tt) (σ ++ [F])
  = Ok (tt, σ ++ [Frame.with_col "pattern_signal"
                    (foldl (pattern_step df v d) acc ps) F]).
Proof.
  induction ps as [|p ps IH]; intros F acc Hdf Hacc.
  - cbn. by rewrite with_col_id.
  - cbn [Frame.for_each foldl]. rewrite bind_run, bind_run.
    rewrite (has_col_caller _ _ _ _ _ Hdf). unfold pattern_step at 2.
    destruct (columns df !! p) as [c|] eqn:Ep.
    + rewrite bool_decide_eq_true_2 by eauto.
      rewrite bind_run, (getcol_caller _ _ _ _ _ Hdf), Ep, loc_add_local.
      cbn [lookup list_lookup]. rewrite Hacc. cbn [insert list_insert].
      erewrite IH; [|done|by lk]. by rewrite with_col_twice.
    + rewrite bool_decide_eq_false_2 by (intros [? ?]; done).
      rewrite ret_run. by apply IH.
Qed.

Lemma generate_signals_run σ data df
    ema_12 ema_26 sma_20 sma_50 macd macd_signal rsi_14 close
    bb_lower bb_upper support resistance :
  σ !! data = Some df ->
  columns df !! "ema_12" = Some ema_12 ->
  columns df !! "ema_26" = Some ema_26 ->
  columns df !! "sma_20" = Some sma_20 ->
  columns df !! "sma_50" = Some sma_50 ->
  columns df !! "macd" = Some macd ->
  columns df !! "macd_signal" = Some macd_signal ->
  columns df !! "rsi_14" = Some rsi_14 ->
  columns df !! "close" = Some close ->
  columns df !! "bb_lower" = Some bb_lower ->
  columns df !! "bb_upper" = Some bb_upper ->
  columns df !! "support" = Some support ->
  columns df !! "resistance" = Some resistance ->
  let n := nrows df in
  let ma := SignalColumns.ternary n
      (Series.mask_and (Series.cmp2 Float.gt ema_12 ema_26)
                       (Series.cmp2 Float.gt sma_20 sma_50))
      (Series.mask_and (Series.cmp2 Float.lt ema_12 ema_26)
                       (Series.cmp2 Float.lt sma_20 sma_50)) in
  let mc := SignalColumns.ternary n (Series.cmp2 Float.gt macd macd_signal)
                                    (Series.cmp2 Float.lt macd macd_signal) in
  let rsi := SignalColumns.ternary n (Series.cmp_scalar Float.lt rsi_14 (Fin 30))
                                     (Series.cmp_scalar Float.gt rsi_14 (Fin 70)) in
  let bb := SignalColumns.ternary n (Series.cmp2 Float.lt close bb_lower)
                                    (Series.cmp2 Float.gt close bb_upper) in
  let pat := SignalColumns.pattern_signal df in
  let sr := SignalColumns.ternary n (Series.cmp2 Float.le close support)
                                    (Series.cmp2 Float.ge close resistance) in
  let score := SignalColumns.composite_score n ma mc rsi bb pat sr in
  exists S,
    SignalGenerator.generate_signals data σ = Ok (length σ, σ ++ [S])
    /\ nrows S = n
    /\ columns S !! "ma_signal" = Some ma
    /\ columns S !! "macd_signal" = Some mc
    /\ columns S !! "rsi_signal" = Some rsi
    /\ columns S !! "bb_signal" = Some bb
    /\ columns S !! "pattern_signal" = Some pat
    /\ columns S !! "sr_signal" = Some sr
    /\ columns S !! "composite_score" = Some score
    /\ columns S !! "signal" = Some (SignalColumns.decision n score).
Proof.
  intros Hdf H1 H2 H3 H4 H5 H6 H7 H8 H9 H10 H11 H12 n ma mc rsi bb pat sr score.
  assert (E : SignalGenerator.generate_signals data σ
              = SignalGenerator.generate_signals data (σ ++ []))
    by (by rewrite app_nil_r).
  rewrite E; clear E. unfold SignalGenerator.generate_signals.
  do 2 step Hdf.
  repeat step Hdf.
  rewrite bind_run. erewrite (pattern_loop_run _ _ _ _ _ _ _ _ Hdf) by (lk; reflexivity).
  reduce_store.
  rewrite bind_run. erewrite (pattern_loop_run _ _ _ _ _ _ _ _ Hdf) by (lk; reflexivity).
  reduce_store.
  repeat step Hdf.
  cbn [SignalGenerator.weighted SignalGenerator.signal_weights].
  repeat step Hdf.
  eexists. split; [by rewrite Nat.add_0_r|].
  split; [by lk|].
  repeat split; lk; reflexivity.
Qed.

(** ** Comparisons of finite floats *)

Lemma float_le_fin x y : Float.le (Fin x) (Fin y) = Qle_bool x y.
Proof.
  unfold Float.le, Float.cmp. destruct (Qle_bool x y) eqn:E.
  - apply Qle_bool_iff in E. apply Qle_alt in E.
    by destruct (x ?= y)%Q eqn:C.
  - destruct (x ?= y)%Q eqn:C; [| |done].
    + apply Qeq_alt in C. assert (Qle_bool x y = true) as E'
        by (apply Qle_bool_iff; rewrite C; apply Qle_refl). congruence.
    + apply Qlt_alt in C. assert (Qle_bool x y = true) as E'
        by (apply Qle_bool_iff; by apply Qlt_le_weak). congruence.
Qed.

Lemma float_ge_fin x y : Float.ge (Fin x) (Fin y) = Qle_bool y x.
Proof. apply float_le_fin. Qed.

Lemma float_lt_fin x y : Float.lt (Fin x) (Fin y) = true <-> (x < y)%Q.
Proof.
  unfold Float.lt, Float.cmp. rewrite Qlt_alt. by destruct (x ?= y)%Q.
Qed.

Lemma float_eqb_fin x y : Float.eqb (Fin x) (Fin y) = true <-> (x == y)%Q.
Proof.
  unfold Float.eqb, Float.cmp. rewrite Qeq_alt. by destruct (x ?= y)%Q.
Qed.

(** ** Rows of the signal columns *)

Lemma lookup_assign_where mask v c t (m : bool) x :
  mask !! t = Some m -> c !! t = Some x ->
  Frame.assign_where mask v c !! t = Some (if m then v else x).
Proof.
  intros Hm Hc. unfold Frame.assign_where. by rewrite lookup_zip_with, Hm, Hc.
Qed.

Lemma lookup_ternary n buy sell t b s :
  (t < n)%nat -> buy !! t = Some b -> sell !! t = Some s ->
  SignalColumns.ternary n buy sell !! t = Some (Fin (tern b s)).
Proof.
  intros Ht Hb Hs. unfold SignalColumns.ternary.
  erewrite lookup_assign_where; [|done|].
  2: { erewrite lookup_assign_where; [done|done|]. by apply lookup_replicate_2. }
  by destruct s, b.
Qed.

Lemma lookup_cmp2 f (a b : Series) t x y :
  a !! t = Some x -> b !! t = Some y -> Series.cmp2 f a b !! t = Some (f x y).
Proof. intros Ha Hb. unfold Series.cmp2. by rewrite lookup_zip_with, Ha, Hb. Qed.

Lemma lookup_cmp_scalar f (a : Series) v t x :
  a !! t = Some x -> Series.cmp_scalar f a v !! t = Some (f x v).
Proof. intros Ha. unfold Series.cmp_scalar. by rewrite list_lookup_fmap, Ha. Qed.

Lemma lookup_mask_and (a b : list bool) t x y :
  a !! t = Some x -> b !! t = Some y -> Series.mask_and a b !! t = Some (x && y).
Proof. intros Ha Hb. unfold Series.mask_and. by rewrite lookup_zip_with, Ha, Hb. Qed.

Lemma wf_cell df k c t :
  wf_frame df -> columns df !! k = Some c -> (t < nrows df)%nat ->
  exists x, c !! t = Some x.
Proof.
  intros Hwf Hk Ht. apply lookup_lt_is_Some. by rewrite (Hwf _ _ Hk).
Qed.

(** A row of [pattern_signal] is an integer that each pass moves by at
    most one. *)
Lemma pattern_step_row df v (d : Z) acc p t x z :
  wf_frame df -> length acc = nrows df ->
  acc !! t = Some x -> x ≃ Float.of_Z z ->
  exists x' z',
    pattern_step df v (Float.of_Z d) acc p !! t = Some x'
    /\ x' ≃ Float.of_Z z' /\ (z' = z \/ z' = z + d)%Z.
Proof.
  intros Hwf Hlen Hx Hz. unfold pattern_step.
  destruct (columns df !! p) as [c|] eqn:Ec; [|by exists x, z; auto].
  assert (exists y, c !! t = Some y) as [y Hy].
  { apply lookup_lt_is_Some. rewrite (Hwf _ _ Ec), <- Hlen.
    by apply lookup_lt_Some in Hx. }
  unfold Frame.add_where. rewrite lookup_zip_with.
  rewrite (lookup_cmp_scalar _ _ _ _ _ Hy), Hx. cbn.
  destruct (Float.eqb y v).
  - exists (x ⊕ Float.of_Z d), (z + d)%Z. split; [done|]. split; [|auto].
    destruct x as [| |q|]; try done. cbn in *.
    rewrite Qred_correct, inject_Z_plus. by rewrite Hz.
  - exists x, z. auto.
Qed.

Lemma pattern_step_length df v d acc p :
  wf_frame df -> length acc = nrows df ->
  length (pattern_step df v d acc p) = nrows df.
Proof.
  intros Hwf Hlen. unfold pattern_step.
  destruct (columns df !! p) as [c|] eqn:Ec; [|done].
  unfold Frame.add_where, Series.cmp_scalar.
  rewrite length_zip_with, length_fmap, (Hwf _ _ Ec). lia.
Qed.

Lemma pattern_fold_row df v (d : Z) ps : forall acc t x z,
  wf_frame df -> length acc = nrows df ->
  acc !! t = Some x -> x ≃ Float.of_Z z ->
  exists x' z',
    foldl (pattern_step df v (Float.of_Z d)) acc ps !! t = Some x'
    /\ x' ≃ Float.of_Z z'
    /\ (Z.min z (z + Z.of_nat (length ps) * d) <= z'
        <= Z.max z (z + Z.of_nat (length ps) * d))%Z
    /\ length (foldl (pattern_step df v (Float.of_Z d)) acc ps) = nrows df.
Proof.
  induction ps as [|p ps IH]; intros acc t x z Hwf Hlen Hx Hz.
  - exists x, z. cbn. repeat split; try done; lia.
  - cbn [foldl].
    destruct (pattern_step_row df v d acc p t x z Hwf Hlen Hx Hz)
      as (x1 & z1 & Hx1 & Hz1 & Hd).
    destruct (IH _ t x1 z1 Hwf (pattern_step_length df v _ acc p Hwf Hlen) Hx1 Hz1)
      as (x' & z' & Hx' & Hz' & Hb & Hl).
    exists x', z'. repeat split; try done; cbn [length]; nia.
Qed.

Lemma pattern_signal_row df t :
  wf_frame df -> (t < nrows df)%nat ->
  exists x z,
    SignalColumns.pattern_signal df !! t = Some x
    /\ x ≃ Float.of_Z z /\ (-3 <= z <= 3)%Z.
Proof.
  intros Hwf Ht. unfold SignalColumns.pattern_signal.
  destruct (pattern_fold_row df (Fin 1) 1 SignalGenerator.bullish_patterns
              (replicate (nrows df) (Fin 0)) t (Fin 0) 0 Hwf)
    as (x1 & z1 & Hx1 & Hz1 & Hb1 & Hl1);
    [by rewrite length_replicate|by apply lookup_replicate_2|done|].
  destruct (pattern_fold_row df (Fin (-1)) (-1) SignalGenerator.bearish_patterns
              _ t x1 z1 Hwf Hl1 Hx1 Hz1)
    as (x2 & z2 & Hx2 & Hz2 & Hb2 & _).
  exists x2, z2. split; [done|]. split; [done|].
  cbn in Hb1, Hb2. lia.
Qed.

(** A pass of a pattern loop moves a row by [d] exactly when the marker is
    active there. *)
Lemma pattern_step_active df v (d : Z) acc p t x z :
  wf_frame df -> length acc = nrows df ->
  acc !! t = Some x -> x ≃ Float.of_Z z ->
  exists x',
    pattern_step df v (Float.of_Z d) acc p !! t = Some x'
    /\ x' ≃ Float.of_Z (if marker_active df v t p then z + d else z).
Proof.
  intros Hwf Hlen Hx Hz. unfold pattern_step, marker_active, cell.
  destruct (columns df !! p) as [c|] eqn:Ec; cbn [mbind option_bind];
    [|by exists x].
  assert (exists y, c !! t = Some y) as [y Hy].
  { apply lookup_lt_is_Some. rewrite (Hwf _ _ Ec), <- Hlen.
    by apply lookup_lt_Some in Hx. }
  unfold Frame.add_where. rewrite lookup_zip_with.
  rewrite (lookup_cmp_scalar _ _ _ _ _ Hy), Hx, Hy. cbn.
  destruct (Float.eqb y v); [|by exists x].
  exists (x ⊕ Float.of_Z d). split; [done|].
  destruct x as [| |q|]; try done. cbn in *.
  rewrite Qred_correct, inject_Z_plus. by rewrite Hz.
Qed.

Lemma active_markers_cons df v t p ps :
  active_markers df v t (p :: ps)
  = ((if marker_active df v t p then 1 else 0) + active_markers df v t ps)%Z.
Proof.
  unfold active_markers. cbn [List.filter].
  destruct (marker_active df v t p); cbn [length]; lia.
Qed.

Lemma active_markers_range df v t ps :
  (0 <= active_markers df v t ps <= Z.of_nat (length ps))%Z.
Proof.
  induction ps as [|p ps IH]; [done|].
  rewrite active_markers_cons. cbn [length].
  destruct (marker_active df v t p); lia.
Qed.

(** A pattern loop moves a row by [d] for each active marker. *)
Lemma pattern_fold_active df v (d : Z) ps : forall acc t x z,
  wf_frame df -> length acc = nrows df ->
  acc !! t = Some x -> x ≃ Float.of_Z z ->
  exists x',
    foldl (pattern_step df v (Float.of_Z d)) acc ps !! t = Some x'
    /\ x' ≃ Float.of_Z (z + active_markers df v t ps * d).
Proof.
  induction ps as [|p ps IH]; intros acc t x z Hwf Hlen Hx Hz.
  - exists x. split; [done|]. by replace (z + _)%Z with z by (unfold active_markers; cbn; lia).
  - cbn [foldl].
    destruct (pattern_step_active df v d acc p t x z Hwf Hlen Hx Hz)
      as (x1 & Hx1 & Hz1).
    destruct (IH _ t x1 _ Hwf (pattern_step_length df v _ acc p Hwf Hlen) Hx1 Hz1)
      as (x' & Hx' & Hz').
    exists x'. split; [done|]. rewrite active_markers_cons.
    replace (z + _)%Z
      with ((if marker_active df v t p then z + d else z)
            + active_markers df v t ps * d)%Z; [done|].
    destruct (marker_active df v t p); lia.
Qed.

(** A row of [pattern_signal]: the active bullish markers minus the active
    bearish markers. *)
Lemma pattern_signal_count df t :
  wf_frame df -> (t < nrows df)%nat ->
  exists x,
    SignalColumns.pattern_signal df !! t = Some x
    /\ x ≃ Float.of_Z
            (active_markers df (Fin 1) t SignalGenerator.bullish_patterns
             - active_markers df (Fin (-1)) t SignalGenerator.bearish_patterns).
Proof.
  intros Hwf Ht. unfold SignalColumns.pattern_signal.
  destruct (pattern_fold_active df (Fin 1) 1 SignalGenerator.bullish_patterns
              (replicate (nrows df) (Fin 0)) t (Fin 0) 0 Hwf)
    as (x1 & Hx1 & Hz1);
    [by rewrite length_replicate|by apply lookup_replicate_2|done|].
  destruct (pattern_fold_row df (Fin 1) 1 SignalGenerator.bullish_patterns
              (replicate (nrows df) (Fin 0)) t (Fin 0) 0 Hwf)
    as (_ & _ & _ & _ & _ & Hl1);
    [by rewrite length_replicate|by apply lookup_replicate_2|done|].
  destruct (pattern_fold_active df (Fin (-1)) (-1) SignalGenerator.bearish_patterns
              _ t x1 _ Hwf Hl1 Hx1 Hz1)
    as (x2 & Hx2 & Hz2).
  exists x2. split; [done|].
  match goal with
  | |- _ ≃ Float.of_Z ?a =>
      match type of Hz2 with
      | _ ≃ Float.of_Z ?b => replace a with b by lia
      end
  end.
  exact Hz2.
Qed.

(** The pattern_signal column of the table [generate_signals] returns. *)
Lemma generate_signals_pattern_column σ data df :
  σ !! data = Some df -> has_columns df enriched_columns ->
  exists S,
    SignalGenerator.generate_signals data σ = Ok (length σ, σ ++ [S])
    /\ columns S !! "pattern_signal" = Some (SignalColumns.pattern_signal df).
Proof.
  intros Hdf Hcols.
  unfold has_columns, enriched_columns in Hcols.
  repeat rewrite Forall_cons in Hcols.
  destruct Hcols as ([ema_12 H1] & [ema_26 H2] & [sma_20 H3] & [sma_50 H4]
    & [macd H5] & [macd_signal H6] & [rsi_14 H7] & [close H8] & [bb_lower H9]
    & [bb_upper H10] & [support H11] & [resistance H12] & _).
  destruct (generate_signals_run σ data df _ _ _ _ _ _ _ _ _ _ _ _
              Hdf H1 H2 H3 H4 H5 H6 H7 H8 H9 H10 H11 H12)
    as (S & Hrun & _ & _ & _ & _ & _ & Hpat & _).
  by exists S.
Qed.

Lemma lookup_composite n ma mc rsi bb pat sr t a b c d e f :
  (t < n)%nat ->
  ma !! t = Some (Fin a) -> mc !! t = Some (Fin b) -> rsi !! t = Some (Fin c) ->
  bb !! t = Some (Fin d) -> pat !! t = Some (Fin e) -> sr !! t = Some (Fin f) ->
  exists s,
    SignalColumns.composite_score n ma mc rsi bb pat sr !! t = Some (Fin s)
    /\ (s == 2.0 * a + 1.5 * b + 1.0 * c + 1.0 * d + 2.0 * e + 1.5 * f)%Q.
Proof.
  intros Ht Ha Hb Hc Hd He Hf.
  unfold SignalColumns.composite_score, SignalGenerator.sum_axis1.
  cbn [foldl]. rewrite !lookup_zip_with, !list_lookup_fmap.
  rewrite Ha, Hb, Hc, Hd, He, Hf, (lookup_replicate_2 _ _ _ Ht). cbn.
  eexists. split; [reflexivity|]. rewrite !Qred_correct. ring.
Qed.

Lemma lookup_decision n score t s :
  (t < n)%nat -> score !! t = Some (Fin s) ->
  SignalColumns.decision n score !! t
  = Some (Fin (if Qle_bool 3 s then 1 else if Qle_bool s (-3) then -1 else 0)).
Proof.
  intros Ht Hs. unfold SignalColumns.decision.
  erewrite lookup_ternary; [|done|by apply lookup_cmp_scalar..].
  rewrite float_ge_fin, float_le_fin. unfold tern.
  destruct (Qle_bool s (-3)) eqn:E1; [|done].
  destruct (Qle_bool 3 s) eqn:E2; [|done].
  apply Qle_bool_iff in E1, E2. exfalso.
  pose proof (Qle_trans _ _ _ E2 E1) as H. by apply Qle_bool_iff in H.
Qed.

Ltac row Hwf Ht H :=
  let x := fresh "x" in let Hx := fresh "Hx" in
  destruct (wf_cell _ _ _ _ Hwf H Ht) as [x Hx].

(** The rows of the table [generate_signals] returns. *)
Lemma generate_signals_rows σ data df t :
  σ !! data = Some df -> wf_frame df -> has_columns df enriched_columns ->
  (t < nrows df)%nat ->
  exists S b1 s1 b2 s2 b3 s3 b4 s4 pat zp b6 s6 score,
    SignalGenerator.generate_signals data σ = Ok (length σ, σ ++ [S])
    /\ cell S "ma_signal" t = Some (Fin (tern b1 s1))
    /\ cell S "macd_signal" t = Some (Fin (tern b2 s2))
    /\ cell S "rsi_signal" t = Some (Fin (tern b3 s3))
    /\ cell S "bb_signal" t = Some (Fin (tern b4 s4))
    /\ cell S "pattern_signal" t = Some (Fin pat)
    /\ (pat == inject_Z zp)%Q /\ (-3 <= zp <= 3)%Z
    /\ cell S "sr_signal" t = Some (Fin (tern b6 s6))
    /\ cell S "composite_score" t = Some (Fin score)
    /\ (score == 2.0 * tern b1 s1 + 1.5 * tern b2 s2 + 1.0 * tern b3 s3
                 + 1.0 * tern b4 s4 + 2.0 * pat + 1.5 * tern b6 s6)%Q
    /\ cell S "signal" t
       = Some (Fin (if Qle_bool 3 score then 1
                    else if Qle_bool score (-3) then -1 else 0)).
Proof.
  intros Hdf Hwf Hcols Ht.
  unfold has_columns, enriched_columns in Hcols.
  repeat rewrite Forall_cons in Hcols.
  destruct Hcols as ([ema_12 H1] & [ema_26 H2] & [sma_20 H3] & [sma_50 H4]
    & [macd H5] & [macd_signal H6] & [rsi_14 H7] & [close H8] & [bb_lower H9]
    & [bb_upper H10] & [support H11] & [resistance H12] & _).
  destruct (generate_signals_run σ data df _ _ _ _ _ _ _ _ _ _ _ _
              Hdf H1 H2 H3 H4 H5 H6 H7 H8 H9 H10 H11 H12)
    as (S & Hrun & Hn & Hma & Hmc & Hrsi & Hbb & Hpat & Hsr & Hscore & Hsig).
  row Hwf Ht H1. row Hwf Ht H2. row Hwf Ht H3. row Hwf Ht H4.
  row Hwf Ht H5. row Hwf Ht H6. row Hwf Ht H7. row Hwf Ht H8.
  row Hwf Ht H9. row Hwf Ht H10. row Hwf Ht H11. row Hwf Ht H12.
  destruct (pattern_signal_row df t Hwf Ht) as (xp & zp & Hxp & Hzp & Hrange).
  destruct xp as [| |pat|]; try done.
  pose proof (lookup_ternary (nrows df) _ _ t _ _ Ht
    (lookup_mask_and _ _ _ _ _ (lookup_cmp2 Float.gt _ _ _ _ _ Hx Hx0)
                               (lookup_cmp2 Float.gt _ _ _ _ _ Hx1 Hx2))
    (lookup_mask_and _ _ _ _ _ (lookup_cmp2 Float.lt _ _ _ _ _ Hx Hx0)
                               (lookup_cmp2 Float.lt _ _ _ _ _ Hx1 Hx2))) as Tma.
  pose proof (lookup_ternary (nrows df) _ _ t _ _ Ht
    (lookup_cmp2 Float.gt _ _ _ _ _ Hx3 Hx4)
    (lookup_cmp2 Float.lt _ _ _ _ _ Hx3 Hx4)) as Tmc.
  pose proof (lookup_ternary (nrows df) _ _ t _ _ Ht
    (lookup_cmp_scalar Float.lt _ (Fin 30) _ _ Hx5)
    (lookup_cmp_scalar Float.gt _ (Fin 70) _ _ Hx5)) as Trsi.
  pose proof (lookup_ternary (nrows df) _ _ t _ _ Ht
    (lookup_cmp2 Float.lt _ _ _ _ _ Hx6 Hx7)
    (lookup_cmp2 Float.gt _ _ _ _ _ Hx6 Hx8)) as Tbb.
  pose proof (lookup_ternary (nrows df) _ _ t _ _ Ht
    (lookup_cmp2 Float.le _ _ _ _ _ Hx6 Hx9)
    (lookup_cmp2 Float.ge _ _ _ _ _ Hx6 Hx10)) as Tsr.
  destruct (lookup_composite (nrows df) _ _ _ _ _ _ t _ _ _ _ _ _
              Ht Tma Tmc Trsi Tbb Hxp Tsr) as (score & Hs & Hsum).
  exists S. do 8 eexists. exists pat, zp. do 2 eexists. exists score.
  split; [exact Hrun|]. unfold cell.
  rewrite Hma, Hmc, Hrsi, Hbb, Hpat, Hsr, Hscore, Hsig. cbn.
  split; [exact Tma|]. split; [exact Tmc|]. split; [exact Trsi|].
  split; [exact Tbb|]. split; [exact Hxp|]. split; [exact Hzp|].
  split; [exact Hrange|]. split; [exact Tsr|].
  split; [exact Hs|]. split; [exact Hsum|]. by apply lookup_decision.
Qed.

(** C1: on a table with the columns the generator reads, generate_signals
    returns a table whose composite_score at every row is the weighted
    sum 2.0 ma + 1.5 macd + 1.0 rsi + 1.0 bb + 2.0 pattern + 1.5 sr of the
    six sub-signals of that row, and whose signal is +1 when the score is
    at least 3, -1 when it is at most -3 and 0 otherwise. *)
Theorem composite_score_weighted_sum σ data df t :
  σ !! data = Some df -> wf_frame df -> has_columns df enriched_columns ->
  (t < nrows df)%nat ->
  exists S ma macd rsi bb pat sr score,
    SignalGenerator.generate_signals data σ = Ok (length σ, σ ++ [S])
    /\ cell S "ma_signal" t = Some (Fin ma)
    /\ cell S "macd_signal" t = Some (Fin macd)
    /\ cell S "rsi_signal" t = Some (Fin rsi)
    /\ cell S "bb_signal" t = Some (Fin bb)
    /\ cell S "pattern_signal" t = Some (Fin pat)
    /\ cell S "sr_signal" t = Some (Fin sr)
    /\ cell S "composite_score" t = Some (Fin score)
    /\ (score == 2.0 * ma + 1.5 * macd + 1.0 * rsi + 1.0 * bb
                 + 2.0 * pat + 1.5 * sr)%Q
    /\ cell S "signal" t
       = Some (Fin (if Qle_bool 3 score then 1
                    else if Qle_bool score (-3) then -1 else 0)).
Proof.
  intros Hdf Hwf Hcols Ht.
  destruct (generate_signals_rows σ data df t Hdf Hwf Hcols Ht)
    as (S & b1 & s1 & b2 & s2 & b3 & s3 & b4 & s4 & pat & zp & b6 & s6 & score
        & Hrun & H1 & H2 & H3 & H4 & H5 & _ & _ & H6 & H7 & H8 & H9).
  exists S, (tern b1 s1), (tern b2 s2), (tern b3 s3), (tern b4 s4), pat,
    (tern b6 s6), score.
  by repeat split.
Qed.

(** The statement of C1 at row 0 of a two-row table. *)
Lemma composite_score_weighted_sum_witness :
  exists S ma macd rsi bb pat sr score,
    SignalGenerator.generate_signals 0 [enriched_rows]
    = Ok (length [enriched_rows], [enriched_rows] ++ [S])
    /\ cell S "ma_signal" 0 = Some (Fin ma)
    /\ cell S "macd_signal" 0 = Some (Fin macd)
    /\ cell S "rsi_signal" 0 = Some (Fin rsi)
    /\ cell S "bb_signal" 0 = Some (Fin bb)
    /\ cell S "pattern_signal" 0 = Some (Fin pat)
    /\ cell S "sr_signal" 0 = Some (Fin sr)
    /\ cell S "composite_score" 0 = Some (Fin score)
    /\ (score == 2.0 * ma + 1.5 * macd + 1.0 * rsi + 1.0 * bb
                 + 2.0 * pat + 1.5 * sr)%Q
    /\ cell S "signal" 0
       = Some (Fin (if Qle_bool 3 score then 1
                    else if Qle_bool score (-3) then -1 else 0)).
Proof.
  apply (composite_score_weighted_sum [enriched_rows] 0 enriched_rows 0).
  - reflexivity.
  - unfold wf_frame. apply (bool_decide_unpack _). vm_compute. exact I.
  - unfold has_columns. apply (bool_decide_unpack _). vm_compute. exact I.
  - cbn. lia.
Defined.

(** C4 (amended): the five threshold sub-signals hold -1, 0 or 1 at every
    row; pattern_signal holds the number of bullish marker columns that are
    present and equal to 1 at the row minus the number of bearish marker
    columns that are present and equal to -1 at the row, an integer between
    -3 and 3. *)
Theorem sub_signal_ranges σ data df t :
  σ !! data = Some df -> wf_frame df -> has_columns df enriched_columns ->
  (t < nrows df)%nat ->
  exists S,
    SignalGenerator.generate_signals data σ = Ok (length σ, σ ++ [S])
    /\ (forall k,
          k ∈ ["ma_signal"; "macd_signal"; "rsi_signal"; "bb_signal"; "sr_signal"] ->
          exists x, cell S k t = Some x /\ is_ternary x)
    /\ (exists x z,
          cell S "pattern_signal" t = Some x /\ x ≃ Float.of_Z z
          /\ z = (active_markers df (Fin 1) t SignalGenerator.bullish_patterns
                  - active_markers df (Fin (-1)) t
                      SignalGenerator.bearish_patterns)%Z
          /\ (-3 <= z <= 3)%Z).
Proof.
  intros Hdf Hwf Hcols Ht.
  destruct (generate_signals_rows σ data df t Hdf Hwf Hcols Ht)
    as (S & b1 & s1 & b2 & s2 & b3 & s3 & b4 & s4 & pat & zp & b6 & s6 & score
        & Hrun & H1 & H2 & H3 & H4 & _ & _ & _ & H6 & _).
  destruct (generate_signals_pattern_column σ data df Hdf Hcols)
    as (S' & Hrun' & Hpat).
  rewrite Hrun in Hrun'. injection Hrun' as E. apply app_inv_head in E.
  injection E as <-.
  destruct (pattern_signal_count df t Hwf Ht) as (x & Hx & Hz).
  assert (forall b s, is_ternary (Fin (tern b s))) as Htern
    by (intros [] []; unfold is_ternary, tern; cbn;
        [left|right; right|left|right; left]; reflexivity).
  exists S. split; [exact Hrun|]. split.
  - intros k Hk. repeat (apply elem_of_cons in Hk as [->|Hk]); eauto.
    by apply elem_of_nil in Hk.
  - eexists x, _. split; [|split; [exact Hz|split; [reflexivity|]]].
    + unfold cell. by rewrite Hpat.
    + pose proof (active_markers_range df (Fin 1) t
                    SignalGenerator.bullish_patterns) as Hb.
      pose proof (active_markers_range df (Fin (-1)) t
                    SignalGenerator.bearish_patterns) as Hs.
      cbn [length SignalGenerator.bullish_patterns
           SignalGenerator.bearish_patterns] in Hb, Hs. lia.
Qed.

(** The statement of C4 at row 1 of the two-row table, where the marker
    double_top is active and no other marker column is present. *)
Lemma sub_signal_ranges_witness :
  exists S,
    SignalGenerator.generate_signals 0 [enriched_rows]
    = Ok (length [enriched_rows], [enriched_rows] ++ [S])
    /\ (forall k,
          k ∈ ["ma_signal"; "macd_signal"; "rsi_signal"; "bb_signal"; "sr_signal"] ->
          exists x, cell S k 1 = Some x /\ is_ternary x)
    /\ (exists x z,
          cell S "pattern_signal" 1 = Some x /\ x ≃ Float.of_Z z
          /\ z = (active_markers enriched_rows (Fin 1) 1
                    SignalGenerator.bullish_patterns
                  - active_markers enriched_rows (Fin (-1)) 1
                      SignalGenerator.bearish_patterns)%Z
          /\ (-3 <= z <= 3)%Z).
Proof.
  apply (sub_signal_ranges [enriched_rows] 0 enriched_rows 1).
  - reflexivity.
  - unfold wf_frame. apply (bool_decide_unpack _). vm_compute. exact I.
  - unfold has_columns. apply (bool_decide_unpack _). vm_compute. exact I.
  - cbn. lia.
Defined.

(** C4 as stated fails on the table the indicator and pattern stages
    produce for [bars62]: at bar 60 a double bottom and an ascending
    triangle are both confirmed and pattern_signal is 2. *)

Lemma pattern_signal_not_ternary :
  ~ (forall data σ,
       enrich (H := approx_lib) 0 [bars62] = Ok (data, σ) ->
       sub_signals_ternary σ data).
Proof.
  intros H.
  assert (run_value
            (df ← enrich (H := approx_lib) 0;
             sig ← SignalGenerator.generate_signals df;
             S ← Frame.get sig;
             mret (cell S "pattern_signal" 60)) [bars62]
          = Some (Some (Fin 2))) as R by (vm_compute; reflexivity).
  apply run_value_bind in R as (data & σ & E & R).
  apply run_value_bind in R as (sig & σ' & G & R).
  apply run_value_bind in R as (S & σ'' & L & R).
  assert (σ' !! sig = Some S) as L'.
  { unfold Frame.get in L. destruct (σ' !! sig); [|discriminate].
    by injection L as -> _. }
  injection R as R.
  assert ("pattern_signal" ∈ sub_signal_columns) as K
    by (unfold sub_signal_columns; repeat first [by left | right]).
  destruct (H data σ E sig σ' S "pattern_signal" 60%nat (Fin 2) G L' K R)
    as [C|[C|C]]; vm_compute in C; discriminate C.
Qed.

(** ** run_backtest *)

Lemma frame_fillna_local σ τ i v :
  Backtester.frame_fillna (length σ + i) v (σ ++ τ)
  = match τ !! i with
    | Some f =>
        Ok ((length σ + length τ)%nat,
            σ ++ (τ ++ [mkFrame (nrows f) (Series.fillna v <$> columns f)]))
    | None => Raise BadRef
    end.
Proof.
  unfold Backtester.frame_fillna. rewrite bind_run, get_local.
  destruct (τ !! i); [apply alloc_run | done].
Qed.

Lemma if_getcol_local {A} σ τ i k (b : bool) (f : Series -> A) (v : A) F col :
  τ !! i = Some F -> columns F !! k = Some col ->
  (if b then x ← Frame.getcol (length σ + i) k; mret (f x) else mret v) (σ ++ τ)
  = Ok (if b then f col else v, σ ++ τ).
Proof.
  intros HF Hk. destruct b; [|done].
  by rewrite bind_run, getcol_local, HF, Hk.
Qed.

Section RunBacktest.
Context `{NumLib}.
Context (σ : store) (data signals : ref) (D Sg : DataFrame).
Context (signal close : Series) (ic c : float).
Hypothesis Hdata : σ !! data = Some D.
Hypothesis Hsignals : σ !! signals = Some Sg.
Hypothesis Hsignal : columns Sg !! "signal" = Some signal.
Hypothesis Hclose : columns D !! "close" = Some close.

Let total := BacktestColumns.total ic c signal close.

Lemma run_backtest_run last_total :
  last total = Some last_total ->
  exists perf Sg' E Pos Port,
    Backtester.run_backtest data signals ic c σ
    = Ok (perf, σ ++ [Sg'; D; E; Pos; Port])
    /\ positions perf = (length σ + 3)%nat
    /\ portfolio perf = (length σ + 4)%nat
    /\ columns Pos !! "position" = Some (BacktestColumns.position signal)
    /\ columns Port !! "holdings" = Some (BacktestColumns.holdings signal close)
    /\ columns Port !! "cash" = Some (BacktestColumns.cash ic c signal close)
    /\ columns Port !! "total" = Some total
    /\ columns Port !! "returns"
       = Some (BacktestColumns.returns ic c signal close)
    /\ final_value perf = last_total
    /\ max_drawdown_pct perf
       = Series.max (Backtester.drawdown total) ⊗ Fin 100
    /\ sharpe_ratio perf
       = BacktestColumns.sharpe (BacktestColumns.returns ic c signal close).
Proof.
  intros Hlast.
  assert (E : Backtester.run_backtest data signals ic c σ
              = Backtester.run_backtest data signals ic c (σ ++ []))
    by (by rewrite app_nil_r).
  rewrite E; clear E. unfold Backtester.run_backtest.
  step Hsignals. step Hdata.
  repeat step Hdata.
  rewrite bind_run, frame_fillna_local. reduce_store.
  repeat step Hdata.
  change (Series.map2 Float.add _ _) with total. fold total.
  rewrite bind_run. unfold Backtester.iloc_last. rewrite Hlast, ret_run.
  cbv beta iota.
  repeat step Hdata.
  rewrite bind_run.
  erewrite if_getcol_local; [|reflexivity|exact Hclose]. cbv beta iota.
  rewrite bind_run.
  erewrite if_getcol_local; [|reflexivity|exact Hclose]. cbv beta iota.
  rewrite ret_run.
  do 5 eexists. split; [reflexivity|]. cbn [positions portfolio final_value max_drawdown_pct sharpe_ratio].
  repeat split; lk; reflexivity.
Qed.
End RunBacktest.

(** ** Lengths of the derived series *)

Lemma length_shift k (s : Series) : length (Series.shift k s) = length s.
Proof.
  destruct k as [|p|p]; cbn [Series.shift]; [done| |].
  - rewrite length_take, length_app, length_replicate. lia.
  - rewrite length_app, length_drop, length_replicate. lia.
Qed.

Lemma length_cumsum_from a (s : Series) :
  length (Series.cumsum_from a s) = length s.
Proof.
  revert a. induction s as [|x s IH]; intros a; [done|].
  cbn. destruct (Float.isnan x); cbn; by rewrite IH.
Qed.

Lemma length_cummax_from a (s : Series) :
  length (Series.cummax_from a s) = length s.
Proof.
  revert a. induction s as [|x s IH]; intros a; [done|].
  cbn. destruct (Float.isnan x); cbn; by rewrite IH.
Qed.

Lemma length_ffill_from a (s : Series) :
  length (Series.ffill_from a s) = length s.
Proof.
  revert a. induction s as [|x s IH]; intros a; [done|]. cbn. by rewrite IH.
Qed.

Lemma length_diff (s : Series) : length (Series.diff s) = length s.
Proof.
  unfold Series.diff, Series.map2.
  rewrite length_zip_with, length_shift. lia.
Qed.

Lemma length_position (s : Series) :
  length (BacktestColumns.position s) = length s.
Proof.
  unfold BacktestColumns.position, Series.cumsum.
  by rewrite length_cumsum_from, length_shift.
Qed.

Lemma length_total ic c (signal close : Series) :
  length signal = length close ->
  length (BacktestColumns.total ic c signal close) = length signal.
Proof.
  intros Hl.
  unfold BacktestColumns.total, BacktestColumns.cash, BacktestColumns.holdings,
    Series.map2, Series.cumsum.
  rewrite !length_zip_with, !length_fmap, length_cumsum_from, length_fmap,
    length_zip_with, length_diff, !length_position. lia.
Qed.

Lemma length_returns ic c (signal close : Series) :
  length signal = length close ->
  length (BacktestColumns.returns ic c signal close) = length signal.
Proof.
  intros Hl. unfold BacktestColumns.returns, Series.fillna, Series.pct_change,
    Series.map2, Series.ffill.
  rewrite !length_fmap, length_zip_with, length_shift, length_ffill_from,
    length_total by done. lia.
Qed.

Lemma last_is_Some {A} (l : list A) : (0 < length l)%nat -> is_Some (last l).
Proof.
  intros Hl. destruct (last l) eqn:E; [by eexists|].
  apply last_None in E. subst. cbn in Hl. lia.
Qed.

(** ** No look-ahead in the position series *)

Lemma take_cumsum_from k : forall a (s : Series),
  take k (Series.cumsum_from a s) = Series.cumsum_from a (take k s).
Proof.
  induction k as [|k IH]; intros a [|x s]; try done.
  cbn. destruct (Float.isnan x); cbn; by rewrite IH.
Qed.

Lemma shift_one (s : Series) : Series.shift 1 s = take (length s) (NaN :: s).
Proof. reflexivity. Qed.

Lemma take_position t (s : Series) :
  take (S t) (BacktestColumns.position s)
  = Series.cumsum (take (S t `min` length s) (NaN :: take t s)).
Proof.
  unfold BacktestColumns.position, Series.cumsum.
  rewrite take_cumsum_from, shift_one, take_take. f_equal.
  destruct (Nat.min_spec (S t) (length s)) as [[Hlt ->]|[Hle ->]].
  - cbn. by rewrite take_take, Nat.min_id.
  - destruct (length s) as [|n] eqn:En; [done|].
    cbn. rewrite take_take. f_equal. f_equal. lia.
Qed.

Lemma position_prefix (s1 s2 : Series) t t' :
  length s1 = length s2 ->
  (forall i, (i < t)%nat -> s1 !! i = s2 !! i) ->
  (t' <= t)%nat ->
  BacktestColumns.position s1 !! t' = BacktestColumns.position s2 !! t'.
Proof.
  intros Hlen Hagree Ht'.
  assert (take t s1 = take t s2) as Hpre.
  { apply list_eq. intros i. destruct (decide (i < t)%nat).
    - rewrite !lookup_take_lt by done. by apply Hagree.
    - by rewrite !lookup_take_ge by lia. }
  rewrite <- (lookup_take_lt (BacktestColumns.position s1) (S t) t') by lia.
  rewrite <- (lookup_take_lt (BacktestColumns.position s2) (S t) t') by lia.
  by rewrite !take_position, Hpre, Hlen.
Qed.

(** The outcome of a run on tables with one signal and one close per row. *)
Lemma run_backtest_columns `{NumLib} σ data signals D Sg signal close ic c :
  σ !! data = Some D -> σ !! signals = Some Sg ->
  columns Sg !! "signal" = Some signal -> columns D !! "close" = Some close ->
  length signal = length close -> (0 < length signal)%nat ->
  exists perf σ' Pos Port,
    Backtester.run_backtest data signals ic c σ = Ok (perf, σ')
    /\ σ' !! positions perf = Some Pos
    /\ σ' !! portfolio perf = Some Port
    /\ take (length σ) σ' = σ
    /\ columns Pos !! "position" = Some (BacktestColumns.position signal)
    /\ columns Port !! "cash" = Some (BacktestColumns.cash ic c signal close)
    /\ columns Port !! "total" = Some (BacktestColumns.total ic c signal close)
    /\ columns Port !! "returns"
       = Some (BacktestColumns.returns ic c signal close)
    /\ max_drawdown_pct perf
       = Series.max (Backtester.drawdown (BacktestColumns.total ic c signal close))
         ⊗ Fin 100
    /\ sharpe_ratio perf
       = BacktestColumns.sharpe (BacktestColumns.returns ic c signal close).
Proof.
  intros Hdata Hsignals Hsignal Hclose Hlen Hpos.
  destruct (last_is_Some (BacktestColumns.total ic c signal close)) as [lt Hlt];
    [by rewrite length_total|].
  destruct (run_backtest_run σ data signals D Sg signal close ic c
              Hdata Hsignals Hsignal Hclose lt Hlt)
    as (perf & Sg' & E & Pos & Port & Hrun & Hp1 & Hp2 & Hposition & _ & Hcash
        & Htotal & Hret & _ & Hdd & Hsharpe).
  exists perf, (σ ++ [Sg'; D; E; Pos; Port]), Pos, Port.
  split; [exact Hrun|].
  rewrite Hp1, Hp2, !lookup_local, take_app_length.
  by repeat split.
Qed.

(** C2: the position at a step depends only on the decisions of earlier
    steps.  Two runs whose signal series agree at every index before t
    (in particular two runs that differ only in the close and the
    sub-signals of step t) have the same position at every step up to
    and including t. *)
Theorem position_no_lookahead `{NumLib} σ1 data1 signals1 D1 S1 signal1 close1
    σ2 data2 signals2 D2 S2 signal2 close2 ic c t :
  σ1 !! data1 = Some D1 -> σ1 !! signals1 = Some S1 ->
  columns S1 !! "signal" = Some signal1 -> columns D1 !! "close" = Some close1 ->
  σ2 !! data2 = Some D2 -> σ2 !! signals2 = Some S2 ->
  columns S2 !! "signal" = Some signal2 -> columns D2 !! "close" = Some close2 ->
  length signal1 = length close1 -> length signal2 = length close2 ->
  length signal1 = length signal2 -> (0 < length signal1)%nat ->
  (forall i, (i < t)%nat -> signal1 !! i = signal2 !! i) ->
  exists perf1 τ1 P1 perf2 τ2 P2,
    Backtester.run_backtest data1 signals1 ic c σ1 = Ok (perf1, τ1)
    /\ τ1 !! positions perf1 = Some P1
    /\ Backtester.run_backtest data2 signals2 ic c σ2 = Ok (perf2, τ2)
    /\ τ2 !! positions perf2 = Some P2
    /\ forall t', (t' <= t)%nat -> cell P1 "position" t' = cell P2 "position" t'.
Proof.
  intros Hd1 Hs1 Hsig1 Hcl1 Hd2 Hs2 Hsig2 Hcl2 Hl1 Hl2 Hl Hpos Hagree.
  destruct (run_backtest_columns σ1 data1 signals1 D1 S1 signal1 close1 ic c)
    as (perf1 & τ1 & P1 & _ & Hrun1 & HP1 & _ & _ & Hc1 & _); try done.
  destruct (run_backtest_columns σ2 data2 signals2 D2 S2 signal2 close2 ic c)
    as (perf2 & τ2 & P2 & _ & Hrun2 & HP2 & _ & _ & Hc2 & _); try done; [lia|].
  exists perf1, τ1, P1, perf2, τ2, P2. repeat split; try done.
  intros t' Ht'. unfold cell. rewrite Hc1, Hc2. cbn.
  by apply (position_prefix signal1 signal2 t t').
Qed.

Lemma position_no_lookahead_witness :
  exists perf1 τ1 P1 perf2 τ2 P2,
    Backtester.run_backtest (H := approx_lib) 0 1 (Fin 10000) (Fin 0.001)
      [closes3; buy_first] = Ok (perf1, τ1)
    /\ τ1 !! positions perf1 = Some P1
    /\ Backtester.run_backtest (H := approx_lib) 0 1 (Fin 10000) (Fin 0.001)
         [closes3'; buy_first'] = Ok (perf2, τ2)
    /\ τ2 !! positions perf2 = Some P2
    /\ forall t', (t' <= 1)%nat -> cell P1 "position" t' = cell P2 "position" t'.
Proof.
  eapply (position_no_lookahead (H := approx_lib)
            [closes3; buy_first] 0 1 closes3 buy_first _ _
            [closes3'; buy_first'] 0 1 closes3' buy_first' _ _
            (Fin 10000) (Fin 0.001) 1);
    try reflexivity; try (cbn; lia).
  intros [|i] Hi; [reflexivity|lia].
Defined.

(** ** The cash ledger *)

(** The first row of the cash column is never a number: the shifted signal
    starts with NaN, and so do the position and its difference. *)
Lemma cash_first_row ic c (signal close : Series) :
  (0 < length signal)%nat -> length signal = length close ->
  BacktestColumns.cash ic c signal close !! 0%nat = Some NaN.
Proof.
  intros Hpos Hlen.
  destruct signal as [|s0 signal]; [cbn in Hpos; lia|].
  destruct close as [|c0 close]; [done|].
  unfold BacktestColumns.cash, BacktestColumns.position, Series.diff.
  rewrite !shift_one. cbn [length take Series.cumsum Series.cumsum_from Float.isnan].
  cbn [length take Series.map2 zip_with fmap list_fmap
    Float.sub Float.add Float.neg Float.mul Series.cumsum Series.cumsum_from
    Float.isnan lookup list_lookup].
  by destruct ic.
Qed.

(** C3: on three bars with a buy decision on the first bar, the cash
    column is NaN at steps 0 and 1 and equals the initial capital at step
    2, although the position is 1 from step 1 on: the purchase is never
    charged, and the total at step 2 is the capital plus one share. *)
Theorem cash_ledger_skips_first_trade :
  run_value
    (perf ← Backtester.run_backtest (H := approx_lib) 0 1 (Fin 10000) (Fin 0.001);
     Pos ← Frame.get (positions perf);
     Port ← Frame.get (portfolio perf);
     mret (columns Pos !! "position", columns Port !! "cash",
           columns Port !! "total", final_value perf))
    [closes3; buy_first]
  = Some (Some [NaN; Fin 1; Fin 1], Some [NaN; NaN; Fin 10000],
          Some [NaN; NaN; Fin 10102], Fin 10102).
Proof. vm_compute. reflexivity. Qed.

(** ** Maximum drawdown *)

Lemma drawdown_value m q :
  (0 < q)%Q -> (q <= m)%Q ->
  exists d, (Fin m ⊖ Fin q) ⊘ Fin m = Fin d /\ (0 <= d <= 1)%Q.
Proof.
  intros Hq Hm. assert (0 < m)%Q as Hm0 by (by eapply Qlt_le_trans).
  cbn. destruct (m ?= 0)%Q eqn:C.
  - apply Qeq_alt in C. rewrite C in Hm0. by apply Qlt_irrefl in Hm0.
  - apply Qlt_alt in C. exfalso. exact (Qlt_irrefl 0 (Qlt_trans _ _ _ Hm0 C)).
  - eexists. split; [reflexivity|]. rewrite !Qred_correct. split.
    + apply Qle_shift_div_l; [done|]. lra.
    + apply Qle_shift_div_r; [done|]. lra.
Qed.

Lemma drawdown_rows (s : Series) : forall acc,
  (acc = None \/ exists m, acc = Some (Fin m) /\ (0 < m)%Q) ->
  forallb positive_or_nan s = true ->
  Forall2 drawdown_row s
    (Series.map2 Float.div
       (Series.map2 Float.sub (Series.cummax_from acc s) s)
       (Series.cummax_from acc s)).
Proof.
  induction s as [|x s IH]; intros acc Hacc Hs; [constructor|].
  cbn in Hs. apply andb_true_iff in Hs as [Hx Hs].
  destruct x as [| |q|]; try done; cbn [Series.cummax_from Float.isnan].
  - constructor; [by left | by apply IH].
  - apply float_lt_fin in Hx.
    assert (exists m, match acc with
                      | None => Fin q
                      | Some a => if Float.lt a (Fin q) then Fin q else a
                      end = Fin m /\ (0 < m)%Q /\ (q <= m)%Q)
      as (m & -> & Hm & Hqm).
    { destruct Hacc as [->|(m & -> & Hm)].
      - exists q. by repeat split; try apply Qle_refl.
      - destruct (Float.lt (Fin m) (Fin q)) eqn:E.
        + exists q. by repeat split; try apply Qle_refl.
        + exists m. repeat split; [done|].
          apply Qnot_lt_le. intros Hlt. apply float_lt_fin in Hlt. congruence. }
    cbn [Series.map2 zip_with]. constructor.
    + destruct (drawdown_value m q Hx Hqm) as (d & Hd & Hr).
      right. exists q, d. by rewrite Hd.
    + apply IH; [|done]. right. by exists m.
Qed.

Lemma fmax_unit a b :
  (0 <= a <= 1)%Q -> (0 <= b <= 1)%Q ->
  exists d, Series.fmax (Fin a) (Fin b) = Fin d /\ (0 <= d <= 1)%Q.
Proof.
  intros Ha Hb. unfold Series.fmax.
  destruct (Float.lt (Fin a) (Fin b)); eauto.
Qed.

Lemma max_unit (l : Series) :
  Forall (fun y => y = NaN \/ exists d, y = Fin d /\ (0 <= d <= 1)%Q) l ->
  Exists (fun y => Float.isfinite y = true) l ->
  exists d, Series.max l = Fin d /\ (0 <= d <= 1)%Q.
Proof.
  intros Hall Hex. unfold Series.max, Series.valid.
  assert (Forall (fun y => exists d, y = Fin d /\ (0 <= d <= 1)%Q)
            (filter (fun x => Float.notna x = true) l)) as Hv.
  { apply Forall_forall. intros y Hy. apply list_elem_of_filter in Hy as [Hn Hy].
    rewrite Forall_forall in Hall. destruct (Hall y Hy) as [->|?]; done. }
  assert (filter (fun x => Float.notna x = true) l <> []) as Hne.
  { apply Exists_exists in Hex as (y & Hy & Hf). intros E.
    assert (y ∈ filter (fun x => Float.notna x = true) l) as Hin
      by (apply list_elem_of_filter; split; [by destruct y|done]).
    rewrite E in Hin. by apply elem_of_nil in Hin. }
  destruct (filter (fun x => Float.notna x = true) l) as [|y v]; [done|].
  apply Forall_cons in Hv as [(d & -> & Hd) Hv]. cbn [Series.reduce].
  clear Hne. revert d Hd. induction v as [|z v IH]; intros d Hd; [by exists d|].
  apply Forall_cons in Hv as [(e & -> & He) Hv]. cbn [foldl].
  destruct (fmax_unit d e Hd He) as (d' & -> & Hd'). by apply IH.
Qed.

Lemma drawdown_unit (total : Series) :
  forallb positive_or_nan total = true ->
  existsb Float.isfinite total = true ->
  exists d, Series.max (Backtester.drawdown total) = Fin d /\ (0 <= d <= 1)%Q.
Proof.
  intros Hpos Hfin. unfold Backtester.drawdown, Series.cummax.
  pose proof (drawdown_rows total None (or_introl eq_refl) Hpos) as Hrows.
  apply max_unit.
  - apply Forall2_Forall_r with (1 := Hrows). apply Forall_true.
    intros x y [[_ ->]|(q & d & _ & -> & Hd)]; eauto.
  - apply existsb_exists in Hfin as (x & Hx & Hf). apply list_elem_of_In in Hx.
    apply list_elem_of_lookup in Hx as [i Hi].
    destruct (Forall2_lookup_l _ _ _ _ _ Hrows Hi) as (y & Hy & Hxy).
    apply Exists_exists. exists y. split; [by eapply list_elem_of_lookup_2|].
    destruct Hxy as [[-> _]|(q & d & _ & -> & _)]; done.
Qed.

(** C7 (amended): when the total equity is a positive number at every step
    where it is defined, and defined at some step, the reported maximum
    drawdown lies between 0 and 1. *)
Theorem max_drawdown_bounded `{NumLib} σ data signals D Sg signal close ic c :
  σ !! data = Some D -> σ !! signals = Some Sg ->
  columns Sg !! "signal" = Some signal -> columns D !! "close" = Some close ->
  length signal = length close ->
  forallb positive_or_nan (BacktestColumns.total ic c signal close) = true ->
  existsb Float.isfinite (BacktestColumns.total ic c signal close) = true ->
  exists perf σ' Port d,
    Backtester.run_backtest data signals ic c σ = Ok (perf, σ')
    /\ σ' !! portfolio perf = Some Port
    /\ columns Port !! "total" = Some (BacktestColumns.total ic c signal close)
    /\ max_drawdown_pct perf = Fin d ⊗ Fin 100
    /\ (0 <= d <= 1)%Q.
Proof.
  intros Hdata Hsignals Hsignal Hclose Hlen Hpos Hfin.
  assert (0 < length signal)%nat as Hn.
  { rewrite <- (length_total ic c signal close Hlen).
    destruct (BacktestColumns.total ic c signal close); [done|cbn; lia]. }
  destruct (run_backtest_columns σ data signals D Sg signal close ic c)
    as (perf & σ' & _ & Port & Hrun & _ & HPort & _ & _ & _ & Htotal & _ & Hdd & _);
    try done.
  destruct (drawdown_unit _ Hpos Hfin) as (d & Hd & Hr).
  exists perf, σ', Port, d. rewrite Hdd, Hd.
  split; [exact Hrun|]. split; [exact HPort|]. split; [exact Htotal|].
  split; [reflexivity|exact Hr].
Qed.

(** The statement of C7 on four bars where the total falls from 10099.9 to
    10079.9 at the last bar: the reported drawdown is positive. *)
Lemma max_drawdown_bounded_witness :
  exists perf σ' Port d,
    Backtester.run_backtest (H := approx_lib) 0 1 (Fin 10000) (Fin 0.001)
      [closes_dip; buy_twice] = Ok (perf, σ')
    /\ σ' !! portfolio perf = Some Port
    /\ columns Port !! "total"
       = Some [NaN; NaN; Fin 10099.9; Fin 10079.9]
    /\ max_drawdown_pct perf = Fin d ⊗ Fin 100
    /\ (0 < d <= 1)%Q.
Proof.
  destruct (max_drawdown_bounded (H := approx_lib) [closes_dip; buy_twice] 0 1
              closes_dip buy_twice [Fin 1; Fin 1; Fin 0; Fin 0]
              [Fin 100; Fin 100; Fin 100; Fin 90] (Fin 10000) (Fin 0.001)
              eq_refl eq_refl eq_refl eq_refl eq_refl eq_refl eq_refl)
    as (perf & σ' & Port & d & Hrun & HPort & Htotal & Hdd & Hd).
  exists perf, σ', Port, d.
  split; [exact Hrun|]. split; [exact HPort|].
  split; [rewrite Htotal; vm_compute; reflexivity|].
  split; [exact Hdd|]. split; [|apply Hd].
  vm_compute in Hrun. injection Hrun as <- _.
  cbn [max_drawdown_pct Float.mul] in Hdd. injection Hdd as Hdd.
  assert (d * 100 == 20000 # 100999)%Q as E
    by (rewrite <- (Qred_correct (d * 100)), <- Hdd; reflexivity).
  clear - E. assert (0 < 20000 # 100999)%Q by reflexivity. lra.
Defined.

(** C7 as stated fails when the equity turns negative: a short position of
    ten shares sold at 1000 and marked at 2200 takes the total from 10010
    to -1990, a drawdown of about 1.2. *)
Lemma max_drawdown_exceeds_one :
  ~ max_drawdown_in_unit_interval (H := approx_lib)
      [short_squeeze_closes; short_squeeze_signals] 0 1 (Fin 10000) (Fin 0.001).
Proof.
  intros Hclaim.
  assert (run_value
            (perf ← Backtester.run_backtest (H := approx_lib) 0 1
                      (Fin 10000) (Fin 0.001);
             mret (Float.lt (Fin 100) (max_drawdown_pct perf)))
            [short_squeeze_closes; short_squeeze_signals] = Some true) as R
    by (vm_compute; reflexivity).
  apply run_value_bind in R as (perf & σ' & E & R).
  injection R as Hgt.
  destruct (Hclaim perf σ' E) as (d & Hd & H0 & H1).
  clear E Hclaim.
  destruct (max_drawdown_pct perf) as [| |x|]; cbn in Hd; try contradiction.
  apply float_lt_fin in Hgt. lra.
Qed.

(** ** Sharpe ratio *)

(** C8 (amended): on a series of at least one bar run_backtest raises no
    error; the reported Sharpe ratio is mean(Return)/std(Return) * sqrt(252)
    when there are at least two returns and their standard deviation is
    not zero, and is exactly 0 otherwise, in particular on a single bar. *)
Theorem sharpe_ratio_guarded `{NumLib} σ data signals D Sg signal close ic c :
  σ !! data = Some D -> σ !! signals = Some Sg ->
  columns Sg !! "signal" = Some signal -> columns D !! "close" = Some close ->
  length signal = length close -> (0 < length signal)%nat ->
  exists perf σ' Port returns,
    Backtester.run_backtest data signals ic c σ = Ok (perf, σ')
    /\ σ' !! portfolio perf = Some Port
    /\ columns Port !! "returns" = Some returns
    /\ length returns = length signal
    /\ ((2 <= length returns)%nat ->
        Float.neqb (Series.std returns) (Fin 0) = true ->
        sharpe_ratio perf
        = Series.mean returns ⊘ Series.std returns ⊗ Float.sqrt (Fin 252))
    /\ ((length returns < 2)%nat \/ Float.eqb (Series.std returns) (Fin 0) = true ->
        sharpe_ratio perf = Fin 0).
Proof.
  intros Hdata Hsignals Hsignal Hclose Hlen Hn.
  destruct (run_backtest_columns σ data signals D Sg signal close ic c)
    as (perf & σ' & _ & Port & Hrun & _ & HPort & _ & _ & _ & _ & Hret & _ & Hsh);
    try done.
  exists perf, σ', Port, (BacktestColumns.returns ic c signal close).
  split; [exact Hrun|]. split; [exact HPort|]. split; [exact Hret|].
  split; [by apply length_returns|].
  rewrite Hsh. unfold BacktestColumns.sharpe, Float.neqb. split.
  - intros H2 Hstd. rewrite Hstd, andb_true_r.
    by destruct (Nat.ltb_spec 1 (length (BacktestColumns.returns ic c signal close)));
      [|lia].
  - intros [H2|Hstd].
    + by destruct (Nat.ltb_spec 1 (length (BacktestColumns.returns ic c signal close)));
        [lia|].
    + by rewrite Hstd, andb_false_r.
Qed.

(** The statement of C8 on the four bars whose last return is negative:
    there are four returns, their standard deviation is not zero, and the
    reported ratio is their mean over their standard deviation times the
    square root of 252. *)
Lemma sharpe_ratio_guarded_witness :
  exists perf σ' Port returns,
    Backtester.run_backtest (H := approx_lib) 0 1 (Fin 10000) (Fin 0.001)
      [closes_dip; buy_twice] = Ok (perf, σ')
    /\ σ' !! portfolio perf = Some Port
    /\ columns Port !! "returns" = Some returns
    /\ length returns = 4%nat
    /\ Float.neqb (Series.std (H := approx_lib) returns) (Fin 0) = true
    /\ sharpe_ratio perf
       = Series.mean returns ⊘ Series.std (H := approx_lib) returns
         ⊗ Float.sqrt (H := approx_lib) (Fin 252).
Proof.
  destruct (sharpe_ratio_guarded (H := approx_lib) [closes_dip; buy_twice] 0 1
              closes_dip buy_twice [Fin 1; Fin 1; Fin 0; Fin 0]
              [Fin 100; Fin 100; Fin 100; Fin 90] (Fin 10000) (Fin 0.001)
              eq_refl eq_refl eq_refl eq_refl eq_refl (Nat.lt_0_succ 3))
    as (perf & σ' & Port & returns & Hrun & HPort & Hret & Hlen & Hratio & _).
  assert (Float.neqb (Series.std (H := approx_lib) returns) (Fin 0) = true)
    as Hstd.
  { clear Hratio Hlen. vm_compute in Hrun. injection Hrun as <- <-.
    vm_compute in HPort. injection HPort as <-.
    vm_compute in Hret. injection Hret as <-.
    vm_compute. reflexivity. }
  exists perf, σ', Port, returns.
  split; [exact Hrun|]. split; [exact HPort|]. split; [exact Hret|].
  split; [exact Hlen|]. split; [exact Hstd|].
  apply Hratio; [|exact Hstd]. rewrite Hlen. cbn. lia.
Defined.

(** C8 as stated fails on a series without bars: run_backtest raises
    IndexError where it reads the last total, before the guard of the
    Sharpe ratio is reached. *)
Lemma sharpe_ratio_empty_series_raises :
  ~ sharpe_ratio_reported (H := approx_lib) [no_bars; no_signals] 0 1
      (Fin 10000) (Fin 0.001).
Proof.
  intros (perf & σ' & Port & returns & Hrun & _).
  vm_compute in Hrun. discriminate Hrun.
Qed.

(** On a single bar the reported Sharpe ratio is 0. *)
Lemma sharpe_ratio_single_bar :
  run_value
    (perf ← Backtester.run_backtest (H := approx_lib) 0 1 (Fin 10000) (Fin 0.001);
     mret (sharpe_ratio perf))
    [single_bar; single_signal]
  = Some (Fin 0).
Proof. vm_compute. reflexivity. Qed.

(** ** Pattern detectors on short series *)

Lemma len_plain σ r f :
  σ !! r = Some f -> Frame.len r σ = Ok (nrows f, σ).
Proof. intros H. unfold Frame.len, Frame.get. by rewrite bind_run, H. Qed.

Lemma getcol_plain σ r f k c :
  σ !! r = Some f -> columns f !! k = Some c -> Frame.getcol r k σ = Ok (c, σ).
Proof. intros H Hk. unfold Frame.getcol, Frame.get. by rewrite bind_run, H, Hk. Qed.

Lemma range_short (w n : nat) :
  (n <= 2 * w)%nat ->
  PatternDetector.range (Z.of_nat w) (Z.of_nat n - Z.of_nat w) = [].
Proof.
  intros H. unfold PatternDetector.range.
  replace (Z.to_nat (Z.of_nat n - Z.of_nat w - Z.of_nat w)) with 0%nat by lia.
  reflexivity.
Qed.

(** C10: on a table of at most 2 * window rows that has the high and low
    columns, every pattern detector returns a marker column of zeros, one
    per row, and raises no error. *)
Theorem short_series_no_pattern σ df F high low (window : nat)
    (pattern_type : top_or_bottom) (kind : triangle_kind) :
  σ !! df = Some F ->
  columns F !! "high" = Some high -> columns F !! "low" = Some low ->
  (nrows F <= 2 * window)%nat ->
  PatternDetector.detect_head_shoulders df window σ
  = Ok (replicate (nrows F) (Fin 0), σ)
  /\ PatternDetector.detect_double_top_bottom df pattern_type window σ
     = Ok (replicate (nrows F) (Fin 0), σ)
  /\ PatternDetector.detect_triangle_patterns df kind window σ
     = Ok (replicate (nrows F) (Fin 0), σ).
Proof.
  intros HF Hhigh Hlow Hshort.
  unfold PatternDetector.detect_head_shoulders,
    PatternDetector.detect_double_top_bottom,
    PatternDetector.detect_triangle_patterns.
  rewrite !bind_run, !(len_plain _ _ _ HF).
  rewrite !bind_run, !(getcol_plain _ _ _ _ _ HF Hhigh).
  rewrite !bind_run, !(getcol_plain _ _ _ _ _ HF Hlow).
  by rewrite (range_short _ _ Hshort).
Qed.

Lemma short_series_no_pattern_witness :
  PatternDetector.detect_head_shoulders 0 30 [bars_high_low]
  = Ok (replicate (nrows bars_high_low) (Fin 0), [bars_high_low])
  /\ PatternDetector.detect_double_top_bottom 0 bottom 30 [bars_high_low]
     = Ok (replicate (nrows bars_high_low) (Fin 0), [bars_high_low])
  /\ PatternDetector.detect_triangle_patterns 0 symmetrical 30 [bars_high_low]
     = Ok (replicate (nrows bars_high_low) (Fin 0), [bars_high_low]).
Proof.
  apply (short_series_no_pattern [bars_high_low] 0 bars_high_low
           [Fin 11; Fin 12; Fin 13] [Fin 9; Fin 10; Fin 11] 30 bottom symmetrical);
    try reflexivity.
  cbn. lia.
Defined.

(** ** The indicator stage

    The indicator functions assign columns to the table they are given:
    the store keeps the form [<[df := F]> σ]. *)

Section InPlace.
Context (σ : store) (r : ref) (Hr : (r < length σ)%nat).

Lemma get_inplace F : Frame.get r (<[r := F]> σ) = Ok (F, <[r := F]> σ).
Proof. unfold Frame.get. by rewrite list_lookup_insert_eq. Qed.

Lemma getcol_inplace F k :
  Frame.getcol r k (<[r := F]> σ)
  = match columns F !! k with
    | Some c => Ok (c, <[r := F]> σ)
    | None => Raise (KeyError k)
    end.
Proof.
  unfold Frame.getcol. rewrite bind_run, get_inplace.
  by destruct (columns F !! k).
Qed.

Lemma setcol_inplace F k c :
  Frame.setcol r k c (<[r := F]> σ) = Ok (tt, <[r := Frame.with_col k c F]> σ).
Proof.
  unfold Frame.setcol, Frame.put. rewrite bind_run, get_inplace.
  by rewrite list_insert_insert_eq.
Qed.

Lemma has_col_inplace F k :
  Frame.has_col r k (<[r := F]> σ)
  = Ok (bool_decide (is_Some (columns F !! k)), <[r := F]> σ).
Proof. unfold Frame.has_col. by rewrite bind_run, get_inplace. Qed.

End InPlace.

Lemma bool_decide_is_Some {A} (x : A) : bool_decide (is_Some (Some x)) = true.
Proof. by apply bool_decide_eq_true_2. Qed.

Ltac inplace_step Hr :=
  rewrite ?bind_run;
  first [ rewrite (getcol_inplace _ _ Hr)
        | rewrite (setcol_inplace _ _ Hr)
        | rewrite (has_col_inplace _ _ Hr)
        | rewrite ret_run ];
  lk; use_columns; rewrite ?bool_decide_is_Some; cbn [negb orb]; cbv beta iota.

Lemma rsi_column_14 : IndicatorCalculator.rsi_column 14 = "rsi_14".
Proof. reflexivity. Qed.

Lemma add_rsi_run σ df F close :
  σ !! df = Some F -> columns F !! "close" = Some close ->
  IndicatorCalculator.add_rsi df 14 σ
  = Ok (df, <[df := Frame.with_col "rsi_14" (IndicatorColumns.rsi 14 close) F]> σ).
Proof.
  intros HF Hclose. pose proof (lookup_lt_Some _ _ _ HF) as Hr.
  replace (IndicatorCalculator.add_rsi df 14 σ)
    with (IndicatorCalculator.add_rsi df 14 (<[df := F]> σ))
    by (by rewrite list_insert_id).
  unfold IndicatorCalculator.add_rsi. rewrite rsi_column_14.
  repeat inplace_step Hr. reflexivity.
Qed.

Lemma calculate_all_indicators_run `{NumLib} σ df F close :
  σ !! df = Some F -> columns F !! "close" = Some close ->
  exists F',
    IndicatorCalculator.calculate_all_indicators df σ = Ok (df, <[df := F']> σ)
    /\ columns F' !! "close" = Some close
    /\ columns F' !! "sma_20" = Some (IndicatorColumns.sma 20 close)
    /\ columns F' !! "sma_50" = Some (IndicatorColumns.sma 50 close)
    /\ columns F' !! "ema_12" = Some (IndicatorColumns.ema 12 close)
    /\ columns F' !! "ema_26" = Some (IndicatorColumns.ema 26 close)
    /\ columns F' !! "rsi_14" = Some (IndicatorColumns.rsi 14 close)
    /\ columns F' !! "bb_middle" = Some (IndicatorColumns.sma 20 close)
    /\ columns F' !! "bb_upper" = Some (IndicatorColumns.bb_upper 20 2 close)
    /\ columns F' !! "bb_lower" = Some (IndicatorColumns.bb_lower 20 2 close)
    /\ columns F' !! "macd" = Some (IndicatorColumns.macd close)
    /\ columns F' !! "macd_signal" = Some (IndicatorColumns.macd_signal close)
    /\ columns F' !! "macd_hist" = Some (IndicatorColumns.macd_hist close).
Proof.
  intros HF Hclose. pose proof (lookup_lt_Some _ _ _ HF) as Hr.
  replace (IndicatorCalculator.calculate_all_indicators df σ)
    with (IndicatorCalculator.calculate_all_indicators df (<[df := F]> σ))
    by (by rewrite list_insert_id).
  unfold IndicatorCalculator.calculate_all_indicators,
    IndicatorCalculator.add_moving_averages, IndicatorCalculator.add_rsi,
    IndicatorCalculator.add_bollinger_bands, IndicatorCalculator.add_macd.
  rewrite rsi_column_14.
  repeat inplace_step Hr.
  eexists. split; [reflexivity|].
  repeat split; lk; try reflexivity; exact Hclose.
Qed.

(** ** Windows and reductions over finite series *)

Lemma Forall_zip_with_2 {A B C} (P : A -> Prop) (Q : B -> Prop) (R : C -> Prop)
    (f : A -> B -> C) (l : list A) (k : list B) :
  Forall P l -> Forall Q k -> (forall x y, P x -> Q y -> R (f x y)) ->
  Forall R (zip_with f l k).
Proof.
  intros Hl. revert k. induction Hl as [|x l Hx Hl IH]; intros k Hk Hf; [constructor|].
  destruct Hk as [|y k Hy Hk]; [constructor|].
  cbn. constructor; [by apply Hf | by apply IH].
Qed.

Lemma zip_with_fmap_same {A B C} (f : B -> A -> C) (g : A -> B) (l : list A) :
  zip_with f (g <$> l) l = (fun x => f (g x) x) <$> l.
Proof. induction l as [|x l IH]; [done|]. cbn. by rewrite IH. Qed.

Lemma const_series (l : Series) v :
  Forall (fun x => x = v) l -> l = replicate (length l) v.
Proof. induction 1 as [|x l -> _ IH]; [done|]. cbn. by rewrite <- IH. Qed.

Lemma finite_lookup (s : Series) t :
  Forall is_finite s -> (t < length s)%nat -> exists q, s !! t = Some (Fin q).
Proof.
  intros Hs Ht. destruct (lookup_lt_is_Some_2 _ _ Ht) as [x Hx].
  rewrite Forall_lookup in Hs. specialize (Hs _ _ Hx).
  destruct x; try done. by eexists.
Qed.

Lemma valid_finite (w : Series) : Forall is_finite w -> Series.valid w = w.
Proof.
  unfold Series.valid. induction 1 as [|x w Hx _ IH]; [done|].
  rewrite filter_cons. destruct x; try done. cbn.
  destruct (decide _); [by rewrite IH | done].
Qed.

Lemma sum_from_finite (l : Series) : forall a,
  Forall is_finite l -> exists q, foldl Float.add (Fin a) l = Fin q.
Proof.
  induction l as [|x l IH]; intros a Hl; [by exists a|].
  apply Forall_cons in Hl as [Hx Hl]. destruct x; try done. cbn. by apply IH.
Qed.

Lemma sum_from_nonneg (l : Series) : forall a,
  (0 <= a)%Q -> Forall is_nonneg l ->
  exists q, foldl Float.add (Fin a) l = Fin q /\ (0 <= q)%Q.
Proof.
  induction l as [|x l IH]; intros a Ha Hl; [by exists a|].
  apply Forall_cons in Hl as [(q & -> & Hq) Hl]. cbn. apply IH; [|done].
  rewrite Qred_correct. lra.
Qed.

Lemma nonneg_finite x : is_nonneg x -> is_finite x.
Proof. by intros (q & -> & _). Qed.

Lemma of_nat_pos (n : nat) : (0 < n)%nat -> (0 < inject_Z (Z.of_nat n))%Q.
Proof. intros Hn. change 0%Q with (inject_Z 0). rewrite <- Zlt_Qlt. lia. Qed.

Lemma div_of_nat s (n : nat) :
  (0 < n)%nat ->
  Fin s ⊘ Float.of_nat n = Fin (Qred (s / inject_Z (Z.of_nat n))).
Proof.
  intros Hn. pose proof (of_nat_pos n Hn) as Hp. unfold Float.of_nat. cbn.
  apply Qgt_alt in Hp. by rewrite Hp.
Qed.

Lemma mean_finite (w : Series) :
  Forall is_finite w -> (0 < length w)%nat -> exists q, Series.mean_of 1 w = Fin q.
Proof.
  intros Hw Hn. unfold Series.mean_of. rewrite (valid_finite _ Hw).
  destruct (Nat.ltb_spec (length w) 1); [lia|].
  destruct (sum_from_finite w 0 Hw) as [s Hs]. unfold Series.sum. rewrite Hs.
  rewrite div_of_nat by done. by eexists.
Qed.

Lemma mean_nonneg (w : Series) :
  Forall is_nonneg w -> (0 < length w)%nat -> is_nonneg (Series.mean_of 1 w).
Proof.
  intros Hw Hn. unfold Series.mean_of.
  rewrite (valid_finite w) by (eapply Forall_impl; [done|apply nonneg_finite]).
  destruct (Nat.ltb_spec (length w) 1); [lia|].
  destruct (sum_from_nonneg w 0 (Qle_refl 0) Hw) as (s & Hs & Hs0).
  unfold Series.sum. rewrite Hs, div_of_nat by done.
  eexists. split; [done|]. rewrite Qred_correct.
  apply Qle_shift_div_l; [by apply of_nat_pos|]. lra.
Qed.

Lemma length_window w t (s : Series) :
  (t < length s)%nat ->
  length (Series.window_at w t s) = ((t + 1) `min` w)%nat.
Proof. intros Ht. unfold Series.window_at. rewrite length_drop, length_take. lia. Qed.

Lemma Forall_window (P : float -> Prop) w t (s : Series) :
  Forall P s -> Forall P (Series.window_at w t s).
Proof. intros Hs. unfold Series.window_at. by apply Forall_drop, Forall_take. Qed.

Lemma length_rolling agg w (s : Series) :
  length (Series.rolling agg w s) = length s.
Proof. unfold Series.rolling. by rewrite length_fmap, length_seq. Qed.

Lemma lookup_rolling agg w (s : Series) t :
  (t < length s)%nat ->
  Series.rolling agg w s !! t = Some (agg (Series.window_at w t s)).
Proof.
  intros Ht. unfold Series.rolling.
  by rewrite list_lookup_fmap, lookup_seq_lt.
Qed.

Lemma Forall_rolling (P : float -> Prop) agg w (s : Series) :
  (forall t, (t < length s)%nat -> P (agg (Series.window_at w t s))) ->
  Forall P (Series.rolling agg w s).
Proof.
  intros H. apply Forall_lookup. intros t x Hx.
  assert (t < length s)%nat as Ht
    by (rewrite <- (length_rolling agg w s); by eapply lookup_lt_Some).
  rewrite lookup_rolling in Hx by done. injection Hx as <-. by apply H.
Qed.

Lemma rolling_mean_finite w (s : Series) :
  (0 < w)%nat -> Forall is_finite s -> Forall is_finite (Series.rolling_mean w 1 s).
Proof.
  intros Hw Hs. apply Forall_rolling. intros t Ht.
  destruct (mean_finite (Series.window_at w t s)) as [q Hq].
  - by apply Forall_window.
  - rewrite length_window by done. lia.
  - by rewrite Hq.
Qed.

Lemma rolling_mean_nonneg w (s : Series) :
  (0 < w)%nat -> Forall is_nonneg s -> Forall is_nonneg (Series.rolling_mean w 1 s).
Proof.
  intros Hw Hs. apply Forall_rolling. intros t Ht. apply mean_nonneg.
  - by apply Forall_window.
  - rewrite length_window by done. lia.
Qed.

(** The first moving average is the first close. *)
Lemma rolling_mean_first w q (s : Series) :
  (0 < w)%nat ->
  exists m, Series.rolling_mean w 1 (Fin q :: s) !! 0%nat = Some (Fin m) /\ (m == q)%Q.
Proof.
  intros Hw. unfold Series.rolling_mean.
  rewrite lookup_rolling by (cbn; lia).
  assert (Series.window_at w 0 (Fin q :: s) = [Fin q]) as ->.
  { unfold Series.window_at. by replace (0 + 1 - w)%nat with 0%nat by lia. }
  unfold Series.mean_of. rewrite (valid_finite [Fin q]) by (by repeat constructor).
  cbn. eexists. split; [reflexivity|].
  rewrite !Qred_correct. field.
Qed.

(** ** Exponential averages, gains and losses *)

Lemma length_ewm_from α prev (s : Series) :
  length (Series.ewm_from α prev s) = length s.
Proof.
  revert prev. induction s as [|x s IH]; intros prev; [done|]. cbn. by rewrite IH.
Qed.

Lemma ewm_from_finite α (s : Series) : forall prev,
  nan_or_finite prev -> Forall is_finite s ->
  Forall is_finite (Series.ewm_from α prev s).
Proof.
  induction s as [|x s IH]; intros prev Hprev Hs; [constructor|].
  apply Forall_cons in Hs as [Hx Hs]. destruct x as [| |q|]; try done.
  cbn [Series.ewm_from Float.isnan].
  destruct Hprev as [->|Hp].
  - cbn. constructor; [done|]. apply IH; [by right|done].
  - destruct prev as [| |p|]; try done. cbn.
    constructor; [done|]. apply IH; [by right|done].
Qed.

Lemma ewm_mean_finite span (s : Series) :
  Forall is_finite s -> Forall is_finite (Series.ewm_mean span s).
Proof. intros Hs. apply ewm_from_finite; [by left|done]. Qed.

Lemma sub_finite (a b : Series) :
  Forall is_finite a -> Forall is_finite b ->
  Forall is_finite (Series.map2 Float.sub a b).
Proof.
  intros Ha Hb. apply (Forall_zip_with_2 is_finite is_finite); try done.
  by intros [] [].
Qed.

Lemma shift_one_rows (s : Series) :
  Forall is_finite s -> Forall nan_or_finite (Series.shift 1 s).
Proof.
  intros Hs. rewrite shift_one. apply Forall_take. constructor; [by left|].
  eapply Forall_impl; [done|]. intros x Hx. by right.
Qed.

Lemma diff_rows (s : Series) :
  Forall is_finite s -> Forall nan_or_finite (Series.diff s).
Proof.
  intros Hs. unfold Series.diff.
  apply (Forall_zip_with_2 is_finite nan_or_finite);
    [done|by apply shift_one_rows|].
  intros [] y Hx [->|Hy]; try done; [by left|]. destruct y; try done. by right.
Qed.

Lemma gain_eq (close : Series) :
  IndicatorColumns.gain close
  = (fun d => if Float.gt d (Fin 0) then d else Fin 0) <$> Series.diff close.
Proof.
  unfold IndicatorColumns.gain, Series.where_, Series.cmp_scalar.
  apply (zip_with_fmap_same (fun (c : bool) x => if c then x else Fin 0)).
Qed.

Lemma loss_eq (close : Series) :
  IndicatorColumns.loss close
  = (fun d => Float.neg (if Float.lt d (Fin 0) then d else Fin 0))
      <$> Series.diff close.
Proof.
  unfold IndicatorColumns.loss, Series.where_, Series.cmp_scalar.
  rewrite (zip_with_fmap_same (fun (c : bool) x => if c then x else Fin 0)).
  by rewrite <- list_fmap_compose.
Qed.

Lemma gain_nonneg (close : Series) :
  Forall is_finite close -> Forall is_nonneg (IndicatorColumns.gain close).
Proof.
  intros Hs. rewrite gain_eq. apply Forall_fmap.
  eapply Forall_impl; [by apply diff_rows|]. intros d [->|Hd]; cbn.
  - by exists 0%Q.
  - destruct d as [| |q|]; try done.
    destruct (Float.gt (Fin q) (Fin 0)) eqn:E; [|by exists 0%Q].
    apply float_lt_fin in E. exists q. split; [done|]. by apply Qlt_le_weak.
Qed.

Lemma loss_nonneg (close : Series) :
  Forall is_finite close -> Forall is_nonneg (IndicatorColumns.loss close).
Proof.
  intros Hs. rewrite loss_eq. apply Forall_fmap.
  eapply Forall_impl; [by apply diff_rows|]. intros d [->|Hd]; cbn.
  - by exists (- 0)%Q.
  - destruct d as [| |q|]; try done.
    destruct (Float.lt (Fin q) (Fin 0)) eqn:E; [|by exists (- 0)%Q].
    apply float_lt_fin in E. exists (- q)%Q. split; [done|].
    apply Qlt_le_weak, Qopp_le_compat in E. exact E.
Qed.

Lemma length_gain (close : Series) :
  length (IndicatorColumns.gain close) = length close.
Proof. by rewrite gain_eq, length_fmap, length_diff. Qed.

Lemma length_loss (close : Series) :
  length (IndicatorColumns.loss close) = length close.
Proof. by rewrite loss_eq, length_fmap, length_diff. Qed.

(** The guarded division of the RSI never fails and never gives NaN. *)
Lemma guarded_denominator b : is_nonneg b -> is_positive (b ⊕ Fin 1e-10).
Proof.
  intros (y & -> & Hy). assert (0 < 1e-10)%Q as Heps by reflexivity.
  eexists. split; [reflexivity|]. rewrite Qred_correct. lra.
Qed.

Lemma div_nonneg a b : is_nonneg a -> is_positive b -> is_nonneg (a ⊘ b).
Proof.
  intros (x & -> & Hx) (y & -> & Hy). cbn.
  apply Qgt_alt in Hy as Hc. rewrite Hc. eexists. split; [reflexivity|].
  rewrite Qred_correct. apply Qle_shift_div_l; [done|lra].
Qed.

Lemma rsi_value_finite rs :
  is_nonneg rs -> is_finite (Fin 100 ⊖ (Fin 100 ⊘ (Fin 1 ⊕ rs))).
Proof.
  intros (x & -> & Hx). cbn [Float.add].
  assert (0 < Qred (1 + x))%Q as Hone by (rewrite Qred_correct; lra).
  cbn [Float.div]. apply Qgt_alt in Hone as Hc. by rewrite Hc.
Qed.

Lemma rsi_rows window (close : Series) :
  (0 < window)%nat -> Forall is_finite close ->
  Forall is_finite (IndicatorColumns.rsi window close).
Proof.
  intros Hw Hs. unfold IndicatorColumns.rsi, Series.map2.
  apply Forall_fmap.
  apply (Forall_zip_with_2 is_nonneg is_positive).
  - by apply rolling_mean_nonneg, gain_nonneg.
  - apply Forall_fmap. eapply Forall_impl.
    + by apply rolling_mean_nonneg, loss_nonneg.
    + intros b Hb. by apply guarded_denominator.
  - intros a b Ha Hb. by apply rsi_value_finite, div_nonneg.
Qed.

Lemma length_rsi window (close : Series) :
  length (IndicatorColumns.rsi window close) = length close.
Proof.
  unfold IndicatorColumns.rsi, Series.map2, Series.rolling_mean.
  rewrite length_fmap, length_zip_with, length_fmap, !length_rolling,
    length_gain, length_loss. lia.
Qed.

(** ** Bollinger bands *)

Lemma square_nonneg x m : is_finite x -> is_nonneg ((x ⊖ Fin m) ⊗ (x ⊖ Fin m)).
Proof.
  destruct x as [| |q|]; try done. intros _. cbn.
  eexists. split; [reflexivity|]. rewrite Qred_correct.
  generalize (Qred (q + - m)). intros [n d].
  unfold Qle, Qmult. cbn. nia.
Qed.

Lemma var_nonneg (w : Series) :
  Forall is_finite w -> (2 <= length w)%nat -> is_nonneg (Series.var_of 1 w).
Proof.
  intros Hw Hn. unfold Series.var_of. rewrite (valid_finite _ Hw).
  destruct (Nat.ltb_spec (length w) 1); [lia|].
  destruct (Nat.leb_spec (length w) 1); [lia|]. cbn [orb].
  destruct (sum_from_finite w 0 Hw) as [s Hs]. unfold Series.sum.
  rewrite Hs, div_of_nat by lia.
  destruct (sum_from_nonneg
              ((fun x => (x ⊖ Fin (Qred (s / inject_Z (Z.of_nat (length w)))))
                          ⊗ (x ⊖ Fin (Qred (s / inject_Z (Z.of_nat (length w))))))
                 <$> w) 0 (Qle_refl 0)) as (v & Hv & Hv0).
  { apply Forall_fmap. eapply Forall_impl; [done|].
    intros x Hx. by apply square_nonneg. }
  unfold Series.sum. rewrite Hv, div_of_nat by lia.
  eexists. split; [reflexivity|]. rewrite Qred_correct.
  apply Qle_shift_div_l; [apply of_nat_pos; lia|]. lra.
Qed.

Lemma std_finite `{NumLib} (w : Series) :
  Forall is_finite w -> (2 <= length w)%nat -> is_finite (Series.std_of 1 w).
Proof.
  intros Hw Hn. unfold Series.std_of.
  destruct (var_nonneg w Hw Hn) as (v & -> & Hv). cbn.
  destruct (v ?= 0)%Q eqn:E; try done.
  apply Qlt_alt in E. lra.
Qed.

Lemma std_single `{NumLib} x : Series.std_of 1 [x] = NaN.
Proof.
  unfold Series.std_of, Series.var_of, Series.valid.
  rewrite filter_cons, filter_nil. by destruct (decide _).
Qed.

Lemma lookup_band `{NumLib} (op : float -> float -> float) window (k : Z)
    (close : Series) t m sd :
  Series.rolling_mean window 1 close !! t = Some m ->
  Series.rolling_std window 1 close !! t = Some sd ->
  Series.map2 op (IndicatorColumns.sma window close)
    ((fun x => x ⊗ Float.of_Z k) <$> Series.rolling_std window 1 close) !! t
  = Some (op m (sd ⊗ Float.of_Z k)).
Proof.
  intros Hm Hsd. unfold Series.map2, IndicatorColumns.sma.
  by rewrite lookup_zip_with, Hm, list_lookup_fmap, Hsd.
Qed.

(** The bands are null at the first row and numbers from the second on. *)
Lemma band_rows `{NumLib} window (k : Z) (close : Series) :
  (2 <= window)%nat -> Forall is_finite close -> (0 < length close)%nat ->
  (IndicatorColumns.bb_upper window k close !! 0%nat = Some NaN
   /\ IndicatorColumns.bb_lower window k close !! 0%nat = Some NaN)
  /\ forall t, (1 <= t < length close)%nat ->
       exists u l,
         IndicatorColumns.bb_upper window k close !! t = Some (Fin u)
         /\ IndicatorColumns.bb_lower window k close !! t = Some (Fin l).
Proof.
  intros Hw Hs Hn. split.
  - destruct close as [|x close]; [cbn in Hn; lia|].
    apply Forall_cons in Hs as [Hx _]. destruct x as [| |q|]; try done.
    destruct (rolling_mean_first window q close) as (m & Hm & _); [lia|].
    assert (Series.rolling_std window 1 (Fin q :: close) !! 0%nat = Some NaN) as Hsd.
    { unfold Series.rolling_std. rewrite lookup_rolling by (cbn; lia).
      assert (Series.window_at window 0 (Fin q :: close) = [Fin q]) as ->.
      { unfold Series.window_at. by replace (0 + 1 - window)%nat with 0%nat by lia. }
      by rewrite std_single. }
    unfold IndicatorColumns.bb_upper, IndicatorColumns.bb_lower.
    by rewrite (lookup_band Float.add _ _ _ _ _ _ Hm Hsd),
      (lookup_band Float.sub _ _ _ _ _ _ Hm Hsd).
  - intros t Ht.
    destruct (finite_lookup (Series.rolling_mean window 1 close) t) as [m Hm].
    { apply rolling_mean_finite; [lia|done]. }
    { unfold Series.rolling_mean. rewrite length_rolling. lia. }
    assert (is_finite (Series.std_of 1 (Series.window_at window t close))) as Hsd.
    { apply std_finite; [by apply Forall_window|].
      rewrite length_window by lia. lia. }
    destruct (Series.std_of 1 (Series.window_at window t close)) as [| |sd|] eqn:E;
      try done.
    assert (Series.rolling_std window 1 close !! t = Some (Fin sd)) as Hstd.
    { unfold Series.rolling_std. rewrite lookup_rolling by lia. by rewrite E. }
    unfold IndicatorColumns.bb_upper, IndicatorColumns.bb_lower.
    rewrite (lookup_band Float.add _ _ _ _ _ _ Hm Hstd),
      (lookup_band Float.sub _ _ _ _ _ _ Hm Hstd).
    by eexists _, _.
Qed.

(** ** The indicator columns of a finite, non-empty series *)

Lemma length_macd (close : Series) :
  length (IndicatorColumns.macd close) = length close.
Proof.
  unfold IndicatorColumns.macd, IndicatorColumns.ema, Series.map2, Series.ewm_mean.
  rewrite length_zip_with, !length_ewm_from. lia.
Qed.

Lemma macd_finite (close : Series) :
  Forall is_finite close -> Forall is_finite (IndicatorColumns.macd close).
Proof. intros Hs. by apply sub_finite; apply ewm_mean_finite. Qed.

Lemma moderate_finite (s : Series) : Forall moderate s -> Forall is_finite s.
Proof.
  intros Hs. eapply Forall_impl; [exact Hs|]. by intros x (q & -> & _).
Qed.

(** C5 (amended): on a non-empty series whose closes are numbers of
    magnitude at most 1e100 the indicator stage raises no error; SMA20/50,
    EMA12/26, RSI, the Bollinger middle band, MACD, its signal line and its
    histogram hold a number at every row, the first SMA being the first
    close; the upper and lower Bollinger bands are null at the first row,
    where the sample standard deviation of one observation is undefined,
    and hold a number at every later row. *)
Theorem indicators_defined_except_first_band `{NumLib} σ df F close :
  σ !! df = Some F -> columns F !! "close" = Some close ->
  Forall moderate close -> (0 < length close)%nat ->
  exists F',
    IndicatorCalculator.calculate_all_indicators df σ = Ok (df, <[df := F']> σ)
    /\ (forall k t,
          k ∈ ["sma_20"; "sma_50"; "ema_12"; "ema_26"; "rsi_14"; "bb_middle";
               "macd"; "macd_signal"; "macd_hist"] ->
          (t < length close)%nat -> exists q, cell F' k t = Some (Fin q))
    /\ (forall k,
          k ∈ ["bb_upper"; "bb_lower"] ->
          cell F' k 0 = Some NaN
          /\ forall t, (1 <= t < length close)%nat ->
               exists q, cell F' k t = Some (Fin q))
    /\ (exists q m20 m50,
          close !! 0%nat = Some (Fin q)
          /\ cell F' "sma_20" 0 = Some (Fin m20) /\ (m20 == q)%Q
          /\ cell F' "sma_50" 0 = Some (Fin m50) /\ (m50 == q)%Q).
Proof.
  intros HF Hclose Hmod Hn. pose proof (moderate_finite close Hmod) as Hfin.
  destruct (calculate_all_indicators_run σ df F close HF Hclose)
    as (F' & Hrun & _ & Hsma20 & Hsma50 & Hema12 & Hema26 & Hrsi & Hmid & Hup
        & Hlow & Hmacd & Hsig & Hhist).
  exists F'. split; [exact Hrun|]. unfold cell. split; [|split].
  - intros k t Hk Ht.
    repeat (apply elem_of_cons in Hk as [->|Hk]);
      [rewrite Hsma20|rewrite Hsma50|rewrite Hema12|rewrite Hema26|rewrite Hrsi
      |rewrite Hmid|rewrite Hmacd|rewrite Hsig|rewrite Hhist
      |by apply elem_of_nil in Hk]; cbn; apply finite_lookup.
    1, 3, 11: by apply rolling_mean_finite; [lia|].
    1, 2, 9: unfold IndicatorColumns.sma, Series.rolling_mean;
      by rewrite length_rolling.
    1, 3: by apply ewm_mean_finite.
    1, 2: unfold IndicatorColumns.ema, Series.ewm_mean; by rewrite length_ewm_from.
    + by apply rsi_rows; [lia|].
    + by rewrite length_rsi.
    + by apply macd_finite.
    + by rewrite length_macd.
    + by apply ewm_mean_finite, macd_finite.
    + unfold IndicatorColumns.macd_signal, Series.ewm_mean.
      by rewrite length_ewm_from, length_macd.
    + apply sub_finite; [by apply macd_finite|].
      by apply ewm_mean_finite, macd_finite.
    + unfold IndicatorColumns.macd_hist, IndicatorColumns.macd_signal,
        Series.map2, Series.ewm_mean.
      rewrite length_zip_with, length_ewm_from, length_macd. lia.
  - destruct (band_rows 20 2 close) as [[Hu0 Hl0] Hrest]; [lia|done|done|].
    intros k Hk.
    repeat (apply elem_of_cons in Hk as [->|Hk]);
      [rewrite Hup|rewrite Hlow|by apply elem_of_nil in Hk]; cbn.
    + split; [exact Hu0|]. intros t Ht.
      destruct (Hrest t Ht) as (u & l & Hu & _). by exists u.
    + split; [exact Hl0|]. intros t Ht.
      destruct (Hrest t Ht) as (u & l & _ & Hl). by exists l.
  - destruct close as [|x close]; [cbn in Hn; lia|].
    apply Forall_cons in Hfin as [Hx _]. destruct x as [| |q|]; try done.
    destruct (rolling_mean_first 20 q close) as (m20 & H20 & E20); [lia|].
    destruct (rolling_mean_first 50 q close) as (m50 & H50 & E50); [lia|].
    exists q, m20, m50. rewrite Hsma20, Hsma50. cbn.
    by repeat split.
Qed.

Lemma indicators_defined_except_first_band_witness :
  exists F',
    IndicatorCalculator.calculate_all_indicators (H := approx_lib) 0 [closes3]
    = Ok (0%nat, <[0%nat := F']> [closes3])
    /\ (forall k t,
          k ∈ ["sma_20"; "sma_50"; "ema_12"; "ema_26"; "rsi_14"; "bb_middle";
               "macd"; "macd_signal"; "macd_hist"] ->
          (t < length [Fin 100; Fin 101; Fin 102])%nat ->
          exists q, cell F' k t = Some (Fin q))
    /\ (forall k,
          k ∈ ["bb_upper"; "bb_lower"] ->
          cell F' k 0 = Some NaN
          /\ forall t, (1 <= t < length [Fin 100; Fin 101; Fin 102])%nat ->
               exists q, cell F' k t = Some (Fin q))
    /\ (exists q m20 m50,
          [Fin 100; Fin 101; Fin 102] !! 0%nat = Some (Fin q)
          /\ cell F' "sma_20" 0 = Some (Fin m20) /\ (m20 == q)%Q
          /\ cell F' "sma_50" 0 = Some (Fin m50) /\ (m50 == q)%Q).
Proof.
  apply (indicators_defined_except_first_band (H := approx_lib)
           [closes3] 0 closes3 [Fin 100; Fin 101; Fin 102]).
  - reflexivity.
  - reflexivity.
  - repeat constructor; eexists; (split; [reflexivity|]); vm_compute;
      discriminate.
  - cbn. lia.
Defined.

(** C5 as stated fails on three bars: the upper Bollinger band of the
    first row is null. *)
Lemma first_band_is_null :
  ~ indicators_never_null (H := approx_lib) [closes3] 0.
Proof.
  intros Hclaim.
  assert (run_value
            (r ← IndicatorCalculator.calculate_all_indicators (H := approx_lib) 0;
             F ← Frame.get r;
             mret (cell F "bb_upper" 0)) [closes3] = Some (Some NaN)) as R
    by (vm_compute; reflexivity).
  apply run_value_bind in R as (r & σ' & E & R).
  apply run_value_bind in R as (F & σ'' & L & R).
  assert (σ' !! r = Some F) as L'.
  { unfold Frame.get in L. destruct (σ' !! r); [|discriminate].
    by injection L as -> _. }
  injection R as R.
  assert ("bb_upper" ∈ indicator_columns) as K
    by (unfold indicator_columns; repeat first [by left | right]).
  pose proof (Hclaim r σ' F "bb_upper" 0%nat NaN E L' K R) as Hn.
  clear E Hclaim. discriminate Hn.
Qed.

(** ** RSI of a flat series *)

Lemma sum_zeros k : foldl Float.add (Fin 0) (replicate k (Fin 0)) = Fin 0.
Proof. induction k as [|k IH]; [done|]. cbn. exact IH. Qed.

Lemma mean_zeros (w : Series) :
  Forall (fun x => x = Fin 0) w -> (0 < length w)%nat -> Series.mean_of 1 w = Fin 0.
Proof.
  intros Hw Hn. rewrite (const_series _ _ Hw) in *.
  rewrite length_replicate in Hn. unfold Series.mean_of.
  rewrite valid_finite by (by apply Forall_replicate).
  rewrite length_replicate. destruct (Nat.ltb_spec (length w) 1); [lia|].
  unfold Series.sum. rewrite sum_zeros, div_of_nat by done.
  f_equal.
Qed.

Lemma rolling_mean_zeros w n :
  (0 < w)%nat ->
  Series.rolling_mean w 1 (replicate n (Fin 0)) = replicate n (Fin 0).
Proof.
  intros Hw.
  rewrite <- (length_replicate n (Fin 0)) at 2.
  rewrite <- (length_rolling (Series.mean_of 1) w (replicate n (Fin 0))).
  apply const_series, Forall_rolling. intros t Ht. apply mean_zeros.
  - apply Forall_window. by apply Forall_replicate.
  - rewrite length_window by done. lia.
Qed.

Lemma diff_flat n c :
  Forall (fun d => d = NaN \/ exists q, d = Fin q /\ (q == 0)%Q)
    (Series.diff (replicate n (Fin c))).
Proof.
  unfold Series.diff, Series.map2. rewrite shift_one.
  apply (Forall_zip_with_2 (fun x => x = Fin c) (fun y => y = NaN \/ y = Fin c)).
  - by apply Forall_replicate.
  - apply Forall_take. constructor; [by left|].
    apply Forall_replicate. by right.
  - intros x y Hx [Hy|Hy]; subst; [by left|]. right. cbn. eexists. split; [done|].
    rewrite Qred_correct. ring.
Qed.

Lemma gain_flat n c :
  IndicatorColumns.gain (replicate n (Fin c)) = replicate n (Fin 0).
Proof.
  rewrite <- (length_replicate n (Fin c)) at 2.
  rewrite <- (length_gain (replicate n (Fin c))).
  apply const_series. rewrite gain_eq. apply Forall_fmap.
  eapply Forall_impl; [apply diff_flat|].
  intros d [->|(q & -> & Hq)]; [reflexivity|]. unfold compose. cbn beta.
  destruct (Float.gt (Fin q) (Fin 0)) eqn:E; [|reflexivity].
  apply float_lt_fin in E. rewrite Hq in E. by apply Qlt_irrefl in E.
Qed.

Lemma loss_flat n c :
  IndicatorColumns.loss (replicate n (Fin c)) = replicate n (Fin 0).
Proof.
  rewrite <- (length_replicate n (Fin c)) at 2.
  rewrite <- (length_loss (replicate n (Fin c))).
  apply const_series. rewrite loss_eq. apply Forall_fmap.
  eapply Forall_impl; [apply diff_flat|].
  intros d [->|(q & -> & Hq)]; [reflexivity|]. unfold compose. cbn beta.
  destruct (Float.lt (Fin q) (Fin 0)) eqn:E; [|reflexivity].
  apply float_lt_fin in E. rewrite Hq in E. by apply Qlt_irrefl in E.
Qed.

Lemma rsi_flat n c :
  IndicatorColumns.rsi 14 (replicate n (Fin c)) = replicate n (Fin 0).
Proof.
  unfold IndicatorColumns.rsi, Series.map2.
  rewrite gain_flat, loss_flat, !rolling_mean_zeros by lia.
  by rewrite fmap_replicate, zip_with_replicate, fmap_replicate.
Qed.

(** C6 (amended): on a flat series add_rsi raises no error and the RSI is
    0 at every row: gains and losses are all zero, the guarded ratio is
    0 / 1e-10 = 0, and 100 - 100 / (1 + 0) = 0. *)
Theorem flat_series_rsi_is_zero σ df F n c :
  σ !! df = Some F -> columns F !! "close" = Some (replicate n (Fin c)) ->
  IndicatorCalculator.add_rsi df 14 σ
  = Ok (df, <[df := Frame.with_col "rsi_14" (replicate n (Fin 0)) F]> σ).
Proof.
  intros HF Hclose. rewrite (add_rsi_run σ df F _ HF Hclose).
  by rewrite rsi_flat.
Qed.

Lemma flat_series_rsi_is_zero_witness :
  IndicatorCalculator.add_rsi 0 14 [flat3]
  = Ok (0%nat, <[0%nat := Frame.with_col "rsi_14" (replicate 3 (Fin 0)) flat3]> [flat3]).
Proof.
  apply (flat_series_rsi_is_zero [flat3] 0 flat3 3 7); reflexivity.
Defined.

(** C6 as stated fails on three bars closing at 7: the RSI is 0, not 50. *)
Lemma flat_rsi_is_not_50 : ~ rsi_is_50 [flat3] 0.
Proof.
  intros Hclaim.
  assert (run_value
            (r ← IndicatorCalculator.add_rsi 0 14;
             F ← Frame.get r;
             mret (cell F "rsi_14" 0)) [flat3] = Some (Some (Fin 0))) as R
    by (vm_compute; reflexivity).
  apply run_value_bind in R as (r & σ' & E & R).
  apply run_value_bind in R as (F & σ'' & L & R).
  assert (σ' !! r = Some F) as L'.
  { unfold Frame.get in L. destruct (σ' !! r); [|discriminate].
    by injection L as -> _. }
  injection R as R.
  pose proof (Hclaim r σ' F 0%nat (Fin 0) E L' R) as C.
  clear E Hclaim. by vm_compute in C.
Qed.

(** ** Which stages leave their input alone *)

Section Preserves.
Context (k : nat).

Lemma preserves_ret {A} (a : A) (P : A -> Prop) : P a -> preserves k (mret a) P.
Proof. intros HP σ a' σ' Hk E. injection E as <- <-. by repeat split. Qed.

Lemma preserves_raise {A} e (P : A -> Prop) : preserves k (raise e) P.
Proof. intros σ a σ' Hk E. discriminate E. Qed.

Lemma preserves_bind {A B} (m : M A) (f : A -> M B) P Q :
  preserves k m P -> (forall a, P a -> preserves k (f a) Q) ->
  preserves k (m ≫= f) Q.
Proof.
  intros Hm Hf σ b σ' Hk E. rewrite bind_run in E.
  destruct (m σ) as [[a σ1]|] eqn:E1; [|discriminate].
  destruct (Hm σ a σ1 Hk E1) as (T1 & L1 & Pa).
  destruct (Hf a Pa σ1 b σ' ltac:(lia) E) as (T2 & L2 & Qb).
  split; [congruence|]. split; [lia|done].
Qed.

Lemma preserves_weaken {A} (m : M A) (P Q : A -> Prop) :
  preserves k m P -> (forall a, P a -> Q a) -> preserves k m Q.
Proof.
  intros Hm HPQ σ a σ' Hk E. destruct (Hm σ a σ' Hk E) as (T & L & Pa). auto.
Qed.

Lemma preserves_get r : preserves k (Frame.get r) (fun _ => True).
Proof.
  intros σ a σ' Hk E. unfold Frame.get in E.
  destruct (σ !! r); [|discriminate]. injection E as <- <-. by repeat split.
Qed.

Lemma preserves_put r f : (k <= r)%nat -> preserves k (Frame.put r f) (fun _ => True).
Proof.
  intros Hr σ a σ' Hk E. injection E as <- <-.
  rewrite length_insert. split; [by apply take_insert_ge|done].
Qed.

Lemma preserves_alloc f : preserves k (Frame.alloc f) (fun r => (k <= r)%nat).
Proof.
  intros σ a σ' Hk E. injection E as <- <-.
  rewrite length_app. split; [by apply take_app_le|]. cbn. split; lia.
Qed.

End Preserves.

(** Reading leaves the whole store alone; writing is confined to tables
    at or above [k]; allocation returns a reference at or above [k]. *)
Ltac preserves_step :=
  first
    [ apply preserves_ret; (done || lia)
    | refine (preserves_ret _ _ (fun _ => True) I)
    | apply preserves_raise
    | apply preserves_get
    | apply preserves_put; (assumption || lia)
    | apply preserves_alloc
    | eapply preserves_bind; [|intros ? ?]
    | match goal with
      | |- preserves _ (if ?b then _ else _) _ => destruct b
      | |- preserves _ (match ?x with _ => _ end) _ => destruct x
      end ].

Section PreservesOps.
Context (k : nat).

Lemma preserves_len r : preserves k (Frame.len r) (fun _ => True).
Proof. unfold Frame.len. repeat preserves_step. Qed.

Lemma preserves_getcol r c : preserves k (Frame.getcol r c) (fun _ => True).
Proof. unfold Frame.getcol. repeat preserves_step. Qed.

Lemma preserves_has_col r c : preserves k (Frame.has_col r c) (fun _ => True).
Proof. unfold Frame.has_col. repeat preserves_step. Qed.

Lemma preserves_setcol r c s :
  (k <= r)%nat -> preserves k (Frame.setcol r c s) (fun _ => True).
Proof. intros Hr. unfold Frame.setcol. repeat preserves_step. Qed.

Lemma preserves_setconst r c v :
  (k <= r)%nat -> preserves k (Frame.setconst r c v) (fun _ => True).
Proof. intros Hr. unfold Frame.setconst. repeat preserves_step. Qed.

Lemma preserves_loc_set r mask c v :
  (k <= r)%nat -> preserves k (Frame.loc_set r mask c v) (fun _ => True).
Proof.
  intros Hr. unfold Frame.loc_set.
  eapply preserves_bind; [apply preserves_getcol|intros ? _].
  by apply preserves_setcol.
Qed.

Lemma preserves_loc_add r mask c v :
  (k <= r)%nat -> preserves k (Frame.loc_add r mask c v) (fun _ => True).
Proof.
  intros Hr. unfold Frame.loc_add.
  eapply preserves_bind; [apply preserves_getcol|intros ? _].
  by apply preserves_setcol.
Qed.

Lemma preserves_new n : preserves k (Frame.new n) (fun r => (k <= r)%nat).
Proof. apply preserves_alloc. Qed.

Lemma preserves_copy r : preserves k (Frame.copy r) (fun r' => (k <= r')%nat).
Proof. unfold Frame.copy. repeat preserves_step. Qed.

Lemma preserves_drop_cols r ks :
  preserves k (Frame.drop_cols r ks) (fun r' => (k <= r')%nat).
Proof. unfold Frame.drop_cols. repeat preserves_step. Qed.

Lemma preserves_frame_fillna r v :
  preserves k (Backtester.frame_fillna r v) (fun r' => (k <= r')%nat).
Proof. unfold Backtester.frame_fillna. repeat preserves_step. Qed.

Lemma preserves_for_each {A} (xs : list A) body :
  (forall x, preserves k (body x) (fun _ => True)) ->
  preserves k (Frame.for_each xs body) (fun _ => True).
Proof.
  intros Hbody. induction xs as [|x xs IH]; cbn [Frame.for_each].
  - by apply preserves_ret.
  - eapply preserves_bind; [apply Hbody|intros _ _; exact IH].
Qed.

Lemma preserves_for_range idxs body : forall patterns,
  (forall i p, preserves k (body i p) (fun _ => True)) ->
  preserves k (PatternDetector.for_range idxs body patterns) (fun _ => True).
Proof.
  induction idxs as [|i idxs IH]; intros patterns Hbody;
    cbn [PatternDetector.for_range].
  - by apply preserves_ret.
  - eapply preserves_bind; [apply Hbody|intros p _; by apply IH].
Qed.

Lemma preserves_np_reduce f a :
  preserves k (PatternDetector.np_reduce f a) (fun _ => True).
Proof. unfold PatternDetector.np_reduce. repeat preserves_step. Qed.

Lemma preserves_set_item i v a :
  preserves k (PatternDetector.set_item i v a) (fun _ => True).
Proof. unfold PatternDetector.set_item. repeat preserves_step. Qed.

Lemma preserves_last_item a :
  preserves k (PatternDetector.last_item a) (fun _ => True).
Proof. unfold PatternDetector.last_item. repeat preserves_step. Qed.

Lemma preserves_first_item a :
  preserves k (PatternDetector.first_item a) (fun _ => True).
Proof. unfold PatternDetector.first_item. repeat preserves_step. Qed.

Lemma preserves_iloc_last a :
  preserves k (Backtester.iloc_last a) (fun _ => True).
Proof. unfold Backtester.iloc_last. repeat preserves_step. Qed.

End PreservesOps.

Ltac preserves_one :=
  first
    [ apply preserves_len | apply preserves_getcol | apply preserves_has_col
    | apply preserves_setcol; (assumption || lia)
    | apply preserves_setconst; (assumption || lia)
    | apply preserves_loc_set; (assumption || lia)
    | apply preserves_loc_add; (assumption || lia)
    | apply preserves_new | apply preserves_copy | apply preserves_drop_cols
    | apply preserves_frame_fillna
    | apply preserves_np_reduce | apply preserves_set_item
    | apply preserves_last_item | apply preserves_first_item
    | apply preserves_iloc_last
    | apply preserves_for_each; intros ?
    | apply preserves_for_range; intros ? ?
    | preserves_step ].

Ltac preserves_auto := repeat preserves_one.

Lemma preserves_detect_head_shoulders k df window :
  preserves k (PatternDetector.detect_head_shoulders df window) (fun _ => True).
Proof.
  unfold PatternDetector.detect_head_shoulders, PatternDetector.np_max,
    PatternDetector.np_min.
  preserves_auto.
Qed.

Lemma preserves_detect_double_top_bottom k df pattern_type window :
  preserves k (PatternDetector.detect_double_top_bottom df pattern_type window)
    (fun _ => True).
Proof.
  unfold PatternDetector.detect_double_top_bottom, PatternDetector.np_max,
    PatternDetector.np_min.
  preserves_auto.
Qed.

Lemma preserves_detect_triangle_patterns k df kind window :
  preserves k (PatternDetector.detect_triangle_patterns df kind window)
    (fun _ => True).
Proof.
  unfold PatternDetector.detect_triangle_patterns, PatternDetector.np_max,
    PatternDetector.np_min.
  preserves_auto.
Qed.

Lemma preserves_identify_support_resistance k df window threshold :
  preserves k (PatternDetector.identify_support_resistance df window threshold)
    (fun r => (k <= r)%nat).
Proof.
  unfold PatternDetector.identify_support_resistance. preserves_auto.
Qed.

Lemma preserves_detect_all_patterns k df :
  preserves k (PatternDetector.detect_all_patterns df) (fun r => (k <= r)%nat).
Proof.
  unfold PatternDetector.detect_all_patterns.
  eapply preserves_bind; [apply preserves_copy|intros df' Hdf'].
  repeat (eapply preserves_bind;
          [first [ apply preserves_detect_head_shoulders
                 | apply preserves_detect_double_top_bottom
                 | apply preserves_detect_triangle_patterns
                 | by apply preserves_setcol ]|intros ? _]).
  eapply preserves_bind; [apply preserves_identify_support_resistance|].
  intros r Hr. by apply preserves_ret.
Qed.

Lemma preserves_weighted k r ws :
  preserves k (SignalGenerator.weighted r ws) (fun _ => True).
Proof.
  induction ws as [|[c w] ws IH]; cbn [SignalGenerator.weighted].
  - by apply preserves_ret.
  - eapply preserves_bind; [apply preserves_getcol|intros col _].
    eapply preserves_bind; [exact IH|intros cs _]. by apply preserves_ret.
Qed.

Lemma preserves_generate_signals k data :
  preserves k (SignalGenerator.generate_signals data) (fun r => (k <= r)%nat).
Proof.
  unfold SignalGenerator.generate_signals.
  eapply preserves_bind; [apply preserves_len|intros n _].
  eapply preserves_bind; [apply preserves_new|intros signals Hs].
  repeat first [ apply preserves_weighted | preserves_one ].
Qed.

Lemma preserves_run_backtest `{NumLib} k data signals ic c :
  preserves k (Backtester.run_backtest data signals ic c) (fun _ => True).
Proof. unfold Backtester.run_backtest. preserves_auto. Qed.

Lemma preserves_add_fibonacci_levels k df window :
  preserves k (IndicatorCalculator.add_fibonacci_levels df window)
    (fun r => (k <= r)%nat).
Proof. unfold IndicatorCalculator.add_fibonacci_levels. preserves_auto. Qed.

Lemma preserves_pure (stage : ref -> M ref) :
  (forall k df, preserves k (stage df) (fun r => (k <= r)%nat)) ->
  stage_pure stage.
Proof.
  intros Hstage σ df r σ' E.
  destruct (Hstage (length σ) df σ r σ' (Nat.le_refl _) E) as (T & _ & Hr).
  split; [|done]. by rewrite T, firstn_all.
Qed.

(** The pattern engine and the signal generator are pure stages: they
    work on a copy, or on a table of their own. *)
Lemma pattern_stage_pure : stage_pure PatternDetector.detect_all_patterns.
Proof. apply preserves_pure. intros k df. apply preserves_detect_all_patterns. Qed.

Lemma signal_stage_pure : stage_pure SignalGenerator.generate_signals.
Proof. apply preserves_pure. intros k df. apply preserves_generate_signals. Qed.

(** So is the Fibonacci helper of the indicator class, which copies. *)
Lemma fibonacci_stage_pure :
  stage_pure (fun df => IndicatorCalculator.add_fibonacci_levels df 20).
Proof. apply preserves_pure. intros k df. apply preserves_add_fibonacci_levels. Qed.

(** The backtester leaves every table of its caller unchanged. *)
Lemma backtest_leaves_input `{NumLib} σ data signals ic c perf σ' :
  Backtester.run_backtest data signals ic c σ = Ok (perf, σ') ->
  take (length σ) σ' = σ.
Proof.
  intros E.
  destruct (preserves_run_backtest (length σ) data signals ic c σ perf σ'
              (Nat.le_refl _) E) as (T & _ & _).
  by rewrite T, firstn_all.
Qed.

(** The indicator stage returns the table it was given, with eleven
    columns assigned into it. *)
Lemma indicator_stage_changes_input :
  columns closes3 !! "sma_20" = None
  /\ run_value
       (r ← IndicatorCalculator.calculate_all_indicators (H := approx_lib) 0;
        F ← Frame.get 0;
        mret (r, bool_decide (is_Some (columns F !! "sma_20")),
              size (columns F)))
       [closes3]
     = Some (0%nat, true, 12%nat).
Proof. split; vm_compute; reflexivity. Qed.

(** C9: the indicator engine is not a pure stage.  On three bars it
    returns the reference of its input table, whose columns it has
    extended in place. *)
Theorem indicator_stage_not_pure :
  ~ stage_pure (IndicatorCalculator.calculate_all_indicators (H := approx_lib)).
Proof.
  intros Hpure.
  assert (run_value
            (r ← IndicatorCalculator.calculate_all_indicators (H := approx_lib) 0;
             mret r) [closes3] = Some 0%nat) as R
    by (vm_compute; reflexivity).
  apply run_value_bind in R as (r & σ' & E & R). injection R as ->.
  destruct (Hpure [closes3] 0%nat 0%nat σ' E) as [_ Hr].
  clear E. cbn in Hr. lia.
Qed.
(** * Further properties of the code *)

(** ** The signal generator, row by row *)

Lemma cell_lookup df k t x :
  cell df k t = Some x -> exists c, columns df !! k = Some c /\ c !! t = Some x.
Proof.
  unfold cell. destruct (columns df !! k) as [c|]; [|done].
  intros H. by exists c.
Qed.

Lemma cell_row df k t x : wf_frame df -> cell df k t = Some x -> (t < nrows df)%nat.
Proof.
  intros Hwf H. apply cell_lookup in H as (c & Hc & Hx).
  rewrite <- (Hwf _ _ Hc). by apply lookup_lt_Some in Hx.
Qed.

(** The threshold sub-signals of a row, from the values the row holds. *)
Lemma generate_signals_cells σ data df t
    e12 e26 s20 s50 m ms rsi c bl bu sup res :
  σ !! data = Some df -> wf_frame df ->
  cell df "ema_12" t = Some e12 -> cell df "ema_26" t = Some e26 ->
  cell df "sma_20" t = Some s20 -> cell df "sma_50" t = Some s50 ->
  cell df "macd" t = Some m -> cell df "macd_signal" t = Some ms ->
  cell df "rsi_14" t = Some rsi -> cell df "close" t = Some c ->
  cell df "bb_lower" t = Some bl -> cell df "bb_upper" t = Some bu ->
  cell df "support" t = Some sup -> cell df "resistance" t = Some res ->
  exists S,
    SignalGenerator.generate_signals data σ = Ok (length σ, σ ++ [S])
    /\ cell S "ma_signal" t
       = Some (Fin (tern (Float.gt e12 e26 && Float.gt s20 s50)
                         (Float.lt e12 e26 && Float.lt s20 s50)))
    /\ cell S "macd_signal" t = Some (Fin (tern (Float.gt m ms) (Float.lt m ms)))
    /\ cell S "rsi_signal" t
       = Some (Fin (tern (Float.lt rsi (Fin 30)) (Float.gt rsi (Fin 70))))
    /\ cell S "bb_signal" t = Some (Fin (tern (Float.lt c bl) (Float.gt c bu)))
    /\ cell S "sr_signal" t = Some (Fin (tern (Float.le c sup) (Float.ge c res))).
Proof.
  intros Hdf Hwf C1 C2 C3 C4 C5 C6 C7 C8 C9 C10 C11 C12.
  pose proof (cell_row _ _ _ _ Hwf C1) as Ht.
  apply cell_lookup in C1 as (ema_12 & H1 & Hx1), C2 as (ema_26 & H2 & Hx2),
    C3 as (sma_20 & H3 & Hx3), C4 as (sma_50 & H4 & Hx4),
    C5 as (macd & H5 & Hx5), C6 as (macd_signal & H6 & Hx6),
    C7 as (rsi_14 & H7 & Hx7), C8 as (close & H8 & Hx8),
    C9 as (bb_lower & H9 & Hx9), C10 as (bb_upper & H10 & Hx10),
    C11 as (support & H11 & Hx11), C12 as (resistance & H12 & Hx12).
  destruct (generate_signals_run σ data df _ _ _ _ _ _ _ _ _ _ _ _
              Hdf H1 H2 H3 H4 H5 H6 H7 H8 H9 H10 H11 H12)
    as (S & Hrun & Hn & Hma & Hmc & Hrsi & Hbb & Hpat & Hsr & Hscore & Hsig).
  exists S. split; [exact Hrun|]. unfold cell.
  rewrite Hma, Hmc, Hrsi, Hbb, Hsr. cbn.
  split; [|split; [|split; [|split]]].
  - apply (lookup_ternary _ _ _ _ _ _ Ht).
    + apply lookup_mask_and; by apply lookup_cmp2.
    + apply lookup_mask_and; by apply lookup_cmp2.
  - apply (lookup_ternary _ _ _ _ _ _ Ht); by apply lookup_cmp2.
  - apply (lookup_ternary _ _ _ _ _ _ Ht); by apply lookup_cmp_scalar.
  - apply (lookup_ternary _ _ _ _ _ _ Ht); by apply lookup_cmp2.
  - apply (lookup_ternary _ _ _ _ _ _ Ht); by apply lookup_cmp2.
Qed.

(** A table of the caller holds a value in each of the twelve columns at
    row [t]. *)
Lemma enriched_cells df t :
  wf_frame df -> has_columns df enriched_columns -> (t < nrows df)%nat ->
  Forall (fun k => is_Some (cell df k t)) enriched_columns.
Proof.
  intros Hwf Hcols Ht. unfold has_columns in Hcols.
  eapply Forall_impl; [exact Hcols|]. intros k [c Hc]. cbn beta.
  destruct (wf_cell _ _ _ _ Hwf Hc Ht) as [x Hx].
  exists x. unfold cell. by rewrite Hc.
Qed.
(** X1: where the close is at or above the resistance level of the row,
    sr_signal is -1, whatever the support level is: the sell assignment
    is made after the buy assignment and overwrites it. *)
Theorem resistance_overrides_support σ data df t c res :
  σ !! data = Some df -> wf_frame df -> has_columns df enriched_columns ->
  cell df "close" t = Some c -> cell df "resistance" t = Some res ->
  Float.ge c res = true ->
  exists S,
    SignalGenerator.generate_signals data σ = Ok (length σ, σ ++ [S])
    /\ cell S "sr_signal" t = Some (Fin (-1)).
Proof.
  intros Hdf Hwf Hcols Hc Hres Hge.
  pose proof (enriched_cells df t Hwf Hcols (cell_row _ _ _ _ Hwf Hc)) as Hcells.
  unfold enriched_columns in Hcells. repeat rewrite Forall_cons in Hcells.
  destruct Hcells as ([e12 C1] & [e26 C2] & [s20 C3] & [s50 C4] & [m C5]
    & [ms C6] & [rsi C7] & [c' C8] & [bl C9] & [bu C10] & [sup C11]
    & [res' C12] & _).
  destruct (generate_signals_cells σ data df t _ _ _ _ _ _ _ _ _ _ _ _
              Hdf Hwf C1 C2 C3 C4 C5 C6 C7 C8 C9 C10 C11 C12)
    as (S & Hrun & _ & _ & _ & _ & Hsr).
  exists S. split; [exact Hrun|]. rewrite Hsr.
  rewrite Hc in C8. rewrite Hres in C12.
  injection C8 as <-. injection C12 as <-. by rewrite Hge.
Qed.

Lemma resistance_overrides_support_witness :
  Float.le (Fin 10) (Fin 10) = true
  /\ exists S,
       SignalGenerator.generate_signals 0 [touching_levels]
       = Ok (length [touching_levels], [touching_levels] ++ [S])
       /\ cell S "sr_signal" 0 = Some (Fin (-1)).
Proof.
  split; [reflexivity|].
  apply (resistance_overrides_support [touching_levels] 0 touching_levels 0
           (Fin 10) (Fin 10)).
  - reflexivity.
  - unfold wf_frame. apply (bool_decide_unpack _). vm_compute. exact I.
  - unfold has_columns. apply (bool_decide_unpack _). vm_compute. exact I.
  - reflexivity.
  - reflexivity.
  - reflexivity.
Defined.

(** X2: a row whose support and resistance levels are both undefined
    (NaN) gets sr_signal 0: a comparison with NaN selects no row. *)
Theorem undefined_levels_give_no_signal σ data df t :
  σ !! data = Some df -> wf_frame df -> has_columns df enriched_columns ->
  cell df "support" t = Some NaN -> cell df "resistance" t = Some NaN ->
  exists S,
    SignalGenerator.generate_signals data σ = Ok (length σ, σ ++ [S])
    /\ cell S "sr_signal" t = Some (Fin 0).
Proof.
  intros Hdf Hwf Hcols Hsup Hres.
  pose proof (enriched_cells df t Hwf Hcols (cell_row _ _ _ _ Hwf Hsup)) as Hcells.
  unfold enriched_columns in Hcells. repeat rewrite Forall_cons in Hcells.
  destruct Hcells as ([e12 C1] & [e26 C2] & [s20 C3] & [s50 C4] & [m C5]
    & [ms C6] & [rsi C7] & [c C8] & [bl C9] & [bu C10] & [sup C11]
    & [res C12] & _).
  destruct (generate_signals_cells σ data df t _ _ _ _ _ _ _ _ _ _ _ _
              Hdf Hwf C1 C2 C3 C4 C5 C6 C7 C8 C9 C10 C11 C12)
    as (S & Hrun & _ & _ & _ & _ & Hsr).
  exists S. split; [exact Hrun|]. rewrite Hsr.
  rewrite Hsup in C11. rewrite Hres in C12.
  injection C11 as <-. injection C12 as <-. by destruct c.
Qed.

Lemma undefined_levels_give_no_signal_witness :
  exists S,
    SignalGenerator.generate_signals 0 [enriched_rows]
    = Ok (length [enriched_rows], [enriched_rows] ++ [S])
    /\ cell S "sr_signal" 0 = Some (Fin 0).
Proof.
  apply (undefined_levels_give_no_signal [enriched_rows] 0 enriched_rows 0).
  - reflexivity.
  - unfold wf_frame. apply (bool_decide_unpack _). vm_compute. exact I.
  - unfold has_columns. apply (bool_decide_unpack _). vm_compute. exact I.
  - reflexivity.
  - reflexivity.
Defined.

Lemma tern_range b s : (-1 <= tern b s <= 1)%Q.
Proof. destruct b, s; cbn; lra. Qed.

(** X3: the composite score of every row lies between -13 and 13, the
    sum of the weights with the pattern sub-signal counted three times. *)
Theorem composite_score_bounded σ data df t :
  σ !! data = Some df -> wf_frame df -> has_columns df enriched_columns ->
  (t < nrows df)%nat ->
  exists S score,
    SignalGenerator.generate_signals data σ = Ok (length σ, σ ++ [S])
    /\ cell S "composite_score" t = Some (Fin score)
    /\ (-13 <= score <= 13)%Q.
Proof.
  intros Hdf Hwf Hcols Ht.
  destruct (generate_signals_rows σ data df t Hdf Hwf Hcols Ht)
    as (S & b1 & s1 & b2 & s2 & b3 & s3 & b4 & s4 & pat & zp & b6 & s6 & score
        & Hrun & _ & _ & _ & _ & _ & Hz & Hr & _ & Hscore & Hsum & _).
  exists S, score. split; [exact Hrun|]. split; [exact Hscore|].
  pose proof (tern_range b1 s1). pose proof (tern_range b2 s2).
  pose proof (tern_range b3 s3). pose proof (tern_range b4 s4).
  pose proof (tern_range b6 s6).
  assert (-3 <= pat <= 3)%Q as Hp.
  { rewrite Hz. split.
    - change (-3)%Q with (inject_Z (-3)). rewrite <- Zle_Qle. lia.
    - change 3%Q with (inject_Z 3). rewrite <- Zle_Qle. lia. }
  rewrite Hsum. lra.
Qed.

Lemma composite_score_bounded_witness :
  exists S score,
    SignalGenerator.generate_signals 0 [enriched_rows]
    = Ok (length [enriched_rows], [enriched_rows] ++ [S])
    /\ cell S "composite_score" 1 = Some (Fin score)
    /\ (-13 <= score <= 13)%Q.
Proof.
  apply (composite_score_bounded [enriched_rows] 0 enriched_rows 1).
  - reflexivity.
  - unfold wf_frame. apply (bool_decide_unpack _). vm_compute. exact I.
  - unfold has_columns. apply (bool_decide_unpack _). vm_compute. exact I.
  - cbn. lia.
Defined.
(** The generator either raises KeyError for a missing column or finds
    all twelve columns. *)
Lemma generate_signals_cases σ data df (R : result (ref * store) -> Prop) :
  σ !! data = Some df ->
  (forall k, k ∈ enriched_columns -> columns df !! k = None -> R (Raise (KeyError k))) ->
  (has_columns df enriched_columns -> forall r, R r) ->
  R (SignalGenerator.generate_signals data σ).
Proof.
  intros Hdf Hmissing Hall.
  assert (E : SignalGenerator.generate_signals data σ
              = SignalGenerator.generate_signals data (σ ++ []))
    by (by rewrite app_nil_r).
  rewrite E; clear E. unfold SignalGenerator.generate_signals.
  do 2 step Hdf.
  repeat first
    [ step Hdf
    | rewrite bind_run;
      erewrite (pattern_loop_run _ _ _ _ _ _ _ _ Hdf) by (lk; reflexivity);
      reduce_store
    | match goal with
      | |- context [columns df !! ?k] =>
          let H := fresh "H" in
          destruct (columns df !! k) eqn:H;
          [ cbv beta iota
          | cbv beta iota; apply Hmissing;
            [unfold enriched_columns; repeat first [by left | right] | exact H] ]
      end ].
  apply Hall. unfold has_columns, enriched_columns.
  repeat constructor; eauto.
Qed.

(** X4: when the table lacks one of the twelve columns the generator
    reads without a presence test, generate_signals raises KeyError for
    a column that is missing, and returns no table. *)
Theorem generate_signals_missing_column σ data df :
  σ !! data = Some df -> ~ has_columns df enriched_columns ->
  exists k,
    k ∈ enriched_columns /\ columns df !! k = None
    /\ SignalGenerator.generate_signals data σ = Raise (KeyError k).
Proof.
  intros Hdf Hmiss.
  apply (generate_signals_cases σ data df
           (fun r => exists k, k ∈ enriched_columns /\ columns df !! k = None
                               /\ r = Raise (KeyError k)) Hdf).
  - intros k Hk Hnone. by exists k.
  - intros Hall. contradiction.
Qed.

Lemma generate_signals_missing_column_witness :
  exists k,
    k ∈ enriched_columns /\ columns rows_without_support !! k = None
    /\ SignalGenerator.generate_signals 0 [rows_without_support]
       = Raise (KeyError k).
Proof.
  apply (generate_signals_missing_column [rows_without_support] 0
           rows_without_support).
  - reflexivity.
  - apply (bool_decide_unpack _). vm_compute. exact I.
Defined.
(** X5: the six pattern marker columns are optional.  On a table that
    has none of them generate_signals raises no error and pattern_signal
    is 0 at every row. *)
Theorem pattern_columns_are_optional σ data df :
  σ !! data = Some df -> has_columns df enriched_columns ->
  (forall p,
     p ∈ SignalGenerator.bullish_patterns ++ SignalGenerator.bearish_patterns ->
     columns df !! p = None) ->
  exists S,
    SignalGenerator.generate_signals data σ = Ok (length σ, σ ++ [S])
    /\ columns S !! "pattern_signal" = Some (replicate (nrows df) (Fin 0)).
Proof.
  intros Hdf Hcols Hnone.
  unfold has_columns, enriched_columns in Hcols.
  repeat rewrite Forall_cons in Hcols.
  destruct Hcols as ([ema_12 H1] & [ema_26 H2] & [sma_20 H3] & [sma_50 H4]
    & [macd H5] & [macd_signal H6] & [rsi_14 H7] & [close H8] & [bb_lower H9]
    & [bb_upper H10] & [support H11] & [resistance H12] & _).
  destruct (generate_signals_run σ data df _ _ _ _ _ _ _ _ _ _ _ _
              Hdf H1 H2 H3 H4 H5 H6 H7 H8 H9 H10 H11 H12)
    as (S & Hrun & _ & _ & _ & _ & _ & Hpat & _).
  exists S. split; [exact Hrun|]. rewrite Hpat.
  unfold SignalColumns.pattern_signal, SignalGenerator.bullish_patterns,
    SignalGenerator.bearish_patterns. cbn [foldl]. unfold pattern_step.
  rewrite !Hnone; [done|..];
    unfold SignalGenerator.bullish_patterns, SignalGenerator.bearish_patterns;
    cbn [app]; repeat first [by left | right].
Qed.

Lemma pattern_columns_are_optional_witness :
  exists S,
    SignalGenerator.generate_signals 0 [unmarked_rows]
    = Ok (length [unmarked_rows], [unmarked_rows] ++ [S])
    /\ columns S !! "pattern_signal"
       = Some (replicate (nrows unmarked_rows) (Fin 0)).
Proof.
  apply (pattern_columns_are_optional [unmarked_rows] 0 unmarked_rows).
  - reflexivity.
  - unfold has_columns. apply (bool_decide_unpack _). vm_compute. exact I.
  - apply (Forall_forall (fun p => columns unmarked_rows !! p = None)).
    apply (bool_decide_unpack _). vm_compute. exact I.
Defined.
(** ** The report of the backtester *)

Section BacktestReport.
Context `{NumLib}.
Context (σ : store) (data signals : ref) (D Sg : DataFrame).
Context (signal close : Series) (ic c : float).
Hypothesis Hdata : σ !! data = Some D.
Hypothesis Hsignals : σ !! signals = Some Sg.
Hypothesis Hsignal : columns Sg !! "signal" = Some signal.
Hypothesis Hclose : columns D !! "close" = Some close.

Let total := BacktestColumns.total ic c signal close.

Lemma run_backtest_report last_total :
  last total = Some last_total ->
  exists perf Sg' E Pos Port,
    Backtester.run_backtest data signals ic c σ
    = Ok (perf, σ ++ [Sg'; D; E; Pos; Port])
    /\ positions perf = (length σ + 3)%nat
    /\ portfolio perf = (length σ + 4)%nat
    /\ columns Pos !! "position" = Some (BacktestColumns.position signal)
    /\ columns Port !! "total" = Some total
    /\ initial_capital perf = ic
    /\ final_value perf = last_total
    /\ total_return_pct perf = BacktestReport.total_return ic last_total
    /\ annualized_return_pct perf
       = BacktestReport.annualized_return ic last_total (nrows Sg)
    /\ buy_trades perf
       = length (Backtester.select (BacktestReport.buy_mask signal)
                   (BacktestReport.trades signal))
    /\ sell_trades perf
       = length (Backtester.select (BacktestReport.sell_mask signal)
                   (BacktestReport.trades signal))
    /\ total_trades perf = (buy_trades perf + sell_trades perf)%nat
    /\ buy_success_rate perf
       = BacktestReport.success (BacktestReport.buy_mask signal) Float.gt
           signal close ⊗ Fin 100
    /\ sell_success_rate perf
       = BacktestReport.success (BacktestReport.sell_mask signal) Float.lt
           signal close ⊗ Fin 100.
Proof.
  intros Hlast.
  assert (E : Backtester.run_backtest data signals ic c σ
              = Backtester.run_backtest data signals ic c (σ ++ []))
    by (by rewrite app_nil_r).
  rewrite E; clear E. unfold Backtester.run_backtest.
  step Hsignals. step Hdata.
  repeat step Hdata.
  rewrite bind_run, frame_fillna_local. reduce_store.
  repeat step Hdata.
  change (Series.map2 Float.add _ _) with total. fold total.
  rewrite bind_run. unfold Backtester.iloc_last. rewrite Hlast, ret_run.
  cbv beta iota.
  repeat step Hdata.
  rewrite bind_run.
  erewrite if_getcol_local; [|reflexivity|exact Hclose]. cbv beta iota.
  rewrite bind_run.
  erewrite if_getcol_local; [|reflexivity|exact Hclose]. cbv beta iota.
  rewrite ret_run.
  do 5 eexists. split; [reflexivity|].
  cbn [positions portfolio initial_capital final_value total_return_pct
       annualized_return_pct buy_trades sell_trades total_trades
       buy_success_rate sell_success_rate].
  repeat split; lk; reflexivity.
Qed.

Lemma run_backtest_no_row :
  last total = None ->
  Backtester.run_backtest data signals ic c σ = Raise IndexError.
Proof.
  intros Hlast.
  assert (E : Backtester.run_backtest data signals ic c σ
              = Backtester.run_backtest data signals ic c (σ ++ []))
    by (by rewrite app_nil_r).
  rewrite E; clear E. unfold Backtester.run_backtest.
  step Hsignals. step Hdata.
  repeat step Hdata.
  rewrite bind_run, frame_fillna_local. reduce_store.
  repeat step Hdata.
  change (Series.map2 Float.add _ _) with total. fold total.
  rewrite bind_run. unfold Backtester.iloc_last. by rewrite Hlast.
Qed.

End BacktestReport.

(** X6: on tables without rows the backtester raises IndexError: the
    last total equity it reports does not exist. *)
Theorem run_backtest_empty_raises `{NumLib} σ data signals D Sg close ic c :
  σ !! data = Some D -> σ !! signals = Some Sg ->
  columns Sg !! "signal" = Some [] -> columns D !! "close" = Some close ->
  Backtester.run_backtest data signals ic c σ = Raise IndexError.
Proof.
  intros Hdata Hsignals Hsignal Hclose.
  by apply (run_backtest_no_row σ data signals D Sg [] close ic c).
Qed.

Lemma run_backtest_empty_raises_witness :
  Backtester.run_backtest (H := approx_lib) 0 1 (Fin 10000) (Fin 0.001)
    [no_bars; no_signals] = Raise IndexError.
Proof.
  apply (run_backtest_empty_raises (H := approx_lib) [no_bars; no_signals] 0 1
           no_bars no_signals []); reflexivity.
Defined.

(** X7: the backtester reads one column of each table.  Without the
    signal column it raises KeyError for signal; with it and without the
    close column it raises KeyError for close. *)
Theorem run_backtest_missing_column `{NumLib} σ data signals D Sg ic c :
  σ !! data = Some D -> σ !! signals = Some Sg ->
  (columns Sg !! "signal" = None ->
   Backtester.run_backtest data signals ic c σ = Raise (KeyError "signal"))
  /\ (is_Some (columns Sg !! "signal") -> columns D !! "close" = None ->
      Backtester.run_backtest data signals ic c σ = Raise (KeyError "close")).
Proof.
  intros Hdata Hsignals.
  assert (E : Backtester.run_backtest data signals ic c σ
              = Backtester.run_backtest data signals ic c (σ ++ []))
    by (by rewrite app_nil_r).
  rewrite E; clear E. unfold Backtester.run_backtest.
  step Hsignals. step Hdata. split.
  - intros Hnone. rewrite bind_run, getcol_local. reduce_store.
    by rewrite Hnone.
  - intros [signal Hsignal] Hnone.
    repeat step Hdata.
    rewrite bind_run, frame_fillna_local. reduce_store.
    repeat step Hdata. by rewrite Hnone.
Qed.

Lemma run_backtest_missing_column_witness :
  (columns closes3 !! "signal" = None ->
   Backtester.run_backtest (H := approx_lib) 0 0 (Fin 10000) (Fin 0.001) [closes3]
   = Raise (KeyError "signal"))
  /\ (is_Some (columns buy_first !! "signal") ->
      columns buy_first !! "close" = None ->
      Backtester.run_backtest (H := approx_lib) 1 1 (Fin 10000) (Fin 0.001)
        [closes3; buy_first]
      = Raise (KeyError "close")).
Proof.
  split.
  - apply (run_backtest_missing_column (H := approx_lib) [closes3] 0 0
             closes3 closes3); reflexivity.
  - apply (run_backtest_missing_column (H := approx_lib) [closes3; buy_first]
             1 1 buy_first buy_first); reflexivity.
Defined.
(** ** Positions and trades of a run on finite decisions *)

Lemma Qsum_take_S (qs : list Q) t q :
  qs !! t = Some q -> (Qsum (take (S t) qs) == Qsum (take t qs) + q)%Q.
Proof.
  revert t. induction qs as [|x qs IH]; intros [|t] Hq; try done.
  - injection Hq as ->. unfold Qsum. cbn [take foldr]. rewrite take_0.
    cbn [foldr]. ring.
  - change (Qsum (take (S (S t)) (x :: qs))) with (x + Qsum (take (S t) qs))%Q.
    change (Qsum (take (S t) (x :: qs))) with (x + Qsum (take t qs))%Q.
    rewrite (IH t Hq). ring.
Qed.

Lemma lookup_cumsum_fin (qs : list Q) : forall a t,
  (t < length qs)%nat ->
  exists p, Series.cumsum_from (Fin a) (Fin <$> qs) !! t = Some (Fin p)
            /\ (p == a + Qsum (take (S t) qs))%Q.
Proof.
  induction qs as [|q qs IH]; intros a [|t] Ht; cbn in Ht; try lia.
  - cbn [fmap list_fmap Series.cumsum_from Float.isnan lookup list_lookup
         Float.add].
    eexists. split; [reflexivity|]. rewrite Qred_correct.
    unfold Qsum. cbn [take foldr]. rewrite take_0. cbn [foldr]. ring.
  - cbn [fmap list_fmap Series.cumsum_from Float.isnan lookup list_lookup].
    destruct (IH (Qred (a + q)) t) as (p & Hp & Hsum); [lia|].
    exists p. split; [exact Hp|]. rewrite Hsum, Qred_correct.
    change (Qsum (take (S (S t)) (q :: qs))) with (q + Qsum (take (S t) qs))%Q.
    ring.
Qed.

Lemma position_cons s0 (s : Series) :
  BacktestColumns.position (s0 :: s)
  = NaN :: Series.cumsum_from (Fin 0) (take (length s) (s0 :: s)).
Proof. unfold BacktestColumns.position. by rewrite shift_one. Qed.

(** After the first row the position is the sum of the earlier decisions. *)
Lemma position_row (qs : list Q) t :
  (S t < length qs)%nat ->
  exists p, BacktestColumns.position (Fin <$> qs) !! S t = Some (Fin p)
            /\ (p == Qsum (take (S t) qs))%Q.
Proof.
  intros Ht. destruct qs as [|q qs]; [cbn in Ht; lia|]. cbn in Ht.
  rewrite fmap_cons, position_cons. cbn [lookup list_lookup].
  rewrite length_fmap, <- fmap_cons, <- fmap_take.
  destruct (lookup_cumsum_fin (take (length qs) (q :: qs)) 0 t) as (p & Hp & Hsum).
  { rewrite length_take. cbn. lia. }
  exists p. split; [exact Hp|]. rewrite Hsum, take_take.
  replace (S t `min` length qs)%nat with (S t) by lia. ring.
Qed.

Lemma position_first (s : Series) :
  (0 < length s)%nat -> BacktestColumns.position s !! 0%nat = Some NaN.
Proof.
  intros Hs. destruct s as [|s0 s]; [cbn in Hs; lia|]. by rewrite position_cons.
Qed.

Lemma position_rational `{NumLib} σ data signals D Sg (qs : list Q)
    close ic c t :
  σ !! data = Some D -> σ !! signals = Some Sg ->
  columns Sg !! "signal" = Some (Fin <$> qs) ->
  columns D !! "close" = Some close ->
  length qs = length close -> (S t < length qs)%nat ->
  exists perf σ' Pos p,
    Backtester.run_backtest data signals ic c σ = Ok (perf, σ')
    /\ σ' !! positions perf = Some Pos
    /\ cell Pos "position" 0 = Some NaN
    /\ cell Pos "position" (S t) = Some (Fin p)
    /\ (p == Qsum (take (S t) qs))%Q.
Proof.
  intros Hdata Hsignals Hsignal Hclose Hlen Ht.
  destruct (run_backtest_columns σ data signals D Sg (Fin <$> qs) close ic c)
    as (perf & σ' & Pos & _ & Hrun & HPos & _ & _ & Hposition & _);
    try done; [by rewrite length_fmap|rewrite length_fmap; lia|].
  destruct (position_row qs t Ht) as (p & Hp & Hsum).
  exists perf, σ', Pos, p. split; [exact Hrun|]. split; [exact HPos|].
  unfold cell. rewrite Hposition. cbn.
  split; [apply position_first; rewrite length_fmap; lia|]. by split.
Qed.

Lemma Qsum_inject_Z (zs : list Z) :
  (Qsum (inject_Z <$> zs) == inject_Z (Zsum zs))%Q.
Proof.
  induction zs as [|z zs IH]; [reflexivity|].
  change (Qsum (inject_Z <$> z :: zs))
    with (inject_Z z + Qsum (inject_Z <$> zs))%Q.
  change (Zsum (z :: zs)) with (z + Zsum zs)%Z.
  by rewrite IH, inject_Z_plus.
Qed.

Lemma of_Z_series (zs : list Z) : Float.of_Z <$> zs = Fin <$> (inject_Z <$> zs).
Proof. by rewrite <- list_fmap_compose. Qed.

(** X8: on decisions of -1, 0 and 1 the position held at a step is the sum
    of the decisions of the earlier steps; at the first step it is
    undefined. *)
Theorem position_is_running_sum `{NumLib} σ data signals D Sg (zs : list Z)
    close ic c t :
  σ !! data = Some D -> σ !! signals = Some Sg ->
  columns Sg !! "signal" = Some (Float.of_Z <$> zs) ->
  columns D !! "close" = Some close ->
  decisions zs ->
  length zs = length close -> (S t < length zs)%nat ->
  exists perf σ' Pos p,
    Backtester.run_backtest data signals ic c σ = Ok (perf, σ')
    /\ σ' !! positions perf = Some Pos
    /\ cell Pos "position" 0 = Some NaN
    /\ cell Pos "position" (S t) = Some p
    /\ p ≃ Float.of_Z (Zsum (take (S t) zs)).
Proof.
  intros Hdata Hsignals Hsignal Hclose _ Hlen Ht.
  rewrite of_Z_series in Hsignal.
  destruct (position_rational σ data signals D Sg (inject_Z <$> zs) close ic c t)
    as (perf & σ' & Pos & p & Hrun & HPos & H0 & Hp & Hsum);
    try done; [by rewrite length_fmap|by rewrite length_fmap|].
  exists perf, σ', Pos, (Fin p). split; [exact Hrun|]. split; [exact HPos|].
  split; [exact H0|]. split; [exact Hp|].
  cbn. by rewrite Hsum, <- fmap_take, Qsum_inject_Z.
Qed.

Lemma position_is_running_sum_witness :
  exists perf σ' Pos p,
    Backtester.run_backtest (H := approx_lib) 0 1 (Fin 10000) (Fin 0.001)
      [closes3; buy_first'] = Ok (perf, σ')
    /\ σ' !! positions perf = Some Pos
    /\ cell Pos "position" 0 = Some NaN
    /\ cell Pos "position" 2 = Some p
    /\ p ≃ Float.of_Z (Zsum (take 2 [1; -1; 0]%Z)).
Proof.
  apply (position_is_running_sum (H := approx_lib) [closes3; buy_first'] 0 1
           closes3 buy_first' [1; -1; 0]%Z [Fin 100; Fin 101; Fin 102]);
    try reflexivity.
  - unfold decisions. repeat constructor; lia.
  - cbn. lia.
Defined.

(** ** The first two rows of the equity *)

Lemma lookup_shift_one_0 (s : Series) :
  (0 < length s)%nat -> Series.shift 1 s !! 0%nat = Some NaN.
Proof. intros Hs. rewrite shift_one. by destruct s; [cbn in Hs; lia|]. Qed.

Lemma lookup_shift_one_S (s : Series) i :
  (S i < length s)%nat -> Series.shift 1 s !! S i = s !! i.
Proof. intros Hi. rewrite shift_one. by rewrite lookup_take_lt by done. Qed.

Lemma sub_nan_r x : x ⊖ NaN = NaN.
Proof. by destruct x. Qed.

Lemma lookup_diff_0 (s : Series) :
  (0 < length s)%nat -> Series.diff s !! 0%nat = Some NaN.
Proof.
  intros Hs. unfold Series.diff, Series.map2.
  rewrite lookup_zip_with, (lookup_shift_one_0 s Hs).
  destruct (lookup_lt_is_Some_2 s 0 Hs) as [x ->]. cbn. by rewrite sub_nan_r.
Qed.

Lemma lookup_diff_S (s : Series) i x y :
  s !! i = Some x -> s !! S i = Some y -> Series.diff s !! S i = Some (y ⊖ x).
Proof.
  intros Hx Hy. unfold Series.diff, Series.map2.
  rewrite lookup_zip_with, Hy, lookup_shift_one_S, Hx; [done|].
  by apply lookup_lt_Some in Hy.
Qed.

Lemma lookup_cumsum_nan (s : Series) : forall a t,
  s !! t = Some NaN -> Series.cumsum_from a s !! t = Some NaN.
Proof.
  induction s as [|x s IH]; intros a [|t] Ht; try done.
  - injection Ht as ->. done.
  - cbn in Ht. cbn [Series.cumsum_from].
    destruct (Float.isnan x); cbn [lookup list_lookup]; by apply IH.
Qed.

(** A row where the change of position is undefined has no cash and no
    total. *)
Lemma total_undefined ic c (signal close : Series) t :
  length signal = length close -> (t < length signal)%nat ->
  Series.diff (BacktestColumns.position signal) !! t = Some NaN ->
  BacktestColumns.total ic c signal close !! t = Some NaN.
Proof.
  intros Hlen Ht Hd.
  destruct (lookup_lt_is_Some_2 close t) as [x Hx]; [lia|].
  destruct (lookup_lt_is_Some_2 (BacktestColumns.position signal) t) as [p Hp];
    [by rewrite length_position|].
  unfold BacktestColumns.total, BacktestColumns.cash, BacktestColumns.holdings,
    Series.map2, Series.cumsum.
  rewrite lookup_zip_with, list_lookup_fmap.
  rewrite (lookup_cumsum_nan _ (Fin 0) t).
  - rewrite lookup_zip_with, Hp, Hx. cbn. by rewrite sub_nan_r.
  - rewrite list_lookup_fmap, lookup_zip_with, Hd, Hx. done.
Qed.

Lemma total_first_rows ic c (signal close : Series) t :
  length signal = length close -> (t < length signal)%nat -> (t <= 1)%nat ->
  BacktestColumns.total ic c signal close !! t = Some NaN.
Proof.
  intros Hlen Ht H1. apply total_undefined; try done.
  assert (0 < length (BacktestColumns.position signal))%nat as Hpos
    by (rewrite length_position; lia).
  destruct t as [|[|t]]; [by apply lookup_diff_0| |lia].
  destruct (lookup_lt_is_Some_2 (BacktestColumns.position signal) 1) as [y Hy];
    [by rewrite length_position|].
  rewrite (lookup_diff_S _ 0 NaN y); [by rewrite sub_nan_r| |done].
  apply position_first. lia.
Qed.

(** X9: the total equity is undefined (NaN) at the first two steps of
    every run, so a run over one or two bars reports NaN as its final
    value and as its total return. *)
Theorem equity_undefined_on_first_two_bars `{NumLib} σ data signals D Sg
    signal close ic c :
  σ !! data = Some D -> σ !! signals = Some Sg ->
  columns Sg !! "signal" = Some signal -> columns D !! "close" = Some close ->
  length signal = length close -> (0 < length signal)%nat ->
  exists perf σ' Port,
    Backtester.run_backtest data signals ic c σ = Ok (perf, σ')
    /\ σ' !! portfolio perf = Some Port
    /\ (forall t, (t < length signal)%nat -> (t <= 1)%nat ->
          cell Port "total" t = Some NaN)
    /\ ((length signal <= 2)%nat ->
        final_value perf = NaN /\ total_return_pct perf = NaN).
Proof.
  intros Hdata Hsignals Hsignal Hclose Hlen Hn.
  destruct (last_is_Some (BacktestColumns.total ic c signal close)) as [lt Hlt];
    [by rewrite length_total|].
  destruct (run_backtest_report σ data signals D Sg signal close ic c
              Hdata Hsignals Hsignal Hclose lt Hlt)
    as (perf & Sg' & E & Pos & Port & Hrun & _ & Hp & _ & Htotal & _ & Hfinal
        & Hreturn & _).
  exists perf, (σ ++ [Sg'; D; E; Pos; Port]), Port.
  split; [exact Hrun|]. rewrite Hp, lookup_local. split; [done|]. split.
  - intros t Ht H1. unfold cell. rewrite Htotal. cbn.
    by apply total_first_rows.
  - intros H2. rewrite last_lookup, length_total in Hlt by done.
    rewrite total_first_rows in Hlt by (try done; lia).
    injection Hlt as <-. rewrite Hreturn, Hfinal.
    split; [done|]. unfold BacktestReport.total_return. by destruct ic.
Qed.

Lemma equity_undefined_on_first_two_bars_witness :
  exists perf σ' Port,
    Backtester.run_backtest (H := approx_lib) 0 1 (Fin 10000) (Fin 0.001)
      [single_bar; single_signal] = Ok (perf, σ')
    /\ σ' !! portfolio perf = Some Port
    /\ (forall t, (t < length [Fin 1])%nat -> (t <= 1)%nat ->
          cell Port "total" t = Some NaN)
    /\ ((length [Fin 1] <= 2)%nat ->
        final_value perf = NaN /\ total_return_pct perf = NaN).
Proof.
  apply (equity_undefined_on_first_two_bars (H := approx_lib)
           [single_bar; single_signal] 0 1 single_bar single_signal
           [Fin 1] [Fin 100]); try reflexivity.
  cbn. lia.
Defined.
(** ** The trade statistics *)

Lemma length_trades (s : Series) : length (BacktestReport.trades s) = length s.
Proof.
  unfold BacktestReport.trades, Series.fillna.
  by rewrite length_fmap, length_diff, length_position.
Qed.

(** The trades of the first two steps are 0; later a trade is the
    decision of the step before. *)
Lemma trades_first_rows (s : Series) t :
  (t < length s)%nat -> (t <= 1)%nat ->
  BacktestReport.trades s !! t = Some (Fin 0).
Proof.
  intros Ht H1. unfold BacktestReport.trades, Series.fillna.
  rewrite list_lookup_fmap.
  assert (0 < length (BacktestColumns.position s))%nat as Hpos
    by (rewrite length_position; lia).
  destruct t as [|[|t]]; [by rewrite lookup_diff_0| |lia].
  destruct (lookup_lt_is_Some_2 (BacktestColumns.position s) 1) as [y Hy];
    [by rewrite length_position|].
  rewrite (lookup_diff_S _ 0 NaN y); [by rewrite sub_nan_r| |done].
  apply position_first. lia.
Qed.

Lemma trades_row (qs : list Q) t q :
  (S (S t) < length qs)%nat -> qs !! S t = Some q ->
  exists d, BacktestReport.trades (Fin <$> qs) !! S (S t) = Some (Fin d)
            /\ (d == q)%Q.
Proof.
  intros Ht Hq. unfold BacktestReport.trades, Series.fillna.
  rewrite list_lookup_fmap.
  destruct (position_row qs t) as (p0 & Hp0 & Hs0); [lia|].
  destruct (position_row qs (S t) Ht) as (p1 & Hp1 & Hs1).
  rewrite (lookup_diff_S _ _ _ _ Hp0 Hp1). cbn.
  eexists. split; [reflexivity|].
  rewrite Qred_correct, Hs1, Hs0, (Qsum_take_S qs (S t) q Hq). ring.
Qed.

(** The rows a mask selects are as many as the mask has true entries. *)
Lemma length_select {A} (mask : list bool) : forall (l : list A),
  length mask = length l ->
  length (Backtester.select mask l) = length (filter (fun b => b = true) mask).
Proof.
  induction mask as [|m mask IH]; intros [|x l] Hl; try done.
  cbn in Hl. cbn [Backtester.select]. rewrite filter_cons.
  destruct m.
  - destruct (decide (true = true)); [|done]. cbn. f_equal. apply IH. lia.
  - destruct (decide (false = true)); [done|]. apply IH. lia.
Qed.

Lemma float_cmp_Qeq (x y : Q) z :
  (x == y)%Q -> Float.cmp (Fin x) z = Float.cmp (Fin y) z
               /\ Float.cmp z (Fin x) = Float.cmp z (Fin y).
Proof.
  intros E. destruct z as [| |w|]; cbn; try done.
  split; f_equal; [apply Qcompare_comp; [done|reflexivity]
                  |apply Qcompare_comp; [reflexivity|done]].
Qed.

(** The mask of the trades in one direction, from the decisions. *)
Lemma trade_mask (f : float -> float -> bool) (qs : list Q) :
  (forall x y z, (x == y)%Q -> f (Fin x) z = f (Fin y) z) ->
  f (Fin 0) (Fin 0) = false ->
  (2 <= length qs)%nat ->
  Series.cmp_scalar f (BacktestReport.trades (Fin <$> qs)) (Fin 0)
  = false :: false :: ((fun q => f (Fin q) (Fin 0)) <$> counted qs).
Proof.
  intros Hf H0 Hn. apply list_eq. intros t.
  unfold Series.cmp_scalar. rewrite list_lookup_fmap.
  destruct (decide (t < length qs)%nat) as [Ht|Ht].
  - destruct t as [|[|t]].
    + rewrite trades_first_rows by (rewrite ?length_fmap; lia). cbn. by rewrite H0.
    + rewrite trades_first_rows by (rewrite ?length_fmap; lia). cbn. by rewrite H0.
    + match goal with
      | |- _ = (_ :: _ :: ?l) !! _ =>
          change ((false :: false :: l) !! S (S t)) with (l !! t)
      end.
      rewrite list_lookup_fmap. unfold counted.
      rewrite lookup_drop, lookup_take_lt by lia.
      destruct (lookup_lt_is_Some_2 qs (1 + t)) as [q Hq]; [lia|].
      destruct (trades_row qs t q Ht Hq) as (d & Hd & E).
      rewrite Hd, Hq. cbn. f_equal. by apply Hf.
  - rewrite lookup_ge_None_2 by (rewrite length_trades, length_fmap; lia).
    symmetry. apply lookup_ge_None_2. cbn. unfold counted.
    rewrite length_fmap, length_drop, length_take. lia.
Qed.

Lemma count_mask {A} (f : A -> bool) (l : list A) :
  length (filter (fun b => b = true) (f <$> l))
  = length (filter (fun x => f x = true) l).
Proof.
  induction l as [|x l IH]; [done|]. rewrite fmap_cons, !filter_cons.
  destruct (f x) eqn:E; cbn.
  - destruct (decide (true = true)); [|done]. cbn. by rewrite IH.
  - destruct (decide (false = true)); [done|]. by rewrite IH.
Qed.

Lemma trade_count (f : float -> float -> bool) (qs : list Q) :
  (forall x y z, (x == y)%Q -> f (Fin x) z = f (Fin y) z) ->
  f (Fin 0) (Fin 0) = false ->
  (0 < length qs)%nat ->
  length (Backtester.select
            (Series.cmp_scalar f (BacktestReport.trades (Fin <$> qs)) (Fin 0))
            (BacktestReport.trades (Fin <$> qs)))
  = length (filter (fun q => f (Fin q) (Fin 0) = true) (counted qs)).
Proof.
  intros Hf H0 Hn.
  rewrite length_select
    by (unfold Series.cmp_scalar; by rewrite length_fmap).
  destruct (decide (2 <= length qs)%nat) as [H2|H2].
  - rewrite (trade_mask f qs Hf H0 H2), !filter_cons.
    destruct (decide (false = true)); [done|]. apply count_mask.
  - destruct qs as [|q [|q' qs]]; cbn in Hn, H2; try lia.
    unfold Series.cmp_scalar.
    assert (BacktestReport.trades (Fin <$> [q]) = [Fin 0]) as ->.
    { apply list_eq. intros [|t].
      - apply trades_first_rows; cbn; lia.
      - rewrite lookup_ge_None_2 by (rewrite length_trades; cbn; lia). done. }
    change (counted [q]) with (@nil Q).
    change ((fun x => f x (Fin 0)) <$> [Fin 0]) with [f (Fin 0) (Fin 0)].
    rewrite H0, filter_cons. by destruct (decide (false = true)).
Qed.

Lemma trade_counts_rational `{NumLib} σ data signals D Sg
    (qs : list Q) close ic c :
  σ !! data = Some D -> σ !! signals = Some Sg ->
  columns Sg !! "signal" = Some (Fin <$> qs) ->
  columns D !! "close" = Some close ->
  length qs = length close -> (0 < length qs)%nat ->
  exists perf σ',
    Backtester.run_backtest data signals ic c σ = Ok (perf, σ')
    /\ buy_trades perf
       = length (filter (fun q => Float.gt (Fin q) (Fin 0) = true) (counted qs))
    /\ sell_trades perf
       = length (filter (fun q => Float.lt (Fin q) (Fin 0) = true) (counted qs))
    /\ total_trades perf = (buy_trades perf + sell_trades perf)%nat.
Proof.
  intros Hdata Hsignals Hsignal Hclose Hlen Hn.
  destruct (last_is_Some (BacktestColumns.total ic c (Fin <$> qs) close))
    as [lt Hlt]; [rewrite length_total; rewrite length_fmap; done|].
  destruct (run_backtest_report σ data signals D Sg (Fin <$> qs) close ic c
              Hdata Hsignals Hsignal Hclose lt Hlt)
    as (perf & Sg' & E & Pos & Port & Hrun & _ & _ & _ & _ & _ & _ & _ & _
        & Hbuy & Hsell & Htotal & _).
  exists perf, (σ ++ [Sg'; D; E; Pos; Port]).
  split; [exact Hrun|].
  split; [|split; [|exact Htotal]].
  - rewrite Hbuy. unfold BacktestReport.buy_mask.
    apply (trade_count Float.gt); [|done|done].
    intros x y z E'. unfold Float.gt, Float.lt.
    by destruct (float_cmp_Qeq x y z E') as [_ ->].
  - rewrite Hsell. unfold BacktestReport.sell_mask.
    apply (trade_count Float.lt); [|done|done].
    intros x y z E'. unfold Float.lt.
    by destruct (float_cmp_Qeq x y z E') as [-> _].
Qed.

Lemma counted_fmap {A B} (f : A -> B) (l : list A) :
  counted (f <$> l) = f <$> counted l.
Proof. unfold counted. by rewrite length_fmap, fmap_drop, fmap_take. Qed.

Lemma length_filter_fmap {A B} (f : A -> B) (P : B -> Prop) (Q : A -> Prop)
    `{!forall y, Decision (P y)} `{!forall x, Decision (Q x)} (l : list A) :
  (forall x, P (f x) <-> Q x) ->
  length (filter P (f <$> l)) = length (filter Q l).
Proof.
  intros HPQ. induction l as [|x l IH]; [done|].
  rewrite fmap_cons, !filter_cons.
  destruct (decide (P (f x))) as [HP|HP], (decide (Q x)) as [HQ|HQ];
    cbn [length]; rewrite ?IH; try done; exfalso.
  - by apply HQ, HPQ.
  - by apply HP, HPQ.
Qed.

(** X10: the trade statistics do not see the first and the last decision.
    On decisions of -1, 0 and 1, buy_trades is the number of positive
    decisions, sell_trades the number of negative decisions, among the
    decisions of the bars between the first and the last one;
    total_trades is their sum. *)
Theorem trade_counts_skip_first_and_last `{NumLib} σ data signals D Sg
    (zs : list Z) close ic c :
  σ !! data = Some D -> σ !! signals = Some Sg ->
  columns Sg !! "signal" = Some (Float.of_Z <$> zs) ->
  columns D !! "close" = Some close ->
  decisions zs ->
  length zs = length close -> (0 < length zs)%nat ->
  exists perf σ',
    Backtester.run_backtest data signals ic c σ = Ok (perf, σ')
    /\ buy_trades perf = length (filter (fun z => (0 < z)%Z) (counted zs))
    /\ sell_trades perf = length (filter (fun z => (z < 0)%Z) (counted zs))
    /\ total_trades perf = (buy_trades perf + sell_trades perf)%nat.
Proof.
  intros Hdata Hsignals Hsignal Hclose _ Hlen Hn.
  rewrite of_Z_series in Hsignal.
  destruct (trade_counts_rational σ data signals D Sg (inject_Z <$> zs) close ic c)
    as (perf & σ' & Hrun & Hbuy & Hsell & Htotal);
    try done; [by rewrite length_fmap|by rewrite length_fmap|].
  exists perf, σ'. split; [exact Hrun|].
  split; [|split; [|exact Htotal]].
  - rewrite Hbuy, counted_fmap. apply length_filter_fmap. intros z.
    unfold Float.gt. by rewrite float_lt_fin, (Zlt_Qlt 0 z).
  - rewrite Hsell, counted_fmap. apply length_filter_fmap. intros z.
    by rewrite float_lt_fin, (Zlt_Qlt z 0).
Qed.

Lemma trade_counts_skip_first_and_last_witness :
  exists perf σ',
    Backtester.run_backtest (H := approx_lib) 0 1 (Fin 10000) (Fin 0.001)
      [closes_dip; buy_twice] = Ok (perf, σ')
    /\ buy_trades perf
       = length (filter (fun z => (0 < z)%Z) (counted [1; 1; 0; 0]%Z))
    /\ sell_trades perf
       = length (filter (fun z => (z < 0)%Z) (counted [1; 1; 0; 0]%Z))
    /\ total_trades perf = (buy_trades perf + sell_trades perf)%nat.
Proof.
  apply (trade_counts_skip_first_and_last (H := approx_lib)
           [closes_dip; buy_twice] 0 1 closes_dip buy_twice [1; 1; 0; 0]%Z
           [Fin 100; Fin 100; Fin 100; Fin 90]);
    try reflexivity.
  - unfold decisions. repeat constructor; lia.
  - cbn. lia.
Defined.

(** ** Ranges of the indicator columns *)





(** ** add_macd on its own *)

(** X12: add_macd on a table that lacks ema_12 or ema_26 first runs
    add_moving_averages: with a close column of numbers of magnitude at
    most 1e100 it assigns the four averages and the three MACD columns
    computed from the close; without a close column it raises KeyError for
    close. *)
Theorem add_macd_computes_missing_averages σ df F :
  σ !! df = Some F ->
  columns F !! "ema_12" = None \/ columns F !! "ema_26" = None ->
  (forall close, columns F !! "close" = Some close -> Forall moderate close ->
     exists F',
       IndicatorCalculator.add_macd df σ = Ok (df, <[df := F']> σ)
       /\ columns F' !! "sma_20" = Some (IndicatorColumns.sma 20 close)
       /\ columns F' !! "sma_50" = Some (IndicatorColumns.sma 50 close)
       /\ columns F' !! "ema_12" = Some (IndicatorColumns.ema 12 close)
       /\ columns F' !! "ema_26" = Some (IndicatorColumns.ema 26 close)
       /\ columns F' !! "macd" = Some (IndicatorColumns.macd close)
       /\ columns F' !! "macd_signal" = Some (IndicatorColumns.macd_signal close)
       /\ columns F' !! "macd_hist" = Some (IndicatorColumns.macd_hist close))
  /\ (columns F !! "close" = None ->
      IndicatorCalculator.add_macd df σ = Raise (KeyError "close")).
Proof.
  intros HF Hmiss. pose proof (lookup_lt_Some _ _ _ HF) as Hr.
  replace (IndicatorCalculator.add_macd df σ)
    with (IndicatorCalculator.add_macd df (<[df := F]> σ))
    by (by rewrite list_insert_id).
  unfold IndicatorCalculator.add_macd, IndicatorCalculator.add_moving_averages.
  assert (forall (B : Type) (k : ref -> M B),
    ((has_12 ← Frame.has_col df "ema_12";
      has_26 ← (if has_12 : bool then Frame.has_col df "ema_26" else mret true);
      df' ← (if negb has_12 || negb has_26
             then (close ← Frame.getcol df "close";
                   Frame.setcol df "sma_20" (Series.rolling_mean 20 1 close);;
                   Frame.setcol df "sma_50" (Series.rolling_mean 50 1 close);;
                   Frame.setcol df "ema_12" (Series.ewm_mean 12 close);;
                   Frame.setcol df "ema_26" (Series.ewm_mean 26 close);;
                   mret df)
             else mret df);
      k df') (<[df := F]> σ))
    = ((close ← Frame.getcol df "close";
        Frame.setcol df "sma_20" (Series.rolling_mean 20 1 close);;
        Frame.setcol df "sma_50" (Series.rolling_mean 50 1 close);;
        Frame.setcol df "ema_12" (Series.ewm_mean 12 close);;
        Frame.setcol df "ema_26" (Series.ewm_mean 26 close);;
        k df) (<[df := F]> σ))) as Hhead.
  { intros B k. rewrite bind_run, (has_col_inplace _ _ Hr).
    destruct (columns F !! "ema_12") as [e12|] eqn:E12.
    - destruct Hmiss as [Hmiss|Hmiss]; [done|].
      rewrite bool_decide_is_Some. cbv beta iota.
      rewrite bind_run, (has_col_inplace _ _ Hr), Hmiss.
      rewrite bool_decide_eq_false_2 by (intros [? ?]; done).
      cbn [negb orb]. cbv beta iota. rewrite !bind_run.
      destruct (Frame.getcol df "close" (<[df:=F]> σ)) as [[close σ1]|]; [|done].
      repeat (rewrite !bind_run;
              match goal with
              | |- context [Frame.setcol ?r ?k ?c ?s] =>
                  destruct (Frame.setcol r k c s) as [[[] ?]|]; [|done]
              end).
      done.
    - rewrite bool_decide_eq_false_2 by (intros [? ?]; done).
      cbv beta iota. rewrite bind_run, ret_run. cbn [negb orb]. cbv beta iota.
      rewrite !bind_run.
      destruct (Frame.getcol df "close" (<[df:=F]> σ)) as [[close σ1]|]; [|done].
      repeat (rewrite !bind_run;
              match goal with
              | |- context [Frame.setcol ?r ?k ?c ?s] =>
                  destruct (Frame.setcol r k c s) as [[[] ?]|]; [|done]
              end).
      done. }
  rewrite Hhead. clear Hhead. split.
  - intros close Hclose _. repeat inplace_step Hr.
    eexists. split; [reflexivity|]. repeat split; lk; reflexivity.
  - intros Hnone. rewrite bind_run, (getcol_inplace _ _ Hr). by rewrite Hnone.
Qed.

Lemma add_macd_computes_missing_averages_witness :
  (forall close, columns closes3 !! "close" = Some close ->
     Forall moderate close ->
     exists F',
       IndicatorCalculator.add_macd 0 [closes3] = Ok (0%nat, <[0%nat := F']> [closes3])
       /\ columns F' !! "sma_20" = Some (IndicatorColumns.sma 20 close)
       /\ columns F' !! "sma_50" = Some (IndicatorColumns.sma 50 close)
       /\ columns F' !! "ema_12" = Some (IndicatorColumns.ema 12 close)
       /\ columns F' !! "ema_26" = Some (IndicatorColumns.ema 26 close)
       /\ columns F' !! "macd" = Some (IndicatorColumns.macd close)
       /\ columns F' !! "macd_signal" = Some (IndicatorColumns.macd_signal close)
       /\ columns F' !! "macd_hist" = Some (IndicatorColumns.macd_hist close))
  /\ (columns closes3 !! "close" = None ->
      IndicatorCalculator.add_macd 0 [closes3] = Raise (KeyError "close")).
Proof.
  apply (add_macd_computes_missing_averages [closes3] 0 closes3).
  - reflexivity.
  - left. reflexivity.
Defined.

(** X13: on a table that has the columns ema_12 and ema_26, holding
    numbers of magnitude at most 1e100, add_macd reads these two columns as
    they are and nothing else: macd is their difference row by row, no
    close column is needed and no moving average is assigned. *)
Theorem add_macd_uses_given_averages σ df F ema_12 ema_26 :
  σ !! df = Some F ->
  columns F !! "ema_12" = Some ema_12 -> columns F !! "ema_26" = Some ema_26 ->
  Forall moderate ema_12 -> Forall moderate ema_26 ->
  exists F',
    IndicatorCalculator.add_macd df σ = Ok (df, <[df := F']> σ)
    /\ columns F' !! "macd" = Some (Series.map2 Float.sub ema_12 ema_26)
    /\ columns F' !! "macd_signal"
       = Some (Series.ewm_mean 9 (Series.map2 Float.sub ema_12 ema_26))
    /\ columns F' !! "macd_hist"
       = Some (Series.map2 Float.sub (Series.map2 Float.sub ema_12 ema_26)
                 (Series.ewm_mean 9 (Series.map2 Float.sub ema_12 ema_26)))
    /\ forall k, k ∉ ["macd"; "macd_signal"; "macd_hist"] ->
         columns F' !! k = columns F !! k.
Proof.
  intros HF H12 H26 _ _. pose proof (lookup_lt_Some _ _ _ HF) as Hr.
  replace (IndicatorCalculator.add_macd df σ)
    with (IndicatorCalculator.add_macd df (<[df := F]> σ))
    by (by rewrite list_insert_id).
  unfold IndicatorCalculator.add_macd.
  repeat inplace_step Hr.
  eexists. split; [reflexivity|].
  split; [by lk|]. split; [by lk|]. split; [by lk|].
  intros k Hk. rewrite !columns_with_col.
  rewrite !lookup_insert_ne; [done|..]; intros E; apply Hk; rewrite <- E;
    repeat first [by left | right].
Qed.

Lemma add_macd_uses_given_averages_witness :
  exists F',
    IndicatorCalculator.add_macd 0 [given_averages]
    = Ok (0%nat, <[0%nat := F']> [given_averages])
    /\ columns F' !! "macd"
       = Some (Series.map2 Float.sub [Fin 5; Fin 7] [Fin 4; Fin 9])
    /\ columns F' !! "macd_signal"
       = Some (Series.ewm_mean 9
                 (Series.map2 Float.sub [Fin 5; Fin 7] [Fin 4; Fin 9]))
    /\ columns F' !! "macd_hist"
       = Some (Series.map2 Float.sub
                 (Series.map2 Float.sub [Fin 5; Fin 7] [Fin 4; Fin 9])
                 (Series.ewm_mean 9
                    (Series.map2 Float.sub [Fin 5; Fin 7] [Fin 4; Fin 9])))
    /\ forall k, k ∉ ["macd"; "macd_signal"; "macd_hist"] ->
         columns F' !! k = columns given_averages !! k.
Proof.
  apply (add_macd_uses_given_averages [given_averages] 0 given_averages);
    try reflexivity;
    repeat constructor; eexists; (split; [reflexivity|]); vm_compute;
    discriminate.
Defined.
(** ** The Fibonacci levels *)

Lemma drop_cols_local σ τ i ks :
  Frame.drop_cols (length σ + i) ks (σ ++ τ)
  = match τ !! i with
    | Some f =>
        match list_find (fun k => columns f !! k = None) ks with
        | Some (_, k) => Raise (KeyError k)
        | None =>
            Ok ((length σ + length τ)%nat,
                σ ++ (τ ++ [mkFrame (nrows f) (foldr delete (columns f) ks)]))
        end
    | None => Raise BadRef
    end.
Proof.
  unfold Frame.drop_cols. rewrite bind_run, get_local.
  destruct (τ !! i) as [f|]; [|done].
  destruct (list_find _ ks) as [[? k]|]; [done|]. apply alloc_run.
Qed.

Lemma add_fibonacci_levels_run σ df F high low window :
  σ !! df = Some F ->
  columns F !! "high" = Some high -> columns F !! "low" = Some low ->
  exists F1 F2,
    IndicatorCalculator.add_fibonacci_levels df window σ
    = Ok ((length σ + 1)%nat, σ ++ [F1; F2])
    /\ nrows F2 = nrows F
    /\ columns F2 !! "fib_0" = Some (FibonacciColumns.rolling_high window high)
    /\ columns F2 !! "fib_0.236"
       = Some (FibonacciColumns.level 0.236 window high low)
    /\ columns F2 !! "fib_0.382"
       = Some (FibonacciColumns.level 0.382 window high low)
    /\ columns F2 !! "fib_0.5" = Some (FibonacciColumns.level 0.5 window high low)
    /\ columns F2 !! "fib_0.618"
       = Some (FibonacciColumns.level 0.618 window high low)
    /\ columns F2 !! "fib_1" = Some (FibonacciColumns.rolling_low window low)
    /\ columns F2 !! "rolling_high" = None
    /\ columns F2 !! "rolling_low" = None
    /\ forall k,
         k ∉ FibonacciColumns.names ++ ["rolling_high"; "rolling_low"] ->
         columns F2 !! k = columns F !! k.
Proof.
  intros HF Hhigh Hlow.
  assert (E : IndicatorCalculator.add_fibonacci_levels df window σ
              = IndicatorCalculator.add_fibonacci_levels df window (σ ++ []))
    by (by rewrite app_nil_r).
  rewrite E; clear E. unfold IndicatorCalculator.add_fibonacci_levels.
  step HF. repeat step HF.
  rewrite drop_cols_local. reduce_store.
  rewrite (proj2 (list_find_None _ _)).
  2: { repeat constructor; lk; done. }
  eexists _, _. split; [reflexivity|]. cbn [nrows columns foldr].
  split; [done|].
  repeat (split;
    [rewrite !lookup_delete_ne by done; lk; reflexivity|]).
  split; [by rewrite lookup_delete_eq|].
  split; [by rewrite lookup_delete_ne, lookup_delete_eq|].
  intros k Hk. unfold FibonacciColumns.names in Hk. cbn [app] in Hk.
  rewrite !lookup_delete_ne, !lookup_insert_ne; [done|..];
    intros E; apply Hk; rewrite <- E; repeat first [by left | right].
Qed.

Lemma length_valid (w : Series) : (length (Series.valid w) <= length w)%nat.
Proof. unfold Series.valid. apply length_filter. Qed.

Lemma lookup_rolling_full agg w (s : Series) t :
  (t < length s)%nat ->
  IndicatorCalculator.rolling_full agg w s !! t
  = Some (Series.full_window agg w (Series.window_at w t s)).
Proof. intros Ht. unfold IndicatorCalculator.rolling_full. by rewrite lookup_rolling. Qed.

(** A window that is not full gives NaN. *)
Lemma rolling_full_short agg w (s : Series) t :
  (t < length s)%nat -> (t + 1 < w)%nat ->
  IndicatorCalculator.rolling_full agg w s !! t = Some NaN.
Proof.
  intros Ht Hw. rewrite lookup_rolling_full by done. f_equal.
  unfold Series.full_window.
  pose proof (length_valid (Series.window_at w t s)) as Hv.
  rewrite length_window in Hv by done.
  destruct (Nat.ltb_spec (length (Series.valid (Series.window_at w t s))) w);
    [done|lia].
Qed.

Lemma level_undefined k window (high low : Series) t :
  FibonacciColumns.rolling_high window high !! t = Some NaN ->
  (t < length low)%nat ->
  FibonacciColumns.level k window high low !! t = Some NaN.
Proof.
  intros Hh Ht. unfold FibonacciColumns.level, Series.map2.
  rewrite lookup_zip_with, Hh. cbn.
  rewrite list_lookup_fmap, lookup_zip_with, Hh. cbn.
  destruct (lookup_lt_is_Some_2 (FibonacciColumns.rolling_low window low) t)
    as [y ->]; [|done].
  unfold FibonacciColumns.rolling_low, IndicatorCalculator.rolling_full.
  by rewrite length_rolling.
Qed.

(** X14: the Fibonacci levels need a full window.  At the rows before
    row window - 1 every level of the returned table is NaN. *)
Theorem fibonacci_levels_need_full_window σ df F high low window t :
  σ !! df = Some F ->
  columns F !! "high" = Some high -> columns F !! "low" = Some low ->
  length high = length low -> (t < length high)%nat -> (t + 1 < window)%nat ->
  exists r σ' F',
    IndicatorCalculator.add_fibonacci_levels df window σ = Ok (r, σ')
    /\ σ' !! r = Some F'
    /\ forall k, k ∈ FibonacciColumns.names -> cell F' k t = Some NaN.
Proof.
  intros HF Hhigh Hlow Hlen Ht Hw.
  destruct (add_fibonacci_levels_run σ df F high low window HF Hhigh Hlow)
    as (F1 & F2 & Hrun & _ & H0 & H236 & H382 & H5 & H618 & H1 & _).
  exists (length σ + 1)%nat, (σ ++ [F1; F2]), F2.
  split; [exact Hrun|]. split; [by rewrite lookup_local|].
  assert (FibonacciColumns.rolling_high window high !! t = Some NaN) as Hh
    by (by apply rolling_full_short).
  assert (t < length low)%nat as Ht' by lia.
  intros k Hk. unfold FibonacciColumns.names in Hk. unfold cell.
  repeat (apply elem_of_cons in Hk as [->|Hk]);
    [rewrite H0|rewrite H236|rewrite H382|rewrite H5|rewrite H618|rewrite H1
    |by apply elem_of_nil in Hk]; cbn;
    [exact Hh|by apply level_undefined..|by apply rolling_full_short].
Qed.

Lemma fibonacci_levels_need_full_window_witness :
  exists r σ' F',
    IndicatorCalculator.add_fibonacci_levels 0 20 [bars_high_low] = Ok (r, σ')
    /\ σ' !! r = Some F'
    /\ forall k, k ∈ FibonacciColumns.names -> cell F' k 2 = Some NaN.
Proof.
  apply (fibonacci_levels_need_full_window [bars_high_low] 0 bars_high_low
           [Fin 11; Fin 12; Fin 13] [Fin 9; Fin 10; Fin 11] 20 2);
    try reflexivity; cbn; lia.
Defined.
(** The running maximum is at least its start, the running minimum at
    most. *)
Lemma foldl_fmax_ge (l : Series) : forall a,
  Forall is_finite l ->
  exists M, foldl Series.fmax (Fin a) l = Fin M /\ (a <= M)%Q.
Proof.
  induction l as [|x l IH]; intros a Hl; [exists a; split; [done|lra]|].
  apply Forall_cons in Hl as [Hx Hl]. destruct x as [| |q|]; try done.
  cbn [foldl]. unfold Series.fmax at 2.
  destruct (Float.lt (Fin a) (Fin q)) eqn:E.
  - apply float_lt_fin in E. destruct (IH q Hl) as (M & -> & HM).
    exists M. split; [done|lra].
  - by apply IH.
Qed.

Lemma foldl_fmin_le (l : Series) : forall a,
  Forall is_finite l ->
  exists m, foldl Series.fmin (Fin a) l = Fin m /\ (m <= a)%Q.
Proof.
  induction l as [|x l IH]; intros a Hl; [exists a; split; [done|lra]|].
  apply Forall_cons in Hl as [Hx Hl]. destruct x as [| |q|]; try done.
  cbn [foldl]. unfold Series.fmin at 2.
  destruct (Float.lt (Fin q) (Fin a)) eqn:E.
  - apply float_lt_fin in E. destruct (IH q Hl) as (m & -> & Hm).
    exists m. split; [done|lra].
  - by apply IH.
Qed.

(** A full window of a finite series starts at row t + 1 - w. *)
Lemma full_window_head w t (s : Series) a :
  (1 <= w)%nat -> (w <= t + 1)%nat -> Forall is_finite s ->
  s !! (t + 1 - w)%nat = Some (Fin a) -> (t < length s)%nat ->
  exists rest,
    Series.window_at w t s = Fin a :: rest /\ Forall is_finite rest
    /\ Series.valid (Series.window_at w t s) = Series.window_at w t s
    /\ length (Series.window_at w t s) = w.
Proof.
  intros H1 Hw Hs Ha Ht.
  pose proof (Forall_window is_finite w t s Hs) as Hfin.
  pose proof (length_window w t s Ht) as Hlen.
  assert (Series.window_at w t s !! 0%nat = Some (Fin a)) as H0.
  { unfold Series.window_at. rewrite lookup_drop, Nat.add_0_r.
    rewrite lookup_take_lt by lia. exact Ha. }
  destruct (Series.window_at w t s) as [|x rest] eqn:E; [done|].
  injection H0 as ->. exists rest.
  apply Forall_cons in Hfin as Hfin'. destruct Hfin' as [_ Hrest].
  split; [done|]. split; [done|]. split; [by apply valid_finite|].
  rewrite Hlen. lia.
Qed.

Lemma rolling_high_row w t (high : Series) a :
  (1 <= w)%nat -> (w <= t + 1)%nat -> Forall is_finite high ->
  high !! (t + 1 - w)%nat = Some (Fin a) -> (t < length high)%nat ->
  exists M, FibonacciColumns.rolling_high w high !! t = Some (Fin M) /\ (a <= M)%Q.
Proof.
  intros H1 Hw Hs Ha Ht.
  destruct (full_window_head w t high a H1 Hw Hs Ha Ht)
    as (rest & E & Hrest & Hvalid & Hlen).
  unfold FibonacciColumns.rolling_high. rewrite lookup_rolling_full by done.
  unfold Series.full_window. rewrite Hvalid, Hlen.
  destruct (Nat.ltb_spec w w); [lia|]. rewrite E. cbn [Series.reduce].
  destruct (foldl_fmax_ge rest a Hrest) as (M & -> & HM). by exists M.
Qed.

Lemma rolling_low_row w t (low : Series) b :
  (1 <= w)%nat -> (w <= t + 1)%nat -> Forall is_finite low ->
  low !! (t + 1 - w)%nat = Some (Fin b) -> (t < length low)%nat ->
  exists m, FibonacciColumns.rolling_low w low !! t = Some (Fin m) /\ (m <= b)%Q.
Proof.
  intros H1 Hw Hs Hb Ht.
  destruct (full_window_head w t low b H1 Hw Hs Hb Ht)
    as (rest & E & Hrest & Hvalid & Hlen).
  unfold FibonacciColumns.rolling_low. rewrite lookup_rolling_full by done.
  unfold Series.full_window. rewrite Hvalid, Hlen.
  destruct (Nat.ltb_spec w w); [lia|]. rewrite E. cbn [Series.reduce].
  destruct (foldl_fmin_le rest b Hrest) as (m & -> & Hm). by exists m.
Qed.

Lemma low_below_high_finite (high low : Series) :
  low_below_high high low ->
  Forall is_finite high /\ Forall is_finite low /\ length high = length low.
Proof.
  unfold low_below_high. induction 1 as [|h l high low (a & b & -> & -> & _) _ IH].
  - done.
  - destruct IH as (Hh & Hl & Hlen). repeat split; try by constructor.
    cbn. by rewrite Hlen.
Qed.

Lemma level_row k window (high low : Series) t M m :
  FibonacciColumns.rolling_high window high !! t = Some (Fin M) ->
  FibonacciColumns.rolling_low window low !! t = Some (Fin m) ->
  exists x, FibonacciColumns.level k window high low !! t = Some (Fin x)
            /\ (x == M - k * (M - m))%Q.
Proof.
  intros Hh Hl. unfold FibonacciColumns.level, Series.map2.
  rewrite lookup_zip_with, Hh. cbn.
  rewrite list_lookup_fmap, lookup_zip_with, Hh. cbn. rewrite Hl. cbn.
  eexists. split; [reflexivity|]. rewrite !Qred_correct. ring.
Qed.

(** X15: where the window is full, the highs and lows are numbers of
    magnitude at most 1e100 and the low of every bar is at most its high,
    the six Fibonacci levels are numbers in descending order:
    fib_1 <= fib_0.618 <= fib_0.5 <= fib_0.382 <= fib_0.236 <= fib_0. *)
Theorem fibonacci_levels_ordered σ df F high low window t :
  σ !! df = Some F ->
  columns F !! "high" = Some high -> columns F !! "low" = Some low ->
  Forall moderate high -> Forall moderate low ->
  low_below_high high low ->
  (1 <= window)%nat -> (window <= t + 1)%nat -> (t < length high)%nat ->
  exists r σ' F' f0 f236 f382 f5 f618 f1,
    IndicatorCalculator.add_fibonacci_levels df window σ = Ok (r, σ')
    /\ σ' !! r = Some F'
    /\ cell F' "fib_0" t = Some (Fin f0)
    /\ cell F' "fib_0.236" t = Some (Fin f236)
    /\ cell F' "fib_0.382" t = Some (Fin f382)
    /\ cell F' "fib_0.5" t = Some (Fin f5)
    /\ cell F' "fib_0.618" t = Some (Fin f618)
    /\ cell F' "fib_1" t = Some (Fin f1)
    /\ (f1 <= f618)%Q /\ (f618 <= f5)%Q /\ (f5 <= f382)%Q
    /\ (f382 <= f236)%Q /\ (f236 <= f0)%Q.
Proof.
  intros HF Hhigh Hlow _ _ Hbars H1 Hw Ht.
  destruct (add_fibonacci_levels_run σ df F high low window HF Hhigh Hlow)
    as (F1 & F2 & Hrun & _ & H0 & H236 & H382 & H5 & H618 & Hl1 & _).
  destruct (low_below_high_finite high low Hbars) as (Hfh & Hfl & Hlen).
  destruct (lookup_lt_is_Some_2 high (t + 1 - window)) as [h Hh]; [lia|].
  destruct (Forall2_lookup_l _ _ _ _ _ Hbars Hh) as (l & Hl & a & b & -> & -> & Hab).
  destruct (rolling_high_row window t high a H1 Hw Hfh Hh Ht) as (M & HM & HaM).
  destruct (rolling_low_row window t low b H1 Hw Hfl Hl ltac:(lia))
    as (m & Hm & Hmb).
  destruct (level_row 0.236 window high low t M m HM Hm) as (f236 & E236 & Q236).
  destruct (level_row 0.382 window high low t M m HM Hm) as (f382 & E382 & Q382).
  destruct (level_row 0.5 window high low t M m HM Hm) as (f5 & E5 & Q5).
  destruct (level_row 0.618 window high low t M m HM Hm) as (f618 & E618 & Q618).
  exists (length σ + 1)%nat, (σ ++ [F1; F2]), F2, M, f236, f382, f5, f618, m.
  split; [exact Hrun|]. split; [by rewrite lookup_local|].
  unfold cell. rewrite H0, H236, H382, H5, H618, Hl1. cbn.
  repeat (split; [done|]).
  assert (0 <= M - m)%Q as Hd by lra.
  assert (forall k1 k2 : Q, Qle_bool k1 k2 = true ->
            (k1 * (M - m) <= k2 * (M - m))%Q) as Hk.
  { intros k1 k2 Hle. apply Qmult_le_compat_r; [by apply Qle_bool_iff|done]. }
  pose proof (Hk 0%Q 0.236%Q eq_refl) as K0.
  pose proof (Hk 0.236%Q 0.382%Q eq_refl) as K1.
  pose proof (Hk 0.382%Q 0.5%Q eq_refl) as K2.
  pose proof (Hk 0.5%Q 0.618%Q eq_refl) as K3.
  pose proof (Hk 0.618%Q 1%Q eq_refl) as K4.
  clear Hk.
  set (d1 := (0.236 * (M - m))%Q) in *. set (d2 := (0.382 * (M - m))%Q) in *.
  set (d3 := (0.5 * (M - m))%Q) in *. set (d4 := (0.618 * (M - m))%Q) in *.
  clearbody d1 d2 d3 d4.
  repeat split; lra.
Qed.

Lemma fibonacci_levels_ordered_witness :
  exists r σ' F' f0 f236 f382 f5 f618 f1,
    IndicatorCalculator.add_fibonacci_levels 0 2 [bars_high_low] = Ok (r, σ')
    /\ σ' !! r = Some F'
    /\ cell F' "fib_0" 1 = Some (Fin f0)
    /\ cell F' "fib_0.236" 1 = Some (Fin f236)
    /\ cell F' "fib_0.382" 1 = Some (Fin f382)
    /\ cell F' "fib_0.5" 1 = Some (Fin f5)
    /\ cell F' "fib_0.618" 1 = Some (Fin f618)
    /\ cell F' "fib_1" 1 = Some (Fin f1)
    /\ (f1 <= f618)%Q /\ (f618 <= f5)%Q /\ (f5 <= f382)%Q
    /\ (f382 <= f236)%Q /\ (f236 <= f0)%Q.
Proof.
  apply (fibonacci_levels_ordered [bars_high_low] 0 bars_high_low
           [Fin 11; Fin 12; Fin 13] [Fin 9; Fin 10; Fin 11] 2 1);
    try reflexivity; try (cbn; lia).
  - repeat constructor; eexists; (split; [reflexivity|]); vm_compute;
      discriminate.
  - repeat constructor; eexists; (split; [reflexivity|]); vm_compute;
      discriminate.
  - unfold low_below_high.
    repeat (constructor; [eexists _, _; split; [reflexivity|];
                          split; [reflexivity|]; by vm_compute|]).
    constructor.
Defined.
(** ** The head-and-shoulders detector on a window that peaks early *)

Lemma length_slice lo hi (a : Series) :
  length (PatternDetector.slice lo hi a) = (hi `min` length a - lo)%nat.
Proof. unfold PatternDetector.slice. by rewrite length_drop, length_take. Qed.

Lemma slice_empty lo (a : Series) : PatternDetector.slice lo lo a = [].
Proof.
  unfold PatternDetector.slice. apply drop_ge. rewrite length_take. lia.
Qed.

Lemma take_slice w lo (a : Series) :
  take w (PatternDetector.slice lo (lo + w + w) a)
  = PatternDetector.slice lo (lo + w) a.
Proof.
  unfold PatternDetector.slice. rewrite take_drop_commute, take_take.
  by replace ((lo + w) `min` (lo + w + w))%nat with (lo + w)%nat by lia.
Qed.

Lemma arg_of_lt f (a : Series) :
  a <> [] -> (PatternDetector.arg_of f a < length a)%nat.
Proof.
  intros Ha. destruct a as [|x a']; [done|]. unfold PatternDetector.arg_of.
  destruct (list_find _ (x :: a')) as [[i y]|] eqn:E; [|cbn; lia].
  apply list_find_Some in E as (Hi & _). by apply lookup_lt_Some in Hi.
Qed.

(** The maximum of a finite array is one of its elements and bounds
    them all. *)
Lemma np_max_fin (l : Series) : forall a0,
  Forall is_finite l ->
  exists M,
    foldl PatternDetector.np_fmax (Fin a0) l = Fin M
    /\ Fin M ∈ Fin a0 :: l
    /\ Forall (bounded_by M) (Fin a0 :: l).
Proof.
  induction l as [|x l IH]; intros a0 Hl.
  - exists a0. split; [done|]. split; [by left|].
    constructor; [|done]. exists a0. split; [done|lra].
  - apply Forall_cons in Hl as [Hx Hl]. destruct x as [| |q|]; try done.
    cbn [foldl]. unfold PatternDetector.np_fmax at 2. cbn [Float.isnan].
    destruct (Float.lt (Fin a0) (Fin q)) eqn:E.
    + apply float_lt_fin in E.
      destruct (IH q Hl) as (M & -> & Hin & Hall).
      exists M. split; [done|]. split; [by right|].
      apply Forall_cons in Hall as [(b & Hb & HbM) Hall].
      injection Hb as <-.
      constructor; [exists a0; split; [done|lra]|].
      constructor; [exists q; split; [done|lra]|done].
    + assert (q <= a0)%Q as Hq.
      { destruct (Qlt_le_dec a0 q) as [Hlt|Hle]; [|done].
        apply float_lt_fin in Hlt. congruence. }
      destruct (IH a0 Hl) as (M & -> & Hin & Hall).
      exists M. split; [done|].
      apply Forall_cons in Hall as [(b & Hb & HbM) Hall].
      injection Hb as <-.
      split.
      * apply elem_of_cons in Hin as [Hin|Hin];
          [rewrite Hin; by left|by do 2 right].
      * constructor; [exists a0; split; [done|lra]|].
        constructor; [exists q; split; [done|lra]|done].
Qed.

Lemma bounded_by_finite a (l : Series) : Forall (bounded_by a) l -> Forall is_finite l.
Proof. intros H. eapply Forall_impl; [exact H|]. by intros x (b & -> & _). Qed.

(** The index numpy's argmax returns on a finite array whose largest
    value is [a]: the first index holding a value equal to [a]. *)
Lemma argmax_first (A : Series) j a :
  A !! j = Some (Fin a) -> Forall (bounded_by a) A ->
  exists i0 x,
    PatternDetector.np_argmax A = i0
    /\ A !! i0 = Some (Fin x) /\ (x == a)%Q
    /\ (forall k y, A !! k = Some (Fin y) -> (k < i0)%nat -> ~ (y == a)%Q).
Proof.
  intros Hj Hall. pose proof (bounded_by_finite a A Hall) as Hfin.
  destruct A as [|x0 A']; [done|].
  apply Forall_cons in Hfin as Hfin'. destruct Hfin' as [Hx0 Hfin'].
  destruct x0 as [| |q0|]; try done.
  destruct (np_max_fin A' q0 Hfin') as (M & HM & Hin & HallM).
  assert (M == a)%Q as HMa.
  { rewrite Forall_forall in Hall. destruct (Hall _ Hin) as (b & Hb & Hba).
    injection Hb as <-.
    rewrite Forall_lookup in HallM. destruct (HallM _ _ Hj) as (b & Hb & HbM).
    injection Hb as <-. lra. }
  unfold PatternDetector.np_argmax, PatternDetector.arg_of. rewrite HM.
  destruct (list_find _ (Fin q0 :: A')) as [[i0 y]|] eqn:E.
  - apply list_find_Some in E as (Hi0 & Hsame & Hfirst).
    unfold PatternDetector.same in Hsame. cbn [Float.isnan] in Hsame.
    rewrite Forall_lookup in Hfin. pose proof (Hfin _ _ Hi0) as Hy.
    destruct y as [| |x|]; try done. apply float_eqb_fin in Hsame.
    exists i0, x. split; [done|]. split; [done|]. split; [by rewrite Hsame|].
    intros k z Hk Hlt Hz. apply (Hfirst k (Fin z) Hk Hlt).
    unfold PatternDetector.same. cbn [Float.isnan]. apply float_eqb_fin.
    by rewrite Hz.
  - exfalso. apply list_find_None in E. rewrite Forall_lookup in E.
    apply (E _ _ Hj). unfold PatternDetector.same. cbn [Float.isnan].
    apply float_eqb_fin. by rewrite HMa.
Qed.

Lemma argmax_prefix (A : Series) w j a :
  (j < w)%nat -> A !! j = Some (Fin a) -> Forall (bounded_by a) A ->
  PatternDetector.np_argmax (take w A) = PatternDetector.np_argmax A.
Proof.
  intros Hjw Hj Hall.
  destruct (argmax_first A j a Hj Hall) as (i0 & x & -> & Hi0 & Hx & Hfirst).
  destruct (argmax_first (take w A) j a) as (i1 & y & -> & Hi1 & Hy & Hfirst1).
  { by rewrite lookup_take_lt. }
  { by apply Forall_take. }
  assert (i0 <= j)%nat as H0j.
  { destruct (decide (i0 <= j)%nat); [done|]. exfalso.
    apply (Hfirst j a Hj); [lia|reflexivity]. }
  assert (i1 < w)%nat as H1w.
  { apply lookup_lt_Some in Hi1. rewrite length_take in Hi1. lia. }
  rewrite lookup_take_lt in Hi1 by done.
  destruct (Nat.lt_trichotomy i1 i0) as [Hlt|[->|Hgt]]; [|done|].
  - exfalso. by apply (Hfirst i1 y Hi1 Hlt).
  - exfalso. apply (Hfirst1 i0 x); [|done|done].
    rewrite lookup_take_lt by lia. done.
Qed.
Lemma elem_of_range (w n i : nat) :
  i ∈ PatternDetector.range (Z.of_nat w) (Z.of_nat n - Z.of_nat w)
  <-> (w <= i)%nat /\ (i + w < n)%nat.
Proof.
  unfold PatternDetector.range. rewrite list_elem_of_fmap. split.
  - intros (k & -> & Hk). apply elem_of_seq in Hk. lia.
  - intros [H1 H2]. exists (i - w)%nat. split; [lia|].
    apply elem_of_seq. lia.
Qed.

(** A loop whose passes either raise ValueError or keep the store and the
    length of the array, and one of whose passes raises, raises. *)
Lemma for_range_raises (n : nat) (σ : store) body : forall idxs p,
  length p = n ->
  (forall i p', i ∈ idxs -> length p' = n ->
     body i p' σ = Raise ValueError
     \/ exists p'', body i p' σ = Ok (p'', σ) /\ length p'' = n) ->
  (exists i, i ∈ idxs /\ forall p', body i p' σ = Raise ValueError) ->
  PatternDetector.for_range idxs body p σ = Raise ValueError.
Proof.
  induction idxs as [|i idxs IH]; intros p Hp Hbody (i0 & Hi0 & Hbad).
  - by apply elem_of_nil in Hi0.
  - cbn [PatternDetector.for_range]. rewrite bind_run.
    destruct (Hbody i p) as [->|(p'' & E & Hl)]; [by left|done|done|].
    rewrite E. apply IH; [done| |].
    + intros i' p' Hi' Hp'. apply Hbody; [by right|done].
    + apply elem_of_cons in Hi0 as [->|Hi0].
      * rewrite Hbad in E. discriminate E.
      * by exists i0.
Qed.

(** A window that peaks in its first half: the left shoulder and the head
    are the same bar, and the slice of lows between them is empty. *)
Lemma head_shoulders_early_peak σ df F high low window i :
  σ !! df = Some F ->
  columns F !! "high" = Some high -> columns F !! "low" = Some low ->
  (window <= i)%nat -> (i + window < nrows F)%nat ->
  peak_in_left_half window i high ->
  PatternDetector.detect_head_shoulders df window σ = Raise ValueError.
Proof.
  intros HF Hhigh Hlow Hwi Hin (j & a & Hjw & Hj & Hall).
  unfold PatternDetector.detect_head_shoulders.
  rewrite bind_run, (len_plain _ _ _ HF).
  rewrite bind_run, (getcol_plain _ _ _ _ _ HF Hhigh).
  rewrite bind_run, (getcol_plain _ _ _ _ _ HF Hlow).
  apply (for_range_raises (nrows F)).
  - by rewrite length_replicate.
  - intros i' p' Hi' Hp'. apply elem_of_range in Hi' as [H1 H2].
    unfold PatternDetector.np_max, PatternDetector.np_min,
      PatternDetector.np_reduce.
    rewrite bind_run.
    destruct (PatternDetector.slice (i' - window) i' high) as [|x1 l1];
      [by left|].
    rewrite ret_run, bind_run.
    destruct (PatternDetector.slice (i' - window) (i' + window) high)
      as [|x2 l2]; [by left|].
    rewrite ret_run, bind_run.
    destruct (PatternDetector.slice i' (i' + window) high) as [|x3 l3] eqn:E3;
      [by left|].
    rewrite ret_run, bind_run. cbv zeta.
    destruct (PatternDetector.slice _ _ low) as [|x4 l4]; [by left|].
    rewrite ret_run.
    match goal with |- context [if ?c then _ else _] => destruct c end;
      [|right; eexists; by split].
    unfold PatternDetector.set_item.
    destruct (Nat.ltb_spec (i' + PatternDetector.np_argmax (x3 :: l3))
                (length p')) as [Hlt|Hge].
    + right. eexists. split; [reflexivity|]. by rewrite length_insert.
    + exfalso.
      assert (PatternDetector.np_argmax (x3 :: l3) < length (x3 :: l3))%nat
        as Harg by (by apply arg_of_lt).
      assert (length (x3 :: l3) <= window)%nat as Hlen
        by (rewrite <- E3, length_slice; lia).
      lia.
  - exists i. split; [by apply elem_of_range|]. intros p'.
    unfold PatternDetector.np_max, PatternDetector.np_min,
      PatternDetector.np_reduce.
    rewrite bind_run.
    destruct (PatternDetector.slice (i - window) i high) as [|x1 l1] eqn:E1;
      [done|].
    rewrite ret_run, bind_run.
    destruct (PatternDetector.slice (i - window) (i + window) high)
      as [|x2 l2] eqn:E2; [done|].
    rewrite ret_run, bind_run.
    destruct (PatternDetector.slice i (i + window) high) as [|x3 l3];
      [done|].
    rewrite ret_run, bind_run. cbv zeta.
    assert (PatternDetector.np_argmax (x1 :: l1)
            = PatternDetector.np_argmax (x2 :: l2)) as ->.
    { rewrite <- E1, <- E2.
      replace i with (i - window + window)%nat at 2 by lia.
      replace (i + window)%nat with (i - window + window + window)%nat by lia.
      rewrite <- take_slice.
      replace (i - window + window + window)%nat with (i + window)%nat by lia.
      rewrite E2. by apply (argmax_prefix _ window j a). }
    by rewrite slice_empty.
Qed.

(** X16: detect_head_shoulders raises ValueError whenever, for some bar
    of its loop, the highest high of the window around the bar lies in
    the first half of the window: the left shoulder and the head are then
    the same bar, and the minimum of the empty slice of lows between them
    does not exist. *)
Theorem head_shoulders_raises_on_early_peak σ df F high low window i :
  σ !! df = Some F ->
  columns F !! "high" = Some high -> columns F !! "low" = Some low ->
  (window <= i)%nat -> (i + window < nrows F)%nat ->
  peak_in_left_half window i high ->
  PatternDetector.detect_head_shoulders df window σ = Raise ValueError.
Proof. apply head_shoulders_early_peak. Qed.

Lemma head_shoulders_raises_on_early_peak_witness :
  PatternDetector.detect_head_shoulders 0 1 [falling_highs] = Raise ValueError.
Proof.
  apply (head_shoulders_raises_on_early_peak [falling_highs] 0 falling_highs
           [Fin 13; Fin 12; Fin 11] [Fin 11; Fin 10; Fin 9] 1 1);
    try reflexivity; try (cbn; lia).
  exists 0%nat, 13%Q. split; [lia|]. split; [reflexivity|].
  repeat (constructor; [eexists; split; [reflexivity|]; by vm_compute|]).
  constructor.
Defined.
(** ** Support and resistance *)

(** A level loop on a local table. *)
Lemma level_loop_run σ col key levels : forall τ i F price acc,
  col <> key ->
  τ !! i = Some F ->
  columns F !! col = Some price ->
  columns F !! key = Some acc ->
  Frame.for_each levels (fun level =>
      x ← Frame.getcol (length σ + i) col;
      Frame.loc_set (length σ + i) (Series.cmp_scalar Float.eqb x level)
        key level) (σ ++ τ)
  = Ok (tt, σ ++ <[i := Frame.with_col key
                           (foldl (LevelColumns.mark price) acc levels) F]> τ).
Proof.
  induction levels as [|level levels IH]; intros τ i F price acc Hne HF Hcol Hkey.
  - cbn. by rewrite with_col_id, list_insert_id.
  - cbn [Frame.for_each foldl]. rewrite bind_run, bind_run.
    rewrite getcol_local, HF, Hcol, loc_set_local, HF, Hkey.
    pose proof (lookup_lt_Some _ _ _ HF) as Hi.
    erewrite IH; [| done | by apply list_lookup_insert_eq
                 | by rewrite columns_with_col, lookup_insert_ne
                 | by rewrite columns_with_col, lookup_insert_eq ].
    by rewrite list_insert_insert_eq, with_col_twice.
Qed.

Lemma identify_support_resistance_run σ df F high low window threshold :
  σ !! df = Some F ->
  columns F !! "high" = Some high -> columns F !! "low" = Some low ->
  exists F1 F2,
    PatternDetector.identify_support_resistance df window threshold σ
    = Ok ((length σ + 1)%nat, σ ++ [F1; F2])
    /\ nrows F2 = nrows F
    /\ columns F2 !! "resistance"
       = Some (LevelColumns.marked (nrows F) high
                 (LevelColumns.resistance_levels window threshold high))
    /\ columns F2 !! "support"
       = Some (LevelColumns.marked (nrows F) low
                 (LevelColumns.support_levels window threshold low))
    /\ columns F2 !! "pivot_high" = None
    /\ columns F2 !! "pivot_low" = None
    /\ forall k,
         k ∉ ["resistance"; "support"; "pivot_high"; "pivot_low"] ->
         columns F2 !! k = columns F !! k.
Proof.
  intros HF Hhigh Hlow.
  assert (E : PatternDetector.identify_support_resistance df window threshold σ
              = PatternDetector.identify_support_resistance df window threshold
                  (σ ++ []))
    by (by rewrite app_nil_r).
  rewrite E; clear E. unfold PatternDetector.identify_support_resistance.
  step HF. repeat step HF.
  rewrite bind_run.
  erewrite (level_loop_run σ "high" "resistance" _ _ 0);
    [|done|reflexivity|by lk|by lk].
  reduce_store. rewrite bind_run.
  erewrite (level_loop_run σ "low" "support" _ _ 0);
    [|done|reflexivity|by lk|by lk].
  reduce_store.
  rewrite drop_cols_local. reduce_store.
  rewrite (proj2 (list_find_None _ _)).
  2: { repeat constructor; lk; done. }
  eexists _, _. split; [reflexivity|]. cbn [nrows columns foldr].
  split; [done|].
  split; [rewrite !lookup_delete_ne by done; lk; reflexivity|].
  split; [rewrite !lookup_delete_ne by done; lk; reflexivity|].
  split; [by rewrite lookup_delete_eq|].
  split; [by rewrite lookup_delete_ne, lookup_delete_eq|].
  intros k Hk.
  rewrite !lookup_delete_ne, !lookup_insert_ne; [done|..];
    intros E; apply Hk; rewrite <- E; repeat first [by left | right].
Qed.
(** A marked row is NaN or a level equal to the price of the row. *)
Lemma marked_rows (price levels : Series) : forall acc t h,
  price !! t = Some h ->
  (exists x, acc !! t = Some x /\ (x = NaN \/ Float.eqb h x = true)) ->
  exists x, foldl (LevelColumns.mark price) acc levels !! t = Some x
            /\ (x = NaN \/ Float.eqb h x = true).
Proof.
  induction levels as [|level levels IH]; intros acc t h Hh Hacc; [done|].
  cbn [foldl]. apply IH; [done|].
  destruct Hacc as (x & Hx & Hrow).
  unfold LevelColumns.mark.
  rewrite (lookup_assign_where _ _ _ _ (Float.eqb h level) x);
    [|by apply lookup_cmp_scalar|done].
  eexists. split; [reflexivity|].
  destruct (Float.eqb h level) eqn:E; [by right|done].
Qed.

(** X17: identify_support_resistance writes a level only on the bars
    whose own price equals it.  At every row the resistance is NaN or
    equal to the high of the row, and the support is NaN or equal to the
    low of the row; the two pivot columns are not in the returned table. *)
Theorem levels_sit_on_their_own_bar σ df F high low window threshold t h l :
  σ !! df = Some F ->
  columns F !! "high" = Some high -> columns F !! "low" = Some low ->
  high !! t = Some h -> low !! t = Some l -> (t < nrows F)%nat ->
  exists r σ' F' res sup,
    PatternDetector.identify_support_resistance df window threshold σ
    = Ok (r, σ')
    /\ σ' !! r = Some F'
    /\ cell F' "resistance" t = Some res
    /\ (res = NaN \/ Float.eqb h res = true)
    /\ cell F' "support" t = Some sup
    /\ (sup = NaN \/ Float.eqb l sup = true)
    /\ columns F' !! "pivot_high" = None /\ columns F' !! "pivot_low" = None.
Proof.
  intros HF Hhigh Hlow Hh Hl Ht.
  destruct (identify_support_resistance_run σ df F high low window threshold
              HF Hhigh Hlow)
    as (F1 & F2 & Hrun & _ & Hres & Hsup & Hp1 & Hp2 & _).
  destruct (marked_rows high
              (LevelColumns.resistance_levels window threshold high)
              (replicate (nrows F) NaN) t h Hh) as (res & Er & Hr).
  { exists NaN. split; [by apply lookup_replicate_2|by left]. }
  destruct (marked_rows low
              (LevelColumns.support_levels window threshold low)
              (replicate (nrows F) NaN) t l Hl) as (sup & Es & Hs).
  { exists NaN. split; [by apply lookup_replicate_2|by left]. }
  exists (length σ + 1)%nat, (σ ++ [F1; F2]), F2, res, sup.
  split; [exact Hrun|]. split; [by rewrite lookup_local|].
  unfold cell. rewrite Hres, Hsup. cbn. by repeat split.
Qed.

Lemma levels_sit_on_their_own_bar_witness :
  exists r σ' F' res sup,
    PatternDetector.identify_support_resistance 0 2 (Fin 0.02) [bars_high_low]
    = Ok (r, σ')
    /\ σ' !! r = Some F'
    /\ cell F' "resistance" 1 = Some res
    /\ (res = NaN \/ Float.eqb (Fin 12) res = true)
    /\ cell F' "support" 1 = Some sup
    /\ (sup = NaN \/ Float.eqb (Fin 10) sup = true)
    /\ columns F' !! "pivot_high" = None /\ columns F' !! "pivot_low" = None.
Proof.
  apply (levels_sit_on_their_own_bar [bars_high_low] 0 bars_high_low
           [Fin 11; Fin 12; Fin 13] [Fin 9; Fin 10; Fin 11] 2 (Fin 0.02) 1);
    try reflexivity.
  cbn. lia.
Defined.

(** On fewer bars than the window no centered window is full. *)
Lemma rolling_center_short agg w (s : Series) :
  (length s < w)%nat ->
  Series.rolling_center agg w s = replicate (length s) NaN.
Proof.
  intros Hs. unfold Series.rolling_center. apply list_eq. intros t.
  rewrite list_lookup_fmap.
  destruct (decide (t < length s)%nat) as [Ht|Ht].
  - rewrite lookup_seq_lt, (lookup_replicate_2 _ _ _ Ht) by done. cbn. f_equal.
    unfold Series.full_window.
    pose proof (length_valid (Series.window_centered w t s)) as Hv.
    assert (length (Series.window_centered w t s) <= length s)%nat as Hw.
    { unfold Series.window_centered.
      destruct (_ <? _)%nat; [|cbn; lia].
      unfold Series.window_at. rewrite length_drop, length_take. lia. }
    destruct (Nat.ltb_spec (length (Series.valid (Series.window_centered w t s))) w);
      [done|lia].
  - rewrite lookup_seq_ge by lia. symmetry. apply lookup_replicate_None. lia.
Qed.

Lemma eqb_nan_r x : Float.eqb x NaN = false.
Proof. by destruct x. Qed.

Lemma select_none {A} (mask : list bool) : forall (s : list A),
  Forall (fun b => b = false) mask -> Backtester.select mask s = [].
Proof.
  induction mask as [|m mask IH]; intros [|x s] Hm; try done.
  apply Forall_cons in Hm as [-> Hm]. cbn. by apply IH.
Qed.

Lemma no_pivot (price : Series) n :
  Backtester.select (Series.cmp2 Float.eqb price (replicate n NaN)) price = [].
Proof.
  apply select_none. unfold Series.cmp2. apply Forall_lookup. intros t b Hb.
  rewrite lookup_zip_with in Hb.
  destruct (price !! t) as [x|]; [|done]. cbn in Hb.
  destruct (replicate n NaN !! t) as [y|] eqn:E; [|done].
  apply lookup_replicate in E as [-> _]. cbn in Hb. injection Hb as <-.
  apply eqb_nan_r.
Qed.

(** X18: on fewer bars than the window, identify_support_resistance finds
    no pivot bar: the support and resistance columns it returns are NaN
    at every row. *)
Theorem no_levels_on_short_series σ df F high low window threshold :
  σ !! df = Some F ->
  columns F !! "high" = Some high -> columns F !! "low" = Some low ->
  (length high < window)%nat -> (length low < window)%nat ->
  exists r σ' F',
    PatternDetector.identify_support_resistance df window threshold σ
    = Ok (r, σ')
    /\ σ' !! r = Some F'
    /\ columns F' !! "resistance" = Some (replicate (nrows F) NaN)
    /\ columns F' !! "support" = Some (replicate (nrows F) NaN).
Proof.
  intros HF Hhigh Hlow Hh Hl.
  destruct (identify_support_resistance_run σ df F high low window threshold
              HF Hhigh Hlow)
    as (F1 & F2 & Hrun & _ & Hres & Hsup & _).
  exists (length σ + 1)%nat, (σ ++ [F1; F2]), F2.
  split; [exact Hrun|]. split; [by rewrite lookup_local|].
  rewrite Hres, Hsup.
  unfold LevelColumns.resistance_levels, LevelColumns.support_levels,
    LevelColumns.resistance_candidates, LevelColumns.support_candidates,
    LevelColumns.pivot_high, LevelColumns.pivot_low.
  rewrite !rolling_center_short, !no_pivot by done. done.
Qed.

Lemma no_levels_on_short_series_witness :
  exists r σ' F',
    PatternDetector.identify_support_resistance 0 20 (Fin 0.02) [bars_high_low]
    = Ok (r, σ')
    /\ σ' !! r = Some F'
    /\ columns F' !! "resistance" = Some (replicate (nrows bars_high_low) NaN)
    /\ columns F' !! "support" = Some (replicate (nrows bars_high_low) NaN).
Proof.
  apply (no_levels_on_short_series [bars_high_low] 0 bars_high_low
           [Fin 11; Fin 12; Fin 13] [Fin 9; Fin 10; Fin 11] 20 (Fin 0.02));
    try reflexivity; cbn; lia.
Defined.
(** ** The pattern stage on a short series *)

Section ShortSeries.
Context (σ : store) (df : ref) (F : DataFrame) (high low : Series) (w : nat).
Hypothesis HF : σ !! df = Some F.
Hypothesis Hhigh : columns F !! "high" = Some high.
Hypothesis Hlow : columns F !! "low" = Some low.
Hypothesis Hshort : (nrows F <= 2 * w)%nat.

Lemma head_shoulders_short :
  PatternDetector.detect_head_shoulders df w σ
  = Ok (replicate (nrows F) (Fin 0), σ).
Proof.
  unfold PatternDetector.detect_head_shoulders.
  rewrite bind_run, (len_plain _ _ _ HF).
  rewrite bind_run, (getcol_plain _ _ _ _ _ HF Hhigh).
  rewrite bind_run, (getcol_plain _ _ _ _ _ HF Hlow).
  by rewrite (range_short _ _ Hshort).
Qed.

Lemma double_top_bottom_short pattern_type :
  PatternDetector.detect_double_top_bottom df pattern_type w σ
  = Ok (replicate (nrows F) (Fin 0), σ).
Proof.
  unfold PatternDetector.detect_double_top_bottom.
  rewrite bind_run, (len_plain _ _ _ HF).
  rewrite bind_run, (getcol_plain _ _ _ _ _ HF Hhigh).
  rewrite bind_run, (getcol_plain _ _ _ _ _ HF Hlow).
  by rewrite (range_short _ _ Hshort).
Qed.

Lemma triangle_short kind :
  PatternDetector.detect_triangle_patterns df kind w σ
  = Ok (replicate (nrows F) (Fin 0), σ).
Proof.
  unfold PatternDetector.detect_triangle_patterns.
  rewrite bind_run, (len_plain _ _ _ HF).
  rewrite bind_run, (getcol_plain _ _ _ _ _ HF Hhigh).
  rewrite bind_run, (getcol_plain _ _ _ _ _ HF Hlow).
  by rewrite (range_short _ _ Hshort).
Qed.

End ShortSeries.

Ltac short_detector L Hhigh Hlow Hn :=
  rewrite bind_run;
  erewrite L;
    [ | rewrite lookup_local; reflexivity | lk; exact Hhigh | lk; exact Hlow
      | lk; exact Hn ].

Lemma patterns_short_run σ df F high low :
  σ !! df = Some F ->
  columns F !! "high" = Some high -> columns F !! "low" = Some low ->
  (nrows F <= 60)%nat ->
  exists F0 F1 F2,
    PatternDetector.detect_all_patterns df σ
    = Ok ((length σ + 2)%nat, σ ++ [F0; F1; F2])
    /\ nrows F2 = nrows F
    /\ (forall k,
          k ∈ SignalGenerator.bullish_patterns ++ SignalGenerator.bearish_patterns ->
          columns F2 !! k = Some (replicate (nrows F) (Fin 0)))
    /\ columns F2 !! "resistance"
       = Some (LevelColumns.marked (nrows F) high
                 (LevelColumns.resistance_levels 20 (Fin 0.02) high))
    /\ columns F2 !! "support"
       = Some (LevelColumns.marked (nrows F) low
                 (LevelColumns.support_levels 20 (Fin 0.02) low))
    /\ columns F2 !! "pivot_high" = None
    /\ columns F2 !! "pivot_low" = None
    /\ (forall k,
          k ∉ SignalGenerator.bullish_patterns ++ SignalGenerator.bearish_patterns
              ++ ["resistance"; "support"; "pivot_high"; "pivot_low"] ->
          columns F2 !! k = columns F !! k).
Proof.
  intros HF Hhigh Hlow Hn.
  assert (nrows F <= 2 * 30)%nat as Hn' by lia.
  assert (E : PatternDetector.detect_all_patterns df σ
              = PatternDetector.detect_all_patterns df (σ ++ []))
    by (by rewrite app_nil_r).
  rewrite E; clear E. unfold PatternDetector.detect_all_patterns.
  step HF.
  short_detector head_shoulders_short Hhigh Hlow Hn'. step HF.
  short_detector double_top_bottom_short Hhigh Hlow Hn'. step HF.
  short_detector double_top_bottom_short Hhigh Hlow Hn'. step HF.
  short_detector triangle_short Hhigh Hlow Hn'. step HF.
  short_detector triangle_short Hhigh Hlow Hn'. step HF.
  short_detector triangle_short Hhigh Hlow Hn'. step HF.
  rewrite bind_run.
  match goal with
  | |- context [PatternDetector.identify_support_resistance _ _ _ (σ ++ [?F6])] =>
      destruct (identify_support_resistance_run (σ ++ [F6]) (length σ + 0) F6
                  high low 20 (Fin 0.02))
        as (F1 & F2 & Hrun & Hrows & Hres & Hsup & Hp1 & Hp2 & Hkeep);
        [by rewrite lookup_local|by lk|by lk|];
      exists F6, F1, F2
  end.
  rewrite Hrun, ret_run. rewrite length_app, <- app_assoc. cbn [length app].
  split; [do 2 f_equal; lia|].
  split; [exact Hrows|].
  split; [|split; [exact Hres|split; [exact Hsup|split; [exact Hp1|split;
    [exact Hp2|]]]]].
  - intros k Hk. unfold SignalGenerator.bullish_patterns,
      SignalGenerator.bearish_patterns in Hk. cbn [app] in Hk.
    repeat (apply elem_of_cons in Hk as [->|Hk]);
      try (by apply elem_of_nil in Hk);
      (rewrite Hkeep; [by lk|]);
      intros Hin; repeat (apply elem_of_cons in Hin as [Hin|Hin]; [done|]);
      by apply elem_of_nil in Hin.
  - intros k Hk. unfold SignalGenerator.bullish_patterns,
      SignalGenerator.bearish_patterns in Hk. cbn [app] in Hk.
    rewrite Hkeep.
    + rewrite !columns_with_col.
      rewrite !lookup_insert_ne; [done|..];
        intros E; apply Hk; rewrite <- E; repeat first [by left | right].
    + intros Hin. apply Hk. do 6 right. exact Hin.
Qed.

(** X19: on at most 60 bars the pattern stage raises no error and leaves
    its input as it is.  The table it returns has the six marker columns,
    all zero, a support and a resistance column, and the other columns of
    the input unchanged (a column named pivot_high or pivot_low apart). *)
Theorem patterns_on_short_series σ df F high low :
  σ !! df = Some F ->
  columns F !! "high" = Some high -> columns F !! "low" = Some low ->
  (nrows F <= 60)%nat ->
  exists r σ' F',
    PatternDetector.detect_all_patterns df σ = Ok (r, σ')
    /\ take (length σ) σ' = σ
    /\ σ' !! r = Some F'
    /\ (forall k,
          k ∈ SignalGenerator.bullish_patterns ++ SignalGenerator.bearish_patterns ->
          columns F' !! k = Some (replicate (nrows F) (Fin 0)))
    /\ is_Some (columns F' !! "support")
    /\ is_Some (columns F' !! "resistance")
    /\ (forall k,
          k ∉ SignalGenerator.bullish_patterns ++ SignalGenerator.bearish_patterns
              ++ ["resistance"; "support"; "pivot_high"; "pivot_low"] ->
          columns F' !! k = columns F !! k).
Proof.
  intros HF Hhigh Hlow Hn.
  destruct (patterns_short_run σ df F high low HF Hhigh Hlow Hn)
    as (F0 & F1 & F2 & Hrun & _ & Hmarks & Hres & Hsup & _ & _ & Hkeep).
  exists (length σ + 2)%nat, (σ ++ [F0; F1; F2]), F2.
  split; [exact Hrun|]. split; [by rewrite take_app_length|].
  split; [by rewrite lookup_local|].
  split; [exact Hmarks|]. split; [by eexists|]. split; [by eexists|exact Hkeep].
Qed.

Lemma patterns_on_short_series_witness :
  exists r σ' F',
    PatternDetector.detect_all_patterns 0 [bars_high_low] = Ok (r, σ')
    /\ take (length [bars_high_low]) σ' = [bars_high_low]
    /\ σ' !! r = Some F'
    /\ (forall k,
          k ∈ SignalGenerator.bullish_patterns ++ SignalGenerator.bearish_patterns ->
          columns F' !! k = Some (replicate (nrows bars_high_low) (Fin 0)))
    /\ is_Some (columns F' !! "support")
    /\ is_Some (columns F' !! "resistance")
    /\ (forall k,
          k ∉ SignalGenerator.bullish_patterns ++ SignalGenerator.bearish_patterns
              ++ ["resistance"; "support"; "pivot_high"; "pivot_low"] ->
          columns F' !! k = columns bars_high_low !! k).
Proof.
  apply (patterns_on_short_series [bars_high_low] 0 bars_high_low
           [Fin 11; Fin 12; Fin 13] [Fin 9; Fin 10; Fin 11]);
    try reflexivity.
  cbn. lia.
Defined.

Lemma pattern_stage_early_peak σ df F high low i :
  σ !! df = Some F ->
  columns F !! "high" = Some high -> columns F !! "low" = Some low ->
  (30 <= i)%nat -> (i + 30 < nrows F)%nat ->
  peak_in_left_half 30 i high ->
  PatternDetector.detect_all_patterns df σ = Raise ValueError.
Proof.
  intros HF Hhigh Hlow Hi Hn Hpeak.
  assert (E : PatternDetector.detect_all_patterns df σ
              = PatternDetector.detect_all_patterns df (σ ++ []))
    by (by rewrite app_nil_r).
  rewrite E; clear E. unfold PatternDetector.detect_all_patterns.
  step HF. rewrite bind_run.
  rewrite (head_shoulders_early_peak (σ ++ [F]) (length σ + 0) F high low 30 i);
    [done|by rewrite lookup_local|done..].
Qed.

(** X20: the pattern stage fails as a whole when the head-and-shoulders
    detector does.  On a series of more than 60 bars in which, for some
    bar of the loop, the highest high of the 60 bars around it lies among
    the first 30, detect_all_patterns raises ValueError and returns no
    table. *)
Theorem pattern_stage_raises_on_early_peak σ df F high low i :
  σ !! df = Some F ->
  columns F !! "high" = Some high -> columns F !! "low" = Some low ->
  (30 <= i)%nat -> (i + 30 < nrows F)%nat ->
  peak_in_left_half 30 i high ->
  PatternDetector.detect_all_patterns df σ = Raise ValueError.
Proof. apply pattern_stage_early_peak. Qed.

Lemma pattern_stage_raises_on_early_peak_witness :
  PatternDetector.detect_all_patterns 0 [bars61_falling] = Raise ValueError.
Proof.
  apply (pattern_stage_raises_on_early_peak [bars61_falling] 0 bars61_falling
           ((fun j => Fin (200 - inject_Z (Z.of_nat j))) <$> seq 0 61)
           ((fun j => Fin (190 - inject_Z (Z.of_nat j))) <$> seq 0 61) 30);
    try reflexivity; try (cbn; lia).
  exists 0%nat, 200%Q. split; [lia|]. split; [reflexivity|].
  apply (Forall_forall (bounded_by 200)). intros x Hx.
  apply list_elem_of_lookup in Hx as [k Hk].
  assert (k < 60)%nat as Hlt.
  { apply lookup_lt_Some in Hk. rewrite length_slice in Hk.
    rewrite length_fmap, length_seq in Hk. lia. }
  unfold PatternDetector.slice in Hk.
  rewrite lookup_drop, lookup_take_lt, list_lookup_fmap, lookup_seq_lt in Hk
    by lia.
  injection Hk as <-. eexists. split; [reflexivity|].
  match goal with
  | |- context [Z.of_nat ?n] =>
      assert (0 <= inject_Z (Z.of_nat n))%Q
        by (change 0%Q with (inject_Z 0); rewrite <- Zle_Qle; lia)
  end.
  lra.
Defined.
(** ** The values of the pattern markers *)

Lemma for_range_invariant (P : Series -> Prop) body :
  (forall i p σ1 p' σ2, P p -> body i p σ1 = Ok (p', σ2) -> P p') ->
  forall idxs p σ1 p' σ2,
    P p -> PatternDetector.for_range idxs body p σ1 = Ok (p', σ2) -> P p'.
Proof.
  intros Hbody. induction idxs as [|i idxs IH]; intros p σ1 p' σ2 HP Hrun.
  - injection Hrun as <- <-. exact HP.
  - cbn [PatternDetector.for_range] in Hrun. rewrite bind_run in Hrun.
    destruct (body i p σ1) as [[p1 σ']|] eqn:E; [|discriminate Hrun].
    eapply IH; [|exact Hrun]. by eapply Hbody.
Qed.

Lemma marks_zero vs n : marks vs n (replicate n (Fin 0)).
Proof.
  split; [by rewrite length_replicate|].
  apply Forall_replicate. by left.
Qed.

Lemma marks_set_item vs n i v p σ1 p' σ2 :
  marks vs n p -> v ∈ vs ->
  PatternDetector.set_item i v p σ1 = Ok (p', σ2) -> marks vs n p'.
Proof.
  intros [Hlen Hall] Hv Hset. unfold PatternDetector.set_item in Hset.
  destruct (i <? length p)%nat; [|discriminate Hset].
  injection Hset as <- <-. split; [by rewrite length_insert|].
  apply Forall_insert; [done|by right].
Qed.

Ltac open_bind H :=
  rewrite bind_run in H;
  match type of H with
  | match ?m with _ => _ end = _ =>
      destruct m as [[? ?]|] eqn:?; [|discriminate H]
  end.

Ltac close_pass H HP :=
  first
    [ injection H as <- <-; exact HP
    | eapply marks_set_item; [exact HP| |exact H]; repeat first [by left | right] ].

Ltac detector_start HF H :=
  rewrite bind_run, (len_plain _ _ _ HF) in H;
  open_bind H; open_bind H;
  eapply (for_range_invariant (marks _ _)); [|apply marks_zero|exact H];
  clear H.

(** X21: each detector returns one marker per row, and only its own
    values: 0 or -1 for head and shoulders, double top and descending
    triangle; 0 or 1 for double bottom and ascending triangle; 0, 1 or -1
    for the symmetrical triangle. *)
Theorem pattern_markers_in_range σ df F window :
  σ !! df = Some F ->
  (forall p σ',
     PatternDetector.detect_head_shoulders df window σ = Ok (p, σ') ->
     marks [Fin (-1)] (nrows F) p)
  /\ (forall p σ',
        PatternDetector.detect_double_top_bottom df top window σ = Ok (p, σ') ->
        marks [Fin (-1)] (nrows F) p)
  /\ (forall p σ',
        PatternDetector.detect_double_top_bottom df bottom window σ = Ok (p, σ') ->
        marks [Fin 1] (nrows F) p)
  /\ (forall p σ',
        PatternDetector.detect_triangle_patterns df ascending window σ
        = Ok (p, σ') ->
        marks [Fin 1] (nrows F) p)
  /\ (forall p σ',
        PatternDetector.detect_triangle_patterns df descending window σ
        = Ok (p, σ') ->
        marks [Fin (-1)] (nrows F) p)
  /\ (forall p σ',
        PatternDetector.detect_triangle_patterns df symmetrical window σ
        = Ok (p, σ') ->
        marks [Fin 1; Fin (-1)] (nrows F) p).
Proof.
  intros HF. split; [|split; [|split; [|split; [|split]]]].
  - intros p σ' H. unfold PatternDetector.detect_head_shoulders in H.
    detector_start HF H.
    intros i q σ1 q' σ2 HP Hb. cbv beta zeta in Hb. repeat open_bind Hb.
    match type of Hb with context [if ?c then _ else _] => destruct c end;
      close_pass Hb HP.
  - intros p σ' H. unfold PatternDetector.detect_double_top_bottom in H.
    detector_start HF H.
    intros i q σ1 q' σ2 HP Hb. cbv beta zeta in Hb. repeat open_bind Hb.
    match type of Hb with context [if ?c then _ else _] => destruct c end;
      close_pass Hb HP.
  - intros p σ' H. unfold PatternDetector.detect_double_top_bottom in H.
    detector_start HF H.
    intros i q σ1 q' σ2 HP Hb. cbv beta zeta in Hb. repeat open_bind Hb.
    match type of Hb with context [if ?c then _ else _] => destruct c end;
      close_pass Hb HP.
  - intros p σ' H. unfold PatternDetector.detect_triangle_patterns in H.
    detector_start HF H.
    intros i q σ1 q' σ2 HP Hb. cbv beta zeta in Hb. repeat open_bind Hb.
    match type of Hb with context [if ?c then _ else _] => destruct c end;
      close_pass Hb HP.
  - intros p σ' H. unfold PatternDetector.detect_triangle_patterns in H.
    detector_start HF H.
    intros i q σ1 q' σ2 HP Hb. cbv beta zeta in Hb. repeat open_bind Hb.
    match type of Hb with context [if ?c then _ else _] => destruct c end;
      close_pass Hb HP.
  - intros p σ' H. unfold PatternDetector.detect_triangle_patterns in H.
    detector_start HF H.
    intros i q σ1 q' σ2 HP Hb. cbv beta zeta in Hb.
    match type of Hb with context [if ?c then _ else _] => destruct c end;
      [|close_pass Hb HP].
    repeat open_bind Hb.
    match type of Hb with context [if ?c then _ else _] => destruct c end;
      [|close_pass Hb HP].
    open_bind Hb.
    match type of Hb with context [match ?c with Some _ => _ | None => _ end] =>
      destruct c as [x|]; [|discriminate Hb] end.
    match type of Hb with context [if ?c then _ else _] => destruct c end;
      close_pass Hb HP.
Qed.

Lemma pattern_markers_in_range_witness :
  (forall p σ',
     PatternDetector.detect_head_shoulders 0 30 [bars62] = Ok (p, σ') ->
     marks [Fin (-1)] (nrows bars62) p)
  /\ (forall p σ',
        PatternDetector.detect_double_top_bottom 0 top 30 [bars62] = Ok (p, σ') ->
        marks [Fin (-1)] (nrows bars62) p)
  /\ (forall p σ',
        PatternDetector.detect_double_top_bottom 0 bottom 30 [bars62]
        = Ok (p, σ') ->
        marks [Fin 1] (nrows bars62) p)
  /\ (forall p σ',
        PatternDetector.detect_triangle_patterns 0 ascending 30 [bars62]
        = Ok (p, σ') ->
        marks [Fin 1] (nrows bars62) p)
  /\ (forall p σ',
        PatternDetector.detect_triangle_patterns 0 descending 30 [bars62]
        = Ok (p, σ') ->
        marks [Fin (-1)] (nrows bars62) p)
  /\ (forall p σ',
        PatternDetector.detect_triangle_patterns 0 symmetrical 30 [bars62]
        = Ok (p, σ') ->
        marks [Fin 1; Fin (-1)] (nrows bars62) p).
Proof.
  apply (pattern_markers_in_range [bars62] 0 bars62 30). reflexivity.
Defined.
(** ** The analysis object *)

(** The indicator stage keeps the rows and the other columns of the table
    it extends. *)
Lemma calculate_all_indicators_frame `{NumLib} σ df F close :
  σ !! df = Some F -> columns F !! "close" = Some close ->
  exists F',
    IndicatorCalculator.calculate_all_indicators df σ = Ok (df, <[df := F']> σ)
    /\ nrows F' = nrows F
    /\ Forall (fun k => is_Some (columns F' !! k)) indicator_columns
    /\ forall k, k ∉ indicator_columns -> columns F' !! k = columns F !! k.
Proof.
  intros HF Hclose. pose proof (lookup_lt_Some _ _ _ HF) as Hr.
  replace (IndicatorCalculator.calculate_all_indicators df σ)
    with (IndicatorCalculator.calculate_all_indicators df (<[df := F]> σ))
    by (by rewrite list_insert_id).
  unfold IndicatorCalculator.calculate_all_indicators,
    IndicatorCalculator.add_moving_averages, IndicatorCalculator.add_rsi,
    IndicatorCalculator.add_bollinger_bands, IndicatorCalculator.add_macd.
  rewrite rsi_column_14.
  repeat inplace_step Hr.
  eexists. split; [reflexivity|]. split; [by lk|]. split.
  - unfold indicator_columns. repeat constructor; lk; by eexists.
  - intros k Hk. unfold indicator_columns in Hk. rewrite !columns_with_col.
    rewrite !lookup_insert_ne; [done|..];
      intros E; apply Hk; rewrite <- E; repeat first [by left | right].
Qed.

(** With the ten indicator columns and no support column the generator
    stops at the support rule. *)
Lemma generate_signals_without_support σ data df :
  σ !! data = Some df ->
  Forall (fun k => is_Some (columns df !! k)) (take 10 enriched_columns) ->
  columns df !! "support" = None ->
  SignalGenerator.generate_signals data σ = Raise (KeyError "support").
Proof.
  intros Hdf Hcols Hnone.
  unfold enriched_columns in Hcols. cbn [take] in Hcols.
  repeat rewrite Forall_cons in Hcols.
  destruct Hcols as ([ema_12 H1] & [ema_26 H2] & [sma_20 H3] & [sma_50 H4]
    & [macd H5] & [macd_signal H6] & [rsi_14 H7] & [close H8] & [bb_lower H9]
    & [bb_upper H10] & _).
  assert (E : SignalGenerator.generate_signals data σ
              = SignalGenerator.generate_signals data (σ ++ []))
    by (by rewrite app_nil_r).
  rewrite E; clear E. unfold SignalGenerator.generate_signals.
  do 2 step Hdf.
  repeat first
    [ step Hdf
    | rewrite bind_run;
      erewrite (pattern_loop_run _ _ _ _ _ _ _ _ Hdf) by (lk; reflexivity);
      reduce_store ].
  by rewrite Hnone.
Qed.

Section Analysis.
Context `{NumLib} (fetch : M ref).
Context (σ σ1 : store) (raw : ref) (F : DataFrame) (close : Series).
Hypothesis Hfetch : fetch σ = Ok (raw, σ1).
Hypothesis HF : σ1 !! raw = Some F.
Hypothesis Hclose : columns F !! "close" = Some close.

Lemma add_technical_indicators_run :
  exists F',
    TechnicalAnalysis.add_technical_indicators fetch TechnicalAnalysis.new σ
    = Ok ((raw, TechnicalAnalysis.mk (Some raw) (Some raw) None None),
          <[raw := F']> σ1)
    /\ nrows F' = nrows F
    /\ Forall (fun k => is_Some (columns F' !! k)) indicator_columns
    /\ forall k, k ∉ indicator_columns -> columns F' !! k = columns F !! k.
Proof.
  destruct (calculate_all_indicators_frame σ1 raw F close HF Hclose)
    as (F' & Hrun & Hn & Hcols & Hkeep).
  exists F'. split; [|done].
  unfold TechnicalAnalysis.add_technical_indicators, TechnicalAnalysis.new,
    TechnicalAnalysis.fetch_data.
  cbn [TechnicalAnalysis.raw_data TechnicalAnalysis.processed_data
       TechnicalAnalysis.signals TechnicalAnalysis.performance].
  rewrite !bind_run, Hfetch. cbn. by rewrite !bind_run, Hrun.
Qed.

End Analysis.
(** The methods on an object whose attribute is already set. *)
Section MethodSteps.
Context `{NumLib} (fetch : M ref).
Import TechnicalAnalysis.

Lemma fetch_data_run self σ raw σ1 :
  fetch σ = Ok (raw, σ1) ->
  fetch_data fetch self σ
  = Ok ((raw, mk (Some raw) (processed_data self) (signals self)
                (performance self)), σ1).
Proof. intros Hf. unfold fetch_data. by rewrite bind_run, Hf. Qed.

Lemma add_technical_indicators_some self raw σ :
  raw_data self = Some raw ->
  add_technical_indicators fetch self σ
  = match IndicatorCalculator.calculate_all_indicators raw σ with
    | Ok (p, σ') =>
        Ok ((p, mk (raw_data self) (Some p) (signals self) (performance self)), σ')
    | Raise e => Raise e
    end.
Proof.
  intros Hr. destruct self as [r0 p0 s0 pf]. cbn in Hr. subst.
  unfold add_technical_indicators. cbn [raw_data processed_data signals performance].
  rewrite bind_run, ret_run. cbv beta iota. cbn [raw_data processed_data signals performance]. rewrite bind_run. by destruct (IndicatorCalculator.calculate_all_indicators _ _)
    as [[p σ']|].
Qed.

Lemma detect_chart_patterns_some self p σ :
  processed_data self = Some p ->
  detect_chart_patterns fetch self σ
  = match PatternDetector.detect_all_patterns p σ with
    | Ok (p', σ') =>
        Ok ((p', mk (raw_data self) (Some p') (signals self) (performance self)),
            σ')
    | Raise e => Raise e
    end.
Proof.
  intros Hp. destruct self as [r0 p0 s0 pf]. cbn in Hp. subst.
  unfold detect_chart_patterns. cbn [raw_data processed_data signals performance].
  rewrite bind_run, ret_run. cbv beta iota. cbn [raw_data processed_data signals performance]. rewrite bind_run. by destruct (PatternDetector.detect_all_patterns _ _)
    as [[p' σ']|].
Qed.

Lemma generate_signals_some self p σ :
  processed_data self = Some p ->
  generate_signals fetch self σ
  = match SignalGenerator.generate_signals p σ with
    | Ok (s, σ') =>
        Ok ((s, mk (raw_data self) (processed_data self) (Some s)
                  (performance self)), σ')
    | Raise e => Raise e
    end.
Proof.
  intros Hp. destruct self as [r0 p0 s0 pf]. cbn in Hp. subst.
  unfold generate_signals. cbn [raw_data processed_data signals performance].
  rewrite bind_run, ret_run. cbv beta iota. cbn [raw_data processed_data signals performance]. rewrite bind_run. by destruct (SignalGenerator.generate_signals _ _)
    as [[s σ']|].
Qed.

Lemma backtest_some self p s ic σ :
  processed_data self = Some p -> signals self = Some s ->
  backtest fetch ic self σ
  = match Backtester.run_backtest p s ic (Fin 0.001) σ with
    | Ok (perf, σ') =>
        Ok ((perf, mk (raw_data self) (processed_data self) (signals self)
                     (Some perf)), σ')
    | Raise e => Raise e
    end.
Proof.
  intros Hp Hs. destruct self as [r0 p0 s0 pf]. cbn in Hp, Hs. subst.
  unfold backtest. cbn [raw_data processed_data signals performance].
  rewrite bind_run, ret_run. cbv beta iota. cbn [raw_data processed_data signals performance]. rewrite bind_run. by destruct (Backtester.run_backtest _ _ _ _ _)
    as [[perf σ']|].
Qed.

End MethodSteps.

(** X22: after add_technical_indicators on a fresh analysis object,
    raw_data and processed_data are one and the same table, and that
    table carries the eleven indicator columns: the object keeps no
    table of the bars as they were fetched. *)
Theorem processed_data_aliases_raw_data `{NumLib} (fetch : M ref) σ σ1 raw F
    close :
  fetch σ = Ok (raw, σ1) -> σ1 !! raw = Some F ->
  columns F !! "close" = Some close ->
  exists self σ' F',
    TechnicalAnalysis.add_technical_indicators fetch TechnicalAnalysis.new σ
    = Ok ((raw, self), σ')
    /\ TechnicalAnalysis.raw_data self = Some raw
    /\ TechnicalAnalysis.processed_data self = Some raw
    /\ σ' !! raw = Some F'
    /\ Forall (fun k => is_Some (columns F' !! k)) indicator_columns.
Proof.
  intros Hfetch HF Hclose.
  destruct (add_technical_indicators_run fetch σ σ1 raw F close Hfetch HF Hclose)
    as (F' & Hrun & _ & Hcols & _).
  eexists _, _, F'. split; [exact Hrun|]. cbn.
  split; [done|]. split; [done|]. split; [|done].
  apply list_lookup_insert_eq. by apply lookup_lt_Some in HF.
Qed.

Lemma processed_data_aliases_raw_data_witness :
  exists self σ' F',
    TechnicalAnalysis.add_technical_indicators (H := approx_lib)
      (Frame.alloc closes3) TechnicalAnalysis.new []
    = Ok ((0%nat, self), σ')
    /\ TechnicalAnalysis.raw_data self = Some 0%nat
    /\ TechnicalAnalysis.processed_data self = Some 0%nat
    /\ σ' !! 0%nat = Some F'
    /\ Forall (fun k => is_Some (columns F' !! k)) indicator_columns.
Proof.
  apply (processed_data_aliases_raw_data (H := approx_lib) (Frame.alloc closes3)
           [] [closes3] 0 closes3 [Fin 100; Fin 101; Fin 102]); reflexivity.
Defined.

(** X23: generate_signals tests only whether processed_data is None.
    Called after add_technical_indicators and before
    detect_chart_patterns, it skips the pattern stage and raises KeyError
    for the support column, which only that stage adds. *)
Theorem signals_before_patterns_raise `{NumLib} (fetch : M ref) σ σ1 raw F
    close :
  fetch σ = Ok (raw, σ1) -> σ1 !! raw = Some F ->
  columns F !! "close" = Some close -> columns F !! "support" = None ->
  ('(_, self) ← TechnicalAnalysis.add_technical_indicators fetch
                  TechnicalAnalysis.new;
   TechnicalAnalysis.generate_signals fetch self) σ
  = Raise (KeyError "support").
Proof.
  intros Hfetch HF Hclose Hnone.
  destruct (add_technical_indicators_run fetch σ σ1 raw F close Hfetch HF Hclose)
    as (F' & Hrun & _ & Hcols & Hkeep).
  rewrite bind_run, Hrun.
  unfold TechnicalAnalysis.generate_signals.
  cbn [TechnicalAnalysis.raw_data TechnicalAnalysis.processed_data
       TechnicalAnalysis.signals TechnicalAnalysis.performance].
  rewrite bind_run, ret_run, bind_run.
  rewrite (generate_signals_without_support _ raw F'); [done| | |].
  - apply list_lookup_insert_eq. by apply lookup_lt_Some in HF.
  - unfold indicator_columns in Hcols. repeat rewrite Forall_cons in Hcols.
    destruct Hcols as (C1 & C2 & C3 & C4 & C5 & C6 & C7 & C8 & C9 & C10 & C11 & _).
    unfold enriched_columns. cbn [take].
    assert (is_Some (columns F' !! "close")) as Cc.
    { rewrite Hkeep, Hclose; [by eexists|].
      unfold indicator_columns. intros Hin.
      repeat (apply elem_of_cons in Hin as [Hin|Hin]; [done|]).
      by apply elem_of_nil in Hin. }
    repeat constructor; assumption.
  - rewrite Hkeep; [done|].
    unfold indicator_columns. intros Hin.
    repeat (apply elem_of_cons in Hin as [Hin|Hin]; [done|]).
    by apply elem_of_nil in Hin.
Qed.

Lemma signals_before_patterns_raise_witness :
  ('(_, self) ← TechnicalAnalysis.add_technical_indicators (H := approx_lib)
                  (Frame.alloc closes3) TechnicalAnalysis.new;
   TechnicalAnalysis.generate_signals (H := approx_lib) (Frame.alloc closes3)
     self) []
  = Raise (KeyError "support").
Proof.
  apply (signals_before_patterns_raise (H := approx_lib) (Frame.alloc closes3)
           [] [closes3] 0 closes3 [Fin 100; Fin 101; Fin 102]); reflexivity.
Defined.

(** X24: run_full_analysis raises ValueError on every fetched series of
    more than 60 bars in which, for some bar of the detector's loop, the
    highest high of the 60 bars around it lies among the first 30: the
    failure of the head-and-shoulders detector ends the whole analysis. *)
Theorem full_analysis_raises_on_early_peak `{NumLib} (fetch : M ref) σ σ1 raw F
    close high low i :
  fetch σ = Ok (raw, σ1) -> σ1 !! raw = Some F ->
  columns F !! "close" = Some close ->
  columns F !! "high" = Some high -> columns F !! "low" = Some low ->
  (30 <= i)%nat -> (i + 30 < nrows F)%nat ->
  peak_in_left_half 30 i high ->
  TechnicalAnalysis.run_full_analysis fetch TechnicalAnalysis.new σ
  = Raise ValueError.
Proof.
  intros Hfetch HF Hclose Hhigh Hlow Hi Hn Hpeak.
  destruct (calculate_all_indicators_frame σ1 raw F close HF Hclose)
    as (F' & Hrun & Hrows & _ & Hkeep).
  assert (forall k, k ∈ ["high"; "low"] -> k ∉ indicator_columns) as Hout.
  { intros k Hk Hin. unfold indicator_columns in Hin.
    repeat (apply elem_of_cons in Hk as [->|Hk]);
      try (by apply elem_of_nil in Hk);
      repeat (apply elem_of_cons in Hin as [Hin|Hin]; [done|]);
      by apply elem_of_nil in Hin. }
  unfold TechnicalAnalysis.run_full_analysis.
  rewrite bind_run, (fetch_data_run fetch _ σ raw σ1 Hfetch). cbv beta iota.
  rewrite bind_run, (add_technical_indicators_some fetch _ raw) by reflexivity.
  rewrite Hrun. cbv beta iota.
  rewrite bind_run, (detect_chart_patterns_some fetch _ raw) by reflexivity.
  rewrite (pattern_stage_early_peak _ raw F' high low i); [done| | | |done| |done].
  - apply list_lookup_insert_eq. by apply lookup_lt_Some in HF.
  - rewrite Hkeep; [done|]. apply Hout. by left.
  - rewrite Hkeep; [done|]. apply Hout. by right; left.
  - by rewrite Hrows.
Qed.

Lemma falling_peak :
  peak_in_left_half 30 30
    ((fun j => Fin (200 - inject_Z (Z.of_nat j))) <$> seq 0 61).
Proof.
  exists 0%nat, 200%Q. split; [lia|]. split; [reflexivity|].
  apply (Forall_forall (bounded_by 200)). intros x Hx.
  apply list_elem_of_lookup in Hx as [k Hk].
  assert (k < 60)%nat as Hlt.
  { apply lookup_lt_Some in Hk. rewrite length_slice in Hk.
    rewrite length_fmap, length_seq in Hk. lia. }
  unfold PatternDetector.slice in Hk.
  rewrite lookup_drop, lookup_take_lt, list_lookup_fmap, lookup_seq_lt in Hk
    by lia.
  injection Hk as <-. eexists. split; [reflexivity|].
  match goal with
  | |- context [Z.of_nat ?n] =>
      assert (0 <= inject_Z (Z.of_nat n))%Q
        by (change 0%Q with (inject_Z 0); rewrite <- Zle_Qle; lia)
  end.
  lra.
Defined.

Lemma full_analysis_raises_on_early_peak_witness :
  TechnicalAnalysis.run_full_analysis (H := approx_lib)
    (Frame.alloc bars61_falling) TechnicalAnalysis.new []
  = Raise ValueError.
Proof.
  apply (full_analysis_raises_on_early_peak (H := approx_lib)
           (Frame.alloc bars61_falling) [] [bars61_falling] 0 bars61_falling
           ((fun j => Fin (195 - inject_Z (Z.of_nat j))) <$> seq 0 61)
           ((fun j => Fin (200 - inject_Z (Z.of_nat j))) <$> seq 0 61)
           ((fun j => Fin (190 - inject_Z (Z.of_nat j))) <$> seq 0 61) 30);
    try reflexivity; try (cbn; lia).
  exact falling_peak.
Defined.
